(** * Boxcat backend of the BCAT service (core/hle/service/bcat/backend/boxcat.cpp)

    A shallow embedding of the Boxcat content-synchronisation client: the
    transfer client ([DownloadInternal]), the result taxonomy, the
    synchronisation pipeline ([SynchronizeInternal]), cache maintenance
    ([Clear]), the launch-parameter fetch and the status feed ([GetStatus]).

    Collaborators that the source treats as black boxes (the HTTPS
    transport, SHA-256, file-system failures, the zip extractor, the raw
    directory copy, the JSON parser) are fields of an environment record
    [Env]; every theorem quantifies over all environments. *)

From Stdlib Require Import NArith ZArith Ascii String List Lia Bool.
From Stdlib Require Import Strings.Byte.
From stdpp Require Import base option list gmap strings.

Import ListNotations.
Local Open Scope N_scope.

(** ** Fixed-width hexadecimal formatting (fmt's [{:016X}] and [{:02x}]) *)

Module Hex.

(** One hexadecimal digit; [upper] selects "0123456789ABCDEF". *)
Definition hex_digit (upper : bool) (d : N) : ascii :=
  if d <? 10 then ascii_of_N (48 + d)
  else if upper then ascii_of_N (55 + d) else ascii_of_N (87 + d).

(** fmt's [format_uint<4>]: a do-while loop that emits the low nibble and
    shifts right by four until the value is zero.  [fuel] bounds the number
    of digits (16 for a 64-bit value, 2 for a byte). *)
Fixpoint format_uint4 (fuel : nat) (upper : bool) (n : N) (acc : string) : string :=
  match fuel with
  | O => acc
  | S fuel' =>
      let acc' := String (hex_digit upper (n mod 16)) acc in
      if n / 16 =? 0 then acc' else format_uint4 fuel' upper (n / 16) acc'
  end.

Fixpoint fill (k : nat) (c : ascii) (s : string) : string :=
  match k with
  | O => s
  | S k' => String c (fill k' c s)
  end.

(** Numeric alignment with the [0] flag: zeros are put on the left up to the
    requested width; a longer number is never cut. *)
Definition zero_pad (width : nat) (s : string) : string :=
  fill (width - String.length s) "0"%char s.

(** [fmt::format("{:016X}", v)] for [v : u64]. *)
Definition fmt_016X (v : N) : string :=
  zero_pad 16 (format_uint4 16 true (v mod 2 ^ 64) EmptyString).

(** [fmt::format("{:02x}", b)] / [{:02X}] for one byte. *)
Definition fmt_02x (upper : bool) (b : Byte.byte) : string :=
  zero_pad 2 (format_uint4 2 upper (Byte.to_N b) EmptyString).

(** [Common::HexArrayToString(data, upper)]: every byte as two digits. *)
Fixpoint HexArrayToString (data : list Byte.byte) (upper : bool) : string :=
  match data with
  | [] => EmptyString
  | b :: rest => String.append (fmt_02x upper b) (HexArrayToString rest upper)
  end.

(** Reading a string back as a hexadecimal numeral, used to state that the
    formatting is the zero-padded numeral of the identifier. *)
Definition digit_value (c : ascii) : option N :=
  let k := N_of_ascii c in
  if (48 <=? k) && (k <=? 57) then Some (k - 48)
  else if (65 <=? k) && (k <=? 70) then Some (k - 55)
  else if (97 <=? k) && (k <=? 102) then Some (k - 87)
  else None.

Fixpoint hex_value_from (acc : N) (s : string) : option N :=
  match s with
  | EmptyString => Some acc
  | String c s' =>
      match digit_value c with
      | Some d => hex_value_from (acc * 16 + d) s'
      | None => None
      end
  end.

Definition hex_value (s : string) : option N := hex_value_from 0 s.

(** A character of "0123456789ABCDEF". *)
Definition is_upper_hex (c : ascii) : bool :=
  let k := N_of_ascii c in
  ((48 <=? k) && (k <=? 57)) || ((65 <=? k) && (k <=? 70)).

Fixpoint all_chars (p : ascii -> bool) (s : string) : bool :=
  match s with
  | EmptyString => true
  | String c s' => p c && all_chars p s'
  end.

End Hex.

(** ** Strings as the code uses them *)

Module Str.

(** [::tolower] on one character (ASCII letters only). *)
Definition to_lower (c : ascii) : ascii :=
  let k := N_of_ascii c in
  if (65 <=? k) && (k <=? 90) then ascii_of_N (k + 32) else c.

Fixpoint lower (s : string) : string :=
  match s with
  | EmptyString => EmptyString
  | String c s' => String (to_lower c) (lower s')
  end.

(** Equivalence of two keys under httplib's case-insensitive comparator
    [detail::ci]. *)
Definition ci_eqb (a b : string) : bool := String.eqb (lower a) (lower b).

Fixpoint starts_with (needle s : string) : bool :=
  match needle, s with
  | EmptyString, _ => true
  | String a n', String b s' => Ascii.eqb a b && starts_with n' s'
  | String _ _, EmptyString => false
  end.

(** [std::string::find(needle)]: the first position at which [needle]
    occurs, [None] standing for [npos]. *)
Fixpoint find_from (pos : nat) (needle s : string) : option nat :=
  if starts_with needle s then Some pos
  else match s with
       | EmptyString => None
       | String _ s' => find_from (S pos) needle s'
       end.

Definition find (s needle : string) : option nat := find_from 0 needle s.

(** The claim's words: [needle] occurs somewhere in [s]. *)
Definition contains (s needle : string) : Prop :=
  exists pre post, s = String.append pre (String.append needle post).

End Str.

(** ** Data model *)

Abbreviation bytes := (list Byte.byte).

(** HTTP status codes for Boxcat ([enum class ResponseStatus]). *)
Module ResponseStatus.
Definition Ok : Z := 200%Z.
Definition BadClientVersion : Z := 301%Z.
Definition NoUpdate : Z := 304%Z.
Definition NoMatchTitleId : Z := 404%Z.
Definition NoMatchBuildId : Z := 406%Z.
End ResponseStatus.

Inductive DownloadResult :=
| Success
| NoResponse
| GeneralWebError
| NoMatchTitleId
| NoMatchBuildId
| InvalidContentType
| GeneralFSError
| BadClientVersion.

#[global] Instance DownloadResult_eq_dec : EqDecision DownloadResult.
Proof. solve_decision. Defined.

(** [static_cast<std::size_t>(result)]. *)
Definition DownloadResult_index (r : DownloadResult) : nat :=
  match r with
  | Success => 0 | NoResponse => 1 | GeneralWebError => 2
  | NoMatchTitleId => 3 | NoMatchBuildId => 4 | InvalidContentType => 5
  | GeneralFSError => 6 | BadClientVersion => 7
  end%nat.

Local Open Scope string_scope.
Local Open Scope list_scope.

Definition DOWNLOAD_RESULT_LOG_MESSAGES : list string :=
  [ "Success";
    "There was no response from the server.";
    "There was a general web error code returned from the server.";
    "The title ID of the current game doesn't have a boxcat implementation. If you believe an implementation should be added, contact yuzu support.";
    "The build ID of the current version of the game is marked as incompatible with the current BCAT distribution. Try upgrading or downgrading your game version or contacting yuzu support.";
    "The content type of the web response was invalid.";
    "There was a general filesystem error while saving the zip file.";
    "The server is either too new or too old to serve the request. Try using the latest version of an official release of yuzu." ].

(** [operator<<(std::ostream&, DownloadResult)]; [.at] cannot go out of
    range on the closed enumeration. *)
Definition DownloadResult_message (r : DownloadResult) : string :=
  nth (DownloadResult_index r) DOWNLOAD_RESULT_LOG_MESSAGES "".

Definition BOXCAT_HOSTNAME : string := "api.yuzu-emu.org".
Definition BOXCAT_PATHNAME_EVENTS : string := "/boxcat/events".
Definition BOXCAT_API_VERSION : string := "1".
Definition BOXCAT_CLIENT_TYPE : string := "yuzu".
Definition PORT : N := 443%N.
Definition TIMEOUT_SECONDS : N := 30%N.
Definition VFS_COPY_BLOCK_SIZE : N := (2 ^ 24)%N.

(** [fmt::format(BOXCAT_PATHNAME_DATA, title_id)] and
    [fmt::format(BOXCAT_PATHNAME_LAUNCHPARAM, title_id)]. *)
Definition BOXCAT_PATHNAME_DATA (title_id : N) : string :=
  "/boxcat/titles/" +:+ Hex.fmt_016X title_id +:+ "/data".
Definition BOXCAT_PATHNAME_LAUNCHPARAM (title_id : N) : string :=
  "/boxcat/titles/" +:+ Hex.fmt_016X title_id +:+ "/launchparam".

Definition Headers := list (string * string).

(** [Headers::find] on httplib's case-insensitive multimap: the first entry
    whose key is equivalent to [key]. *)
Fixpoint headers_find (key : string) (hs : Headers) : option string :=
  match hs with
  | [] => None
  | (k, v) :: rest => if Str.ci_eqb k key then Some v else headers_find key rest
  end.

Record Request := {
  rq_host : string;
  rq_port : N;
  rq_timeout : N;
  rq_path : string;
  rq_headers : Headers;
}.

Record Response := {
  status : Z;
  headers : Headers;
  body : bytes;
}.

Record TitleIDVersion := { title_id : N; build_id : N }.

(** A virtual directory: its name, its files and its subdirectories. *)
#[warning="-register-all"] Inductive VDir :=
| Dir (name : string) (files : list (string * bytes)) (subdirs : list VDir).

Definition GetName (d : VDir) : string := let 'Dir n _ _ := d in n.
Definition GetSubdirectories (d : VDir) : list VDir := let 'Dir _ _ s := d in s.

(** [VfsDirectory::GetSubdirectory(name)]: the first subdirectory of that
    name, [None] for a null handle. *)
Definition GetSubdirectory (d : VDir) (name : string) : option VDir :=
  List.find (fun s => String.eqb (GetName s) name) (GetSubdirectories d).

(** Writing a changed subdirectory back in place: subdirectory handles are
    shared pointers into the parent's tree. *)
Fixpoint replace_first (name : string) (new : VDir) (l : list VDir) : list VDir :=
  match l with
  | [] => []
  | s :: rest =>
      if String.eqb (GetName s) name then new :: rest
      else s :: replace_first name new rest
  end.

Definition set_subdirectory (d : VDir) (name : string) (new : VDir) : VDir :=
  let 'Dir n f s := d in Dir n f (replace_first name new s).

(** ** Collaborators and program state *)

(** JSON values as nlohmann::json holds them; an object is kept as its
    key/value pairs, looked up by the first match. *)
#[warning="-register-all"] Inductive Json :=
| JNull
| JBool (b : bool)
| JNumber (z : Z)
| JString (s : string)
| JArray (items : list Json)
| JObject (members : list (string * Json)).

Record EventStatus := {
  header : option string;
  footer : option string;
  events : list string;
}.

Inductive StatusResult :=
| StatusSuccess
| StatusOffline
| StatusBadClientVersion
| StatusParseError.

(** What the source leaves to other components.  None of it is constrained:
    the theorems below hold for every transport, digest, file-system fault
    pattern, extractor, copier and parser. *)
Record Env := {
  (** [Settings::values.bcat_boxcat_local] *)
  bcat_boxcat_local : bool;
  (** [FileUtil::GetUserPath(FileUtil::UserPath::CacheDir)] *)
  CacheDir : string;
  (** [httplib::Client::Get]; [None] is the null response *)
  http_get : Request -> option Response;
  (** [mbedtls_sha256(..., 0)] *)
  mbedtls_sha256 : bytes -> bytes;
  (** whether opening an existing file for reading succeeds *)
  open_rb_ok : string -> bool;
  (** items [fread] delivers when asked for the given number *)
  fread_count : string -> nat -> nat;
  (** whether [IOFile{path, "wb"}] opens (creating or truncating the file) *)
  open_wb_ok : string -> bool;
  (** whether [IOFile::Resize] to the given size succeeds *)
  resize_ok : string -> nat -> bool;
  (** items [fwrite] accepts from the given buffer *)
  fwrite_count : string -> bytes -> nat;
  (** whether [FileUtil::Delete] gets the file at the path removed *)
  delete_ok : string -> bool;
  (** [FileSys::ExtractZIP]; [None] is the null directory *)
  ExtractZIP : bytes -> option VDir;
  (** [FileSys::VfsRawCopyD(src, dest, block)]: success flag and the
      destination afterwards *)
  VfsRawCopyD : VDir -> VDir -> N -> bool * VDir;
  (** [VfsDirectory::DeleteSubdirectoryRecursive(name)]: success flag and
      the directory afterwards *)
  DeleteSubdirectoryRecursive : VDir -> string -> bool * VDir;
  (** [nlohmann::json::parse]; [None] is a thrown [parse_error] *)
  json_parse : bytes -> option Json;
}.

Inductive Event :=
| EvHttpGet (rq : Request)
| EvLock                      (* std::lock_guard on HLE::g_hle_lock taken *)
| EvCallback (ok : bool)      (* the completion callback *)
| EvUnlock                    (* the guard leaves scope *)
| EvShowCustomErrorText (code : Z) (main_text detail_text : string).

Inductive LogLevel := LogDebug | LogInfo | LogError.

Record World := {
  (** regular files of the host file system, by path *)
  w_files : gmap string bytes;
  (** the directory the getter resolves a title id to; absent = nullptr *)
  w_dirs : gmap N VDir;
  (** [Boxcat::is_syncing] *)
  w_is_syncing : bool;
  (** everything observable besides files and directories, oldest first *)
  w_trace : list Event;
  (** the log *)
  w_log : list (LogLevel * string);
}.

Definition set_files (f : gmap string bytes) (w : World) : World :=
  {| w_files := f; w_dirs := w_dirs w; w_is_syncing := w_is_syncing w;
     w_trace := w_trace w; w_log := w_log w |}.
Definition set_dirs (d : gmap N VDir) (w : World) : World :=
  {| w_files := w_files w; w_dirs := d; w_is_syncing := w_is_syncing w;
     w_trace := w_trace w; w_log := w_log w |}.
Definition set_is_syncing (b : bool) (w : World) : World :=
  {| w_files := w_files w; w_dirs := w_dirs w; w_is_syncing := b;
     w_trace := w_trace w; w_log := w_log w |}.
Definition set_trace (t : list Event) (w : World) : World :=
  {| w_files := w_files w; w_dirs := w_dirs w; w_is_syncing := w_is_syncing w;
     w_trace := t; w_log := w_log w |}.
Definition set_log (l : list (LogLevel * string)) (w : World) : World :=
  {| w_files := w_files w; w_dirs := w_dirs w; w_is_syncing := w_is_syncing w;
     w_trace := w_trace w; w_log := l |}.

(** Ways in which a call can end without returning. *)
Inductive Abort :=
| NullDereference        (* a member call through a null VirtualDir *)
| JsonTypeError          (* nlohmann::json::type_error, not caught *)
| JsonMissingKey.        (* const operator[] on an absent key: undefined *)

Inductive Res (A : Type) :=
| Returns (a : A)
| Aborts (why : Abort).
Arguments Returns {A} a.
Arguments Aborts {A} why.

(** State passing with aborts: the state reached so far is kept when a call
    aborts. *)
Definition M (A : Type) : Type := World -> Res A * World.

Definition ret {A} (a : A) : M A := fun w => (Returns a, w).
Definition bind {A B} (m : M A) (k : A -> M B) : M B :=
  fun w => match m w with
           | (Returns a, w') => k a w'
           | (Aborts why, w') => (Aborts why, w')
           end.
Definition abort {A} (why : Abort) : M A := fun w => (Aborts why, w).

Declare Scope boxcat_scope.
Delimit Scope boxcat_scope with boxcat.
Notation "'let!' x ':=' m 'in' k" := (bind m (fun x => k))
  (at level 10, x pattern, m at level 100, k at level 200) : boxcat_scope.
Notation "m ';;;' k" := (bind m (fun _ => k))
  (at level 100, k at level 200, right associativity) : boxcat_scope.
Local Open Scope boxcat_scope.

Definition emit (ev : Event) : M unit :=
  fun w => (Returns tt, set_trace (w_trace w ++ [ev]) w).
Definition LOG (lvl : LogLevel) (text : string) : M unit :=
  fun w => (Returns tt, set_log (w_log w ++ [(lvl, text)]) w).
Definition get_files : M (gmap string bytes) := fun w => (Returns (w_files w), w).
Definition put_files (f : gmap string bytes) : M unit :=
  fun w => (Returns tt, set_files f w).
Definition get_dirs : M (gmap N VDir) := fun w => (Returns (w_dirs w), w).
Definition put_dirs (d : gmap N VDir) : M unit :=
  fun w => (Returns tt, set_dirs d w).

(** ** Host files through [FileUtil] *)

(** [FileUtil::Exists]. *)
Definition Exists (path : string) : M bool :=
  let! f := get_files in ret (bool_decide (is_Some (f !! path))).

(** [FileUtil::Delete], whose boolean both callers discard: a deletion that
    works leaves no file at [path], one that fails leaves the file. *)
Definition Delete (e : Env) (path : string) : M unit :=
  let! f := get_files in
  if delete_ok e path then put_files (delete path f) else ret tt.

Definition SIZE_MAX : N := 2 ^ 64 - 1.

(** What the three lines [IOFile f{path, "rb"}; std::vector<u8> bytes(f.GetSize());
    f.ReadBytes(bytes.data(), bytes.size())] leave behind: the size
    reported, the buffer, and the value of [ReadBytes].  A file that is not
    open has size 0 and [ReadBytes] answers [SIZE_MAX]; a short read leaves
    the rest of the zero-initialised buffer as it was. *)
Record ReadBack := { rb_size : nat; rb_bytes : bytes; rb_count : N }.

Definition read_back_of (e : Env) (path : string) (f : gmap string bytes) : ReadBack :=
  match f !! path with
  | Some content =>
      if open_rb_ok e path then
        let size := length content in
        let k := Nat.min (fread_count e path size) size in
        {| rb_size := size;
           rb_bytes := firstn k content ++ repeat x00 (size - k);
           rb_count := N.of_nat k |}
      else {| rb_size := 0; rb_bytes := []; rb_count := SIZE_MAX |}
  | None => {| rb_size := 0; rb_bytes := []; rb_count := SIZE_MAX |}
  end.

Definition read_back (e : Env) (path : string) : M ReadBack :=
  let! f := get_files in ret (read_back_of e path f).

(** Lines 166-175 of the source: [CreateFullPath] only makes directories;
    opening with "wb" creates or truncates the file; [Resize] extends it
    with zeros; [WriteBytes] overwrites from the start and reports the
    number of items written. *)
Definition write_staging (e : Env) (path : string) (data : bytes) : M DownloadResult :=
  if negb (open_wb_ok e path) then ret GeneralFSError
  else
    let! f := get_files in
    put_files (<[path := []]> f);;;
    if negb (resize_ok e path (length data)) then ret GeneralFSError
    else
      let k := Nat.min (fwrite_count e path data) (length data) in
      put_files (<[path := firstn k data ++ repeat x00 (length data - k)]> f);;;
      if negb (k =? length data)%nat then ret GeneralFSError
      else ret Success.

(** ** The transfer client ([class Boxcat::Client]) *)

Record Client := {
  (** [std::unique_ptr<httplib::Client> client]: host, port and timeout of
      the connection once it has been made *)
  c_client : option (string * N * N);
  c_path : string;
  c_title_id : N;
  c_build_id : N;
}.

Definition new_Client (path : string) (title_id build_id : N) : Client :=
  {| c_client := None; c_path := path; c_title_id := title_id; c_build_id := build_id |}.

Definition DigestFile (e : Env) (data : bytes) : bytes := mbedtls_sha256 e data.

Definition base_headers (build_id : N) : Headers :=
  [ ("Boxcat-Client-Version", BOXCAT_API_VERSION);
    ("Boxcat-Client-Type", BOXCAT_CLIENT_TYPE);
    ("Boxcat-Build-Id", Hex.fmt_016X build_id) ].

(** The request headers, lines 131-143. *)
Definition request_headers (e : Env) (c : Client) (digest_header_name : string) : M Headers :=
  let! present := Exists (c_path c) in
  if present then
    let! file := read_back e (c_path c) in
    let digest := DigestFile e (rb_bytes file) in
    ret (base_headers (c_build_id c)
         ++ [(digest_header_name, Hex.HexArrayToString digest false)])
  else ret (base_headers (c_build_id c)).

Definition DownloadInternal (e : Env) (c : Client) (resolved_path : string)
    (timeout_seconds : N) (digest_header_name content_type_name : string)
  : M (Client * DownloadResult) :=
  let conn := match c_client c with
              | Some k => k
              | None => (BOXCAT_HOSTNAME, PORT, timeout_seconds)
              end in
  let c' := {| c_client := Some conn; c_path := c_path c;
               c_title_id := c_title_id c; c_build_id := c_build_id c |} in
  let! hs := request_headers e c digest_header_name in
  let rq := {| rq_host := conn.1.1; rq_port := conn.1.2; rq_timeout := conn.2;
               rq_path := resolved_path; rq_headers := hs |} in
  emit (EvHttpGet rq);;;
  match http_get e rq with
  | None => ret (c', NoResponse)
  | Some response =>
      if (status response =? ResponseStatus.NoUpdate)%Z then ret (c', Success)
      else if (status response =? ResponseStatus.BadClientVersion)%Z then ret (c', BadClientVersion)
      else if (status response =? ResponseStatus.NoMatchTitleId)%Z then ret (c', NoMatchTitleId)
      else if (status response =? ResponseStatus.NoMatchBuildId)%Z then ret (c', NoMatchBuildId)
      else if negb (status response =? ResponseStatus.Ok)%Z then ret (c', GeneralWebError)
      else
        match headers_find "content-type" (headers response) with
        | None => ret (c', InvalidContentType)
        | Some content_type =>
            match Str.find content_type content_type_name with
            | None => ret (c', InvalidContentType)
            | Some _ =>
                let! res := write_staging e (c_path c) (body response) in
                ret (c', res)
            end
        end
  end.

Definition DownloadDataZip (e : Env) (c : Client) : M (Client * DownloadResult) :=
  DownloadInternal e c (BOXCAT_PATHNAME_DATA (c_title_id c)) TIMEOUT_SECONDS
    "Boxcat-Data-Digest" "application/zip".

Definition DownloadLaunchParam (e : Env) (c : Client) : M (Client * DownloadResult) :=
  DownloadInternal e c (BOXCAT_PATHNAME_LAUNCHPARAM (c_title_id c)) (TIMEOUT_SECONDS / 3)
    "Boxcat-LaunchParam-Digest" "application/octet-stream".

(** ** Result presentation *)

Definition GetBINFilePath (e : Env) (title_id : N) : string :=
  CacheDir e +:+ "bcat/" +:+ Hex.fmt_016X title_id +:+ "/launchparam.bin".

Definition GetZIPFilePath (e : Env) (title_id : N) : string :=
  CacheDir e +:+ "bcat/" +:+ Hex.fmt_016X title_id +:+ "/data.zip".

(** If the error is something the user should know about, display it. *)
Definition HandleDownloadDisplayResult (res : DownloadResult) : M unit :=
  if bool_decide (res = Success) || bool_decide (res = NoResponse) ||
     bool_decide (res = GeneralWebError) || bool_decide (res = GeneralFSError) ||
     bool_decide (res = NoMatchTitleId) || bool_decide (res = InvalidContentType)
  then ret tt
  else emit (EvShowCustomErrorText (-1)
               "There was an error while attempting to use Boxcat."
               (nth (DownloadResult_index res) DOWNLOAD_RESULT_LOG_MESSAGES "")).

(** ** The synchronisation pipeline *)

(** The [failure] lambda: the guard is taken, the callback runs with
    [false], the guard is dropped when the lambda returns. *)
Definition failure : M unit :=
  emit EvLock;;; emit (EvCallback false);;; emit EvUnlock.

(** The two places that end with [std::lock_guard lock{...}; callback(true);]
    followed by the end of the function. *)
Definition report_success : M unit :=
  emit EvLock;;; emit (EvCallback true);;; emit EvUnlock.

(** Lines 215-224, shared word for word by [SynchronizeInternal] and
    [GetLaunchParameter]: log, delete the staging file for the two
    "no match" results, apply the display policy. *)
Definition handle_download_failure (e : Env) (path : string) (res : DownloadResult)
  : M unit :=
  LOG LogError ("Boxcat synchronization failed with error '"
                +:+ DownloadResult_message res +:+ "'!");;;
  (if bool_decide (res = NoMatchBuildId) || bool_decide (res = NoMatchTitleId)
   then Delete e path else ret tt);;;
  HandleDownloadDisplayResult res.

Definition copy_failed : M unit :=
  LOG LogError "Boxcat failed to copy extracted ZIP to target directory!";;;
  failure.

Definition SynchronizeInternal (e : Env) (title : TitleIDVersion)
    (dir_name : option string) : M unit :=
  if bcat_boxcat_local e then
    LOG LogInfo "Boxcat using local data by override, skipping download.";;;
    report_success
  else
    let zip_path := GetZIPFilePath e (title_id title) in
    let client := new_Client zip_path (title_id title) (build_id title) in
    let! dl := DownloadDataZip e client in
    let res := dl.2 in
    if negb (bool_decide (res = Success)) then
      handle_download_failure e zip_path res;;;
      failure
    else
      let! zip := read_back e zip_path in
      if (rb_size zip =? 0)%nat
         || negb (rb_count zip =? N.of_nat (length (rb_bytes zip)))%N then
        LOG LogError ("Boxcat failed to read ZIP file at path '" +:+ zip_path +:+ "'!");;;
        failure
      else
        match ExtractZIP e (rb_bytes zip) with
        | None =>
            LOG LogError "Boxcat failed to extract ZIP file!";;;
            failure
        | Some extracted =>
            let! dirs := get_dirs in
            match dir_name with
            | None =>
                match dirs !! title_id title with
                | None => copy_failed
                | Some target_dir =>
                    let copied := VfsRawCopyD e extracted target_dir VFS_COPY_BLOCK_SIZE in
                    put_dirs (<[title_id title := copied.2]> dirs);;;
                    if negb copied.1 then copy_failed else report_success
                end
            | Some name =>
                match dirs !! title_id title with
                | None =>
                    LOG LogError "Boxcat failed to get directory for title ID!";;;
                    failure
                | Some target_dir =>
                    match GetSubdirectory target_dir name, GetSubdirectory extracted name with
                    | Some target_sub, Some source_sub =>
                        let copied := VfsRawCopyD e source_sub target_sub VFS_COPY_BLOCK_SIZE in
                        put_dirs (<[title_id title :=
                                      set_subdirectory target_dir name copied.2]> dirs);;;
                        if negb copied.1 then copy_failed else report_success
                    | _, _ => copy_failed
                    end
                end
            end
        end.

(** [Boxcat::Synchronize] and [Boxcat::SynchronizeDirectory] set the flag,
    start [SynchronizeInternal] on a detached thread and return [true].
    The thread's body is run to completion here: what one invocation does,
    in its own order; interleavings with other threads are not part of this
    model. *)
Definition Synchronize (e : Env) (title : TitleIDVersion) : M bool :=
  (fun w => (Returns tt, set_is_syncing true w));;;
  SynchronizeInternal e title None;;;
  ret true.

Definition SynchronizeDirectory (e : Env) (title : TitleIDVersion) (name : string) : M bool :=
  (fun w => (Returns tt, set_is_syncing true w));;;
  SynchronizeInternal e title (Some name);;;
  ret true.

(** ** Cache maintenance *)

(** The second loop of [Clear]: delete by name, stop at the first failure. *)
Fixpoint delete_each (e : Env) (dir : VDir) (dirnames : list string) : bool * VDir :=
  match dirnames with
  | [] => (true, dir)
  | subdir :: rest =>
      let r := DeleteSubdirectoryRecursive e dir subdir in
      if negb r.1 then (false, r.2) else delete_each e r.2 rest
  end.

Definition Clear (e : Env) (title_id : N) : M bool :=
  if bcat_boxcat_local e then
    LOG LogInfo "Boxcat using local data by override, skipping clear.";;;
    ret true
  else
    let! dirs := get_dirs in
    match dirs !! title_id with
    | None => abort NullDereference      (* dir->GetSubdirectories() *)
    | Some dir =>
        let dirnames := map GetName (GetSubdirectories dir) in
        let r := delete_each e dir dirnames in
        put_dirs (<[title_id := r.2]> dirs);;;
        ret r.1
    end.

Definition SetPassphrase (e : Env) (title_id : N) (passphrase : bytes) : M unit :=
  LOG LogDebug ("called, title_id=" +:+ Hex.fmt_016X title_id +:+ ", passphrase="
                +:+ Hex.HexArrayToString passphrase true).

(** ** Launch parameter *)

Definition GetLaunchParameter (e : Env) (title : TitleIDVersion) : M (option bytes) :=
  let path := GetBINFilePath e (title_id title) in
  let read_bin : M (option bytes) :=
    let! bin := read_back e path in
    if (rb_size bin =? 0)%nat
       || negb (rb_count bin =? N.of_nat (length (rb_bytes bin)))%N then
      LOG LogError ("Boxcat failed to read launch parameter binary at path '"
                    +:+ path +:+ "'!");;;
      ret None
    else ret (Some (rb_bytes bin)) in
  if bcat_boxcat_local e then
    LOG LogInfo "Boxcat using local data by override, skipping download.";;;
    read_bin
  else
    let client := new_Client path (title_id title) (build_id title) in
    let! dl := DownloadLaunchParam e client in
    let res := dl.2 in
    if negb (bool_decide (res = Success)) then
      handle_download_failure e path res;;;
      ret None
    else read_bin.

(** ** Status feed *)

Module JsonOps.

Fixpoint assoc (key : string) (members : list (string * Json)) : option Json :=
  match members with
  | [] => None
  | (k, v) :: rest => if String.eqb k key then Some v else assoc key rest
  end.

(** [json[key]] on a non-const value: a null value turns into an empty
    object, an absent key is inserted as null, anything that is neither an
    object nor null throws [type_error] 305. *)
Definition at_mutable (j : Json) (key : string) : M Json :=
  match j with
  | JNull => ret JNull
  | JObject members =>
      match assoc key members with
      | Some v => ret v
      | None => ret JNull
      end
  | _ => abort JsonTypeError
  end.

(** [object[key]] on a const object: the key has to be there; the library
    asserts it and otherwise reads through the end iterator. *)
Definition at_const (members : list (string * Json)) (key : string) : M Json :=
  match assoc key members with
  | Some v => ret v
  | None => abort JsonMissingKey
  end.

(** [get<bool>()]: [type_error] 302 on anything but a boolean. *)
Definition get_bool (j : Json) : M bool :=
  match j with
  | JBool b => ret b
  | _ => abort JsonTypeError
  end.

(** [get<std::string>()] and the implicit conversion to [std::string]. *)
Definition get_string (j : Json) : M string :=
  match j with
  | JString s => ret s
  | _ => abort JsonTypeError
  end.

Definition is_string (j : Json) : bool :=
  match j with JString _ => true | _ => false end.
Definition is_array (j : Json) : bool :=
  match j with JArray _ => true | _ => false end.
Definition is_null (j : Json) : bool :=
  match j with JNull => true | _ => false end.

End JsonOps.

(** The inner loop over [object["events"]]: entries that are not strings
    are skipped. *)
Fixpoint push_events (items : list Json) (acc : list string) : list string :=
  match items with
  | [] => acc
  | JString s :: rest => push_events rest (acc ++ [s])
  | _ :: rest => push_events rest acc
  end.

(** The body of the loop over [json["games"]] for an entry that is an
    object with a "name" member. *)
Definition decode_game (members : list (string * Json)) : M (string * EventStatus) :=
  let! h := JsonOps.at_const members "header" in
  let header := match h with JString s => Some s | _ => None end in
  let! f := JsonOps.at_const members "footer" in
  let footer := match f with JString s => Some s | _ => None end in
  let! ev := JsonOps.at_const members "events" in
  let events := match ev with JArray items => push_events items [] | _ => [] end in
  let! n := JsonOps.at_const members "name" in
  let! name := JsonOps.get_string n in
  ret (name, {| header := header; footer := footer; events := events |}).

Fixpoint decode_games (items : list Json) (games : gmap string EventStatus)
  : M (gmap string EventStatus) :=
  match items with
  | [] => ret games
  | JObject members :: rest =>
      if bool_decide (is_Some (JsonOps.assoc "name" members)) then
        let! entry := decode_game members in
        decode_games rest (<[entry.1 := entry.2]> games)
      else decode_games rest games
  | _ :: rest => decode_games rest games
  end.

(** [global] and [games] are the caller's objects, passed by reference:
    the values on entry come in, the values on return go out. *)
Definition GetStatus (e : Env) (global : option string) (games : gmap string EventStatus)
  : M (StatusResult * option string * gmap string EventStatus) :=
  let rq := {| rq_host := BOXCAT_HOSTNAME; rq_port := PORT; rq_timeout := TIMEOUT_SECONDS;
               rq_path := BOXCAT_PATHNAME_EVENTS;
               rq_headers := [ ("Boxcat-Client-Version", BOXCAT_API_VERSION);
                               ("Boxcat-Client-Type", BOXCAT_CLIENT_TYPE) ] |} in
  emit (EvHttpGet rq);;;
  match http_get e rq with
  | None => ret (StatusOffline, global, games)
  | Some response =>
      if (status response =? ResponseStatus.BadClientVersion)%Z
      then ret (StatusBadClientVersion, global, games)
      else
        match json_parse e (body response) with
        | None => ret (StatusParseError, global, games)
        | Some json =>
            let! online_field := JsonOps.at_mutable json "online" in
            let! online := JsonOps.get_bool online_field in
            if negb online then ret (StatusOffline, global, games)
            else
              let! global_field := JsonOps.at_mutable json "global" in
              let! global' :=
                (if JsonOps.is_null global_field then ret None
                 else let! s := JsonOps.get_string global_field in ret (Some s)) in
              let! games_field := JsonOps.at_mutable json "games" in
              let! games' :=
                (match games_field with
                 | JArray items => decode_games items games
                 | _ => ret games
                 end) in
              ret (StatusSuccess, global', games')
        end
  end.

(** ** Vocabulary of the statements *)

(** The two operations of the transfer client, under the names the
    specification gives them. *)
Inductive Fetch := FetchArchive | FetchLaunchParameter.

Definition fetch (e : Env) (op : Fetch) (c : Client) : M (Client * DownloadResult) :=
  match op with
  | FetchArchive => DownloadDataZip e c
  | FetchLaunchParameter => DownloadLaunchParam e c
  end.

Definition remote_path (op : Fetch) (title_id : N) : string :=
  match op with
  | FetchArchive => BOXCAT_PATHNAME_DATA title_id
  | FetchLaunchParameter => BOXCAT_PATHNAME_LAUNCHPARAM title_id
  end.

Definition fetch_timeout (op : Fetch) : N :=
  match op with
  | FetchArchive => TIMEOUT_SECONDS
  | FetchLaunchParameter => TIMEOUT_SECONDS / 3
  end.

Definition digest_header_name (op : Fetch) : string :=
  match op with
  | FetchArchive => "Boxcat-Data-Digest"
  | FetchLaunchParameter => "Boxcat-LaunchParam-Digest"
  end.

Definition expected_content_type (op : Fetch) : string :=
  match op with
  | FetchArchive => "application/zip"
  | FetchLaunchParameter => "application/octet-stream"
  end.

Definition staging_path (e : Env) (op : Fetch) (title_id : N) : string :=
  match op with
  | FetchArchive => GetZIPFilePath e title_id
  | FetchLaunchParameter => GetBINFilePath e title_id
  end.

(** The world after the caller of the transfer client has run: the
    synchronisation pipeline for the archive, [GetLaunchParameter] for the
    launch parameter. *)
Definition after_caller (e : Env) (op : Fetch) (title : TitleIDVersion)
    (dir_name : option string) (w : World) : World :=
  match op with
  | FetchArchive => (SynchronizeInternal e title dir_name w).2
  | FetchLaunchParameter => (GetLaunchParameter e title w).2
  end.

(** The request [DownloadInternal] hands to the transport in world [w]. *)
Definition built_request (e : Env) (c : Client) (resolved_path : string)
    (timeout_seconds : N) (digest_name : string) (w : World) : Request :=
  let conn := match c_client c with
              | Some k => k
              | None => (BOXCAT_HOSTNAME, PORT, timeout_seconds)
              end in
  {| rq_host := conn.1.1; rq_port := conn.1.2; rq_timeout := conn.2;
     rq_path := resolved_path;
     rq_headers := match (request_headers e c digest_name w).1 with
                   | Returns hs => hs
                   | Aborts _ => []
                   end |}.

(** The staging file can be opened, resized and written in full. *)
Definition fs_write_succeeds (e : Env) (path : string) (data : bytes) : bool :=
  open_wb_ok e path && resize_ok e path (length data)
  && (length data <=? fwrite_count e path data)%nat.

(** Reading the file at [path] back delivers all of it. *)
Definition fs_read_complete (e : Env) (path : string) (content : bytes) : bool :=
  open_rb_ok e path && (length content <=? fread_count e path (length content))%nat.

(** A sixteen-character upper-case hexadecimal numeral for [v]. *)
Definition hex16_of (s : string) (v : N) : Prop :=
  String.length s = 16%nat
  /\ Hex.all_chars Hex.is_upper_hex s = true
  /\ Hex.hex_value s = Some v.

Definition is_report_event (ev : Event) : bool :=
  match ev with
  | EvLock | EvCallback _ | EvUnlock => true
  | _ => false
  end.

Definition is_http_event (ev : Event) : bool :=
  match ev with
  | EvHttpGet _ => true
  | _ => false
  end.

(** No lock, unlock or callback among [evs]. *)
Definition quiet (evs : list Event) : Prop := forallb (fun ev => negb (is_report_event ev)) evs = true.

Definition http_count (evs : list Event) : nat := length (filter is_http_event evs).

(** Two worlds that differ at most in the log. *)
Definition same_but_log (w1 w2 : World) : Prop :=
  w_files w1 = w_files w2 /\ w_dirs w1 = w_dirs w2
  /\ w_is_syncing w1 = w_is_syncing w2 /\ w_trace w1 = w_trace w2.

(** The public operations of the backend, as calls with their arguments,
    and what each hands back. *)
Inductive Call :=
| CallSynchronize (title : TitleIDVersion)
| CallSynchronizeDirectory (title : TitleIDVersion) (name : string)
| CallClear (title_id : N)
| CallSetPassphrase (title_id : N) (passphrase : bytes)
| CallGetLaunchParameter (title : TitleIDVersion)
| CallGetStatus (global : option string) (games : gmap string EventStatus).

Inductive Answer :=
| AnsBool (b : bool)
| AnsVoid
| AnsBytes (data : option bytes)
| AnsStatus (r : StatusResult) (global : option string) (games : gmap string EventStatus).

Definition call (e : Env) (c : Call) : M Answer :=
  match c with
  | CallSynchronize title => let! b := Synchronize e title in ret (AnsBool b)
  | CallSynchronizeDirectory title name =>
      let! b := SynchronizeDirectory e title name in ret (AnsBool b)
  | CallClear title_id => let! b := Clear e title_id in ret (AnsBool b)
  | CallSetPassphrase title_id passphrase =>
      SetPassphrase e title_id passphrase;;; ret AnsVoid
  | CallGetLaunchParameter title =>
      let! d := GetLaunchParameter e title in ret (AnsBytes d)
  | CallGetStatus global games =>
      let! r := GetStatus e global games in ret (AnsStatus r.1.1 r.1.2 r.2)
  end.

(** A run of calls; it stops at the first one that aborts. *)
Fixpoint calls (e : Env) (cs : list Call) : M (list Answer) :=
  match cs with
  | [] => ret []
  | c :: rest =>
      let! a := call e c in
      let! others := calls e rest in
      ret (a :: others)
  end.

(** ** The status feed in the specification's words *)

(** The strings among [items], in order. *)
Fixpoint strings_of (items : list Json) : list string :=
  match items with
  | [] => []
  | JString s :: rest => s :: strings_of rest
  | _ :: rest => strings_of rest
  end.

Definition string_or_none (field : option Json) : option string :=
  match field with
  | Some (JString s) => Some s
  | _ => None
  end.

(** One game entry read leniently: a header or footer that is missing or
    not a string is no value; events that are not an array are empty, and
    entries of the array that are not strings are skipped. *)
Definition lenient_event_status (members : list (string * Json)) : EventStatus :=
  {| header := string_or_none (JsonOps.assoc "header" members);
     footer := string_or_none (JsonOps.assoc "footer" members);
     events := match JsonOps.assoc "events" members with
               | Some (JArray items) => strings_of items
               | _ => []
               end |}.

(** Every entry that is an object with a string name is inserted under
    that name, later entries overwriting earlier ones. *)
Fixpoint lenient_games (items : list Json) (games : gmap string EventStatus)
  : gmap string EventStatus :=
  match items with
  | [] => games
  | JObject members :: rest =>
      match JsonOps.assoc "name" members with
      | Some (JString name) =>
          lenient_games rest (<[name := lenient_event_status members]> games)
      | _ => lenient_games rest games
      end
  | _ :: rest => lenient_games rest games
  end.

(** An entry of "games" the loop gets through: anything that is not an
    object or has no "name"; or an object whose "name" is a string and
    that has "header", "footer" and "events" members, of whatever type. *)
Definition game_entry_ok (item : Json) : bool :=
  match item with
  | JObject members =>
      match JsonOps.assoc "name" members with
      | None => true
      | Some n =>
          JsonOps.is_string n
          && bool_decide (is_Some (JsonOps.assoc "header" members))
          && bool_decide (is_Some (JsonOps.assoc "footer" members))
          && bool_decide (is_Some (JsonOps.assoc "events" members))
      end
  | _ => true
  end.

(** "global" is absent, null or a string. *)
Definition global_field_ok (members : list (string * Json)) : bool :=
  match JsonOps.assoc "global" members with
  | None | Some JNull | Some (JString _) => true
  | Some _ => false
  end.

(** "games" is absent, not an array, or an array of entries the loop gets
    through. *)
Definition games_field_ok (members : list (string * Json)) : bool :=
  match JsonOps.assoc "games" members with
  | Some (JArray items) => forallb game_entry_ok items
  | _ => true
  end.

(** The request of [GetStatus]. *)
Definition status_request : Request :=
  {| rq_host := BOXCAT_HOSTNAME; rq_port := PORT; rq_timeout := TIMEOUT_SECONDS;
     rq_path := BOXCAT_PATHNAME_EVENTS;
     rq_headers := [ ("Boxcat-Client-Version", BOXCAT_API_VERSION);
                     ("Boxcat-Client-Type", BOXCAT_CLIENT_TYPE) ] |}.

(** ** Concrete inputs used in examples *)

Module Sample.

Definition title : TitleIDVersion :=
  {| title_id := 0x0100000000010000; build_id := 0x00000000000ABCDE |}.

(** An environment without faults: the transport answers every request with
    [reply], the parser answers [parsed], files open and transfer in full,
    the extractor yields an empty tree and copies and deletions succeed
    without changing the destination.  The digest is a stand-in (the first
    32 bytes, zero padded); no statement depends on it. *)
Definition env (local : bool) (reply : option Response) (parsed : option Json) : Env :=
  {| bcat_boxcat_local := local;
     CacheDir := "/cache/";
     http_get := fun _ => reply;
     mbedtls_sha256 := fun data => firstn 32 (data ++ repeat x00 32);
     open_rb_ok := fun _ => true;
     fread_count := fun _ n => n;
     open_wb_ok := fun _ => true;
     resize_ok := fun _ _ => true;
     fwrite_count := fun _ data => length data;
     delete_ok := fun _ => true;
     ExtractZIP := fun _ => Some (Dir "" [] []);
     VfsRawCopyD := fun _ dest _ => (true, dest);
     DeleteSubdirectoryRecursive := fun dir _ => (true, dir);
     json_parse := fun _ => parsed |}.

(** The same, but the staging file cannot be resized after it was opened. *)
Definition env_resize_fails (reply : option Response) : Env :=
  {| bcat_boxcat_local := false;
     CacheDir := "/cache/";
     http_get := fun _ => reply;
     mbedtls_sha256 := fun data => firstn 32 (data ++ repeat x00 32);
     open_rb_ok := fun _ => true;
     fread_count := fun _ n => n;
     open_wb_ok := fun _ => true;
     resize_ok := fun _ _ => false;
     fwrite_count := fun _ data => length data;
     delete_ok := fun _ => true;
     ExtractZIP := fun _ => Some (Dir "" [] []);
     VfsRawCopyD := fun _ dest _ => (true, dest);
     DeleteSubdirectoryRecursive := fun dir _ => (true, dir);
     json_parse := fun _ => None |}.

Definition empty_world : World :=
  {| w_files := ∅; w_dirs := ∅; w_is_syncing := false; w_trace := []; w_log := [] |}.

Definition zip_path : string := "/cache/bcat/0100000000010000/data.zip".
Definition bin_path : string := "/cache/bcat/0100000000010000/launchparam.bin".

(** A world in which both staging files of [title] hold three bytes and
    the title has an empty target directory. *)
Definition staged_world : World :=
  {| w_files := <[zip_path := [x50; x4b; x03]]> (<[bin_path := [x01; x02; x03]]> ∅);
     w_dirs := <[title_id title := Dir "" [] []]> ∅;
     w_is_syncing := false; w_trace := []; w_log := [] |}.

Definition zip_reply : Response :=
  {| status := 200;
     headers := [("Content-Type", "application/zip; charset=binary")];
     body := [x50; x4b] |}.

Definition status_reply (code : Z) : Response :=
  {| status := code; headers := []; body := [] |}.

(** A status 200 answer carrying the given JSON text. *)
Definition json_reply (text : bytes) : Response :=
  {| status := 200; headers := [("Content-Type", "application/json")]; body := text |}.

(** The text of the object with the one member "online" : "yes", and the
    value it parses to. *)
Definition online_yes_text : bytes :=
  [x7b; x22; x6f; x6e; x6c; x69; x6e; x65; x22; x3a; x22; x79; x65; x73; x22; x7d].
Definition online_yes : Json := JObject [("online", JString "yes")].

(** The text of the empty object, and its value. *)
Definition empty_object_text : bytes := [x7b; x7d].
Definition empty_object : Json := JObject [].

(** The feed of the specification's example: online, no global message,
    one game "G1" with two events and neither header nor footer member;
    and the same game with both members present as null. *)
Definition feed_without_header_text : bytes :=
  [
    x7b; x22; x6f; x6e; x6c; x69; x6e; x65; x22; x3a; x20; x74;
    x72; x75; x65; x2c; x20; x22; x67; x6c; x6f; x62; x61; x6c;
    x22; x3a; x20; x6e; x75; x6c; x6c; x2c; x20; x22; x67; x61;
    x6d; x65; x73; x22; x3a; x20; x5b; x7b; x22; x6e; x61; x6d;
    x65; x22; x3a; x20; x22; x47; x31; x22; x2c; x20; x22; x65;
    x76; x65; x6e; x74; x73; x22; x3a; x20; x5b; x22; x65; x31;
    x22; x2c; x22; x65; x32; x22; x5d; x7d; x5d; x7d ].

Definition feed_without_header : Json :=
  JObject [ ("online", JBool true); ("global", JNull);
            ("games", JArray [ JObject [ ("name", JString "G1");
                                         ("events", JArray [JString "e1"; JString "e2"]) ] ]) ].

(** The text of [feed_with_nulls] below: online true, global null, and
    three entries under games: the object with name G1, header null,
    footer 3 and events e1, 0, e2; the number 7; an object with only a
    title. *)
Definition feed_with_nulls_text : bytes :=
  [
    x7b; x22; x6f; x6e; x6c; x69; x6e; x65; x22; x3a; x74; x72;
    x75; x65; x2c; x22; x67; x6c; x6f; x62; x61; x6c; x22; x3a;
    x6e; x75; x6c; x6c; x2c; x22; x67; x61; x6d; x65; x73; x22;
    x3a; x5b; x7b; x22; x6e; x61; x6d; x65; x22; x3a; x22; x47;
    x31; x22; x2c; x22; x68; x65; x61; x64; x65; x72; x22; x3a;
    x6e; x75; x6c; x6c; x2c; x22; x66; x6f; x6f; x74; x65; x72;
    x22; x3a; x33; x2c; x22; x65; x76; x65; x6e; x74; x73; x22;
    x3a; x5b; x22; x65; x31; x22; x2c; x30; x2c; x22; x65; x32;
    x22; x5d; x7d; x2c; x37; x2c; x7b; x22; x74; x69; x74; x6c;
    x65; x22; x3a; x22; x6e; x6f; x20; x6e; x61; x6d; x65; x22;
    x7d; x5d; x7d ].

Definition feed_with_nulls : Json :=
  JObject [ ("online", JBool true); ("global", JNull);
            ("games", JArray [ JObject [ ("name", JString "G1");
                                         ("header", JNull); ("footer", JNumber 3);
                                         ("events", JArray [JString "e1"; JNumber 0;
                                                            JString "e2"]) ];
                               JNumber 7;
                               JObject [("title", JString "no name")] ]) ].

End Sample.

(** ** Trace disciplines *)

(** [m] always returns and adds neither a request nor a lock, callback or
    unlock to the trace. *)
Definition Silent {A} (m : M A) : Prop :=
  forall w, exists a pre w',
    m w = (Returns a, w')
    /\ w_trace w' = w_trace w ++ pre
    /\ quiet pre /\ http_count pre = 0%nat.

(** [m] always returns, and what it adds to the trace ends with one
    callback between taking and dropping the lock; before that there is no
    lock, callback or unlock and there are at most [n] requests. *)
Definition Reports (n : nat) (m : M unit) : Prop :=
  forall w, exists pre ok w',
    m w = (Returns tt, w')
    /\ w_trace w' = w_trace w ++ pre ++ [EvLock; EvCallback ok; EvUnlock]
    /\ quiet pre /\ (http_count pre <= n)%nat.

(** [m] does not look at the log: from two worlds that differ at most in
    the log it gives the same result and worlds that again differ at most
    in the log. *)
Definition LogBlind {A} (m : M A) : Prop :=
  forall w1 w2, same_but_log w1 w2 ->
    (m w1).1 = (m w2).1 /\ same_but_log (m w1).2 (m w2).2.


(** ** Further vocabulary *)

(** Reading hexadecimal text back as bytes, two digits to the byte; it
    shares nothing with the formatting above but the value of a digit. *)
Module HexRead.

(** A character of "0123456789abcdef". *)
Definition is_lower_hex (c : ascii) : bool :=
  let k := N_of_ascii c in
  ((48 <=? k)%N && (k <=? 57)%N) || ((97 <=? k)%N && (k <=? 102)%N).

Fixpoint bytes_of_hex (s : string) : option bytes :=
  match s with
  | EmptyString => Some []
  | String _ EmptyString => None
  | String high (String low rest) =>
      match Hex.digit_value high, Hex.digit_value low, bytes_of_hex rest with
      | Some h, Some l, Some tail =>
          match Byte.of_N (h * 16 + l)%N with
          | Some b => Some (b :: tail)
          | None => None
          end
      | _, _, _ => None
      end
  end.

End HexRead.

(** The directory without its subdirectories of the given name: what a
    recursive delete by name that succeeds leaves behind. *)
Definition without_subdirectory (d : VDir) (name : string) : VDir :=
  let 'Dir n f s := d in
  Dir n f (List.filter (fun x => negb (String.eqb (GetName x) name)) s).

Definition GetFiles (d : VDir) : list (string * bytes) := let 'Dir _ f _ := d in f.

(** The name under which the loop of [GetStatus] enters an item of
    "games", when it enters it. *)
Definition entry_name (item : Json) : option string :=
  match item with
  | JObject members => string_or_none (JsonOps.assoc "name" members)
  | _ => None
  end.

(** The world keeps the flag [is_syncing] once it is set. *)
Definition KeepsSyncing {A} (m : M A) : Prop :=
  forall w, w_is_syncing w = true -> w_is_syncing (m w).2 = true.

Module Sample2.

(** As [Sample.env], with a deleter that removes the subdirectories of the
    given name and succeeds. *)
Definition env_deleting : Env :=
  {| bcat_boxcat_local := false;
     CacheDir := "/cache/";
     http_get := fun _ => None;
     mbedtls_sha256 := fun data => firstn 32 (data ++ repeat x00 32);
     open_rb_ok := fun _ => true;
     fread_count := fun _ n => n;
     open_wb_ok := fun _ => true;
     resize_ok := fun _ _ => true;
     fwrite_count := fun _ data => length data;
     delete_ok := fun _ => true;
     ExtractZIP := fun _ => Some (Dir "" [] []);
     VfsRawCopyD := fun _ dest _ => (true, dest);
     DeleteSubdirectoryRecursive := fun dir name => (true, without_subdirectory dir name);
     json_parse := fun _ => None |}.

(** A deleter that refuses the subdirectory "B" and removes any other. *)
Definition env_refusing_B : Env :=
  {| bcat_boxcat_local := false;
     CacheDir := "/cache/";
     http_get := fun _ => None;
     mbedtls_sha256 := fun data => firstn 32 (data ++ repeat x00 32);
     open_rb_ok := fun _ => true;
     fread_count := fun _ n => n;
     open_wb_ok := fun _ => true;
     resize_ok := fun _ _ => true;
     fwrite_count := fun _ data => length data;
     delete_ok := fun _ => true;
     ExtractZIP := fun _ => Some (Dir "" [] []);
     VfsRawCopyD := fun _ dest _ => (true, dest);
     DeleteSubdirectoryRecursive :=
       fun dir name => if String.eqb name "B" then (false, dir)
                       else (true, without_subdirectory dir name);
     json_parse := fun _ => None |}.

(** A target directory with one file and the subdirectories A, B and C. *)
Definition target : VDir :=
  Dir "root" [("readme", [x01])]
    [ Dir "A" [("a", [x0a])] []; Dir "B" [] [Dir "inner" [] []]; Dir "C" [] [] ].

Definition world_with_target : World :=
  {| w_files := ∅;
     w_dirs := <[title_id Sample.title := target]> ∅;
     w_is_syncing := false; w_trace := []; w_log := [] |}.

(** An extractor that yields a tree with a subdirectory "B" holding one
    file, and a copy that puts the source's files into the destination and
    keeps the destination's name. *)
Definition extracted : VDir := Dir "" [] [Dir "B" [("new", [x2a])] []].

Definition env_copying (reply : option Response) : Env :=
  {| bcat_boxcat_local := false;
     CacheDir := "/cache/";
     http_get := fun _ => reply;
     mbedtls_sha256 := fun data => firstn 32 (data ++ repeat x00 32);
     open_rb_ok := fun _ => true;
     fread_count := fun _ n => n;
     open_wb_ok := fun _ => true;
     resize_ok := fun _ _ => true;
     fwrite_count := fun _ data => length data;
     delete_ok := fun _ => true;
     ExtractZIP := fun _ => Some extracted;
     VfsRawCopyD := fun src dest _ =>
       (true, Dir (GetName dest) (GetFiles src ++ GetFiles dest) (GetSubdirectories dest));
     DeleteSubdirectoryRecursive := fun dir name => (true, without_subdirectory dir name);
     json_parse := fun _ => None |}.

(** As [Sample.env], but [FileUtil::Delete] does not get any file removed. *)
Definition env_delete_refused (reply : option Response) : Env :=
  {| bcat_boxcat_local := false;
     CacheDir := "/cache/";
     http_get := fun _ => reply;
     mbedtls_sha256 := fun data => firstn 32 (data ++ repeat x00 32);
     open_rb_ok := fun _ => true;
     fread_count := fun _ n => n;
     open_wb_ok := fun _ => true;
     resize_ok := fun _ _ => true;
     fwrite_count := fun _ data => length data;
     delete_ok := fun _ => false;
     ExtractZIP := fun _ => Some (Dir "" [] []);
     VfsRawCopyD := fun _ dest _ => (true, dest);
     DeleteSubdirectoryRecursive := fun dir _ => (true, dir);
     json_parse := fun _ => None |}.

(** As [Sample.env], but no file can be opened for reading. *)
Definition env_unreadable (reply : option Response) : Env :=
  {| bcat_boxcat_local := false;
     CacheDir := "/cache/";
     http_get := fun _ => reply;
     mbedtls_sha256 := fun data => firstn 32 (data ++ repeat x00 32);
     open_rb_ok := fun _ => false;
     fread_count := fun _ n => n;
     open_wb_ok := fun _ => true;
     resize_ok := fun _ _ => true;
     fwrite_count := fun _ data => length data;
     delete_ok := fun _ => true;
     ExtractZIP := fun _ => Some (Dir "" [] []);
     VfsRawCopyD := fun _ dest _ => (true, dest);
     DeleteSubdirectoryRecursive := fun dir _ => (true, dir);
     json_parse := fun _ => None |}.

Definition octet_reply (data : bytes) : Response :=
  {| status := 200;
     headers := [("content-type", "application/octet-stream")];
     body := data |}.

(** A feed that names the game G1 twice, first with header "old", then
    with header "new" and one event; [feed_twice_text] is its text. *)
Definition feed_twice_text : bytes :=
  [
    x7b; x22; x6f; x6e; x6c; x69; x6e; x65; x22; x3a; x74; x72;
    x75; x65; x2c; x22; x67; x61; x6d; x65; x73; x22; x3a; x5b;
    x7b; x22; x6e; x61; x6d; x65; x22; x3a; x22; x47; x31; x22;
    x2c; x22; x68; x65; x61; x64; x65; x72; x22; x3a; x22; x6f;
    x6c; x64; x22; x2c; x22; x66; x6f; x6f; x74; x65; x72; x22;
    x3a; x6e; x75; x6c; x6c; x2c; x22; x65; x76; x65; x6e; x74;
    x73; x22; x3a; x5b; x5d; x7d; x2c; x7b; x22; x6e; x61; x6d;
    x65; x22; x3a; x22; x47; x31; x22; x2c; x22; x68; x65; x61;
    x64; x65; x72; x22; x3a; x22; x6e; x65; x77; x22; x2c; x22;
    x66; x6f; x6f; x74; x65; x72; x22; x3a; x6e; x75; x6c; x6c;
    x2c; x22; x65; x76; x65; x6e; x74; x73; x22; x3a; x5b; x22;
    x65; x22; x5d; x7d; x5d; x7d ].

Definition feed_twice_games : list Json :=
  [ JObject [ ("name", JString "G1"); ("header", JString "old");
              ("footer", JNull); ("events", JArray []) ];
    JObject [ ("name", JString "G1"); ("header", JString "new");
              ("footer", JNull); ("events", JArray [JString "e"]) ] ].

Definition feed_twice : Json :=
  JObject [ ("online", JBool true); ("games", JArray feed_twice_games) ].

(** What a caller may already hold: a status for the game G0. *)
Definition held_games : gmap string EventStatus :=
  <["G0" := {| header := Some "kept"; footer := None; events := [] |}]> ∅.

End Sample2.

(** What reading the file at [path] back yields to the two callers that
    test [size == 0 || ReadBytes(...) != size]: its bytes, when it is
    there, is not empty and is read in full. *)
Definition usable_content (e : Env) (path : string) (f : gmap string bytes) : option bytes :=
  match f !! path with
  | Some content =>
      if fs_read_complete e path content && negb (length content =? 0)%nat
      then Some content else None
  | None => None
  end.
(** * Properties *)

(** ** Hexadecimal formatting *)

Module HexFacts.
Import Hex.

Lemma digit_value_hex_digit d : d < 16 -> digit_value (hex_digit true d) = Some d.
Proof.
  intros Hd.
  destruct d as [|p]; [reflexivity|].
  do 5 (try destruct p as [p|p|]); try reflexivity; exfalso; lia.
Qed.

Lemma is_upper_hex_digit d : d < 16 -> is_upper_hex (hex_digit true d) = true.
Proof.
  intros Hd.
  destruct d as [|p]; [reflexivity|].
  do 5 (try destruct p as [p|p|]); try reflexivity; exfalso; lia.
Qed.

Lemma append_cons c (s1 s2 : string) :
  String.append (String c s1) s2 = String c (String.append s1 s2).
Proof. reflexivity. Qed.

Lemma append_nil_r (s : string) : String.append s EmptyString = s.
Proof. induction s as [|c s IH]; [reflexivity | now rewrite append_cons, IH]. Qed.

Lemma append_assoc (s1 s2 s3 : string) :
  String.append (String.append s1 s2) s3 = String.append s1 (String.append s2 s3).
Proof. induction s1 as [|c s1 IH]; [reflexivity | now rewrite !append_cons, IH]. Qed.

Lemma length_append s1 s2 :
  String.length (String.append s1 s2) = (String.length s1 + String.length s2)%nat.
Proof.
  induction s1 as [|c s1 IH]; [reflexivity|].
  rewrite append_cons. simpl. now rewrite IH.
Qed.

Lemma hex_value_from_app s1 s2 v :
  hex_value_from v (String.append s1 s2)
  = match hex_value_from v s1 with
    | Some v' => hex_value_from v' s2
    | None => None
    end.
Proof.
  revert v. induction s1 as [|c s1 IH]; intros v; [reflexivity|].
  rewrite append_cons. simpl.
  destruct (digit_value c); [apply IH | reflexivity].
Qed.

Lemma all_chars_app p s1 s2 :
  all_chars p (String.append s1 s2) = all_chars p s1 && all_chars p s2.
Proof.
  induction s1 as [|c s1 IH]; [reflexivity|].
  rewrite append_cons. simpl. rewrite IH. apply andb_assoc.
Qed.

(** The digits the loop produces, split off the accumulator: between one
    and [fuel] of them, and they read back as [n]. *)
Lemma format_uint4_spec fuel : forall n acc,
  n < 16 ^ N.of_nat fuel -> (0 < fuel)%nat ->
  exists ds,
    format_uint4 fuel true n acc = String.append ds acc
    /\ (1 <= String.length ds <= fuel)%nat
    /\ all_chars is_upper_hex ds = true
    /\ forall v, hex_value_from v ds = Some (v * 16 ^ N.of_nat (String.length ds) + n).
Proof.
  induction fuel as [|fuel IH]; intros n acc Hn Hfuel; [lia|].
  simpl.
  assert (Hmod : n mod 16 < 16) by (apply N.mod_lt; lia).
  destruct (N.eqb_spec (n / 16) 0) as [Hz|Hnz].
  - exists (String (hex_digit true (n mod 16)) EmptyString).
    assert (n = n mod 16) as Hsmall.
    { pose proof (N.div_mod n 16 ltac:(lia)) as Hdm. rewrite Hz in Hdm. lia. }
    repeat split; simpl; try lia.
    + rewrite is_upper_hex_digit by assumption. reflexivity.
    + intros v. rewrite digit_value_hex_digit by assumption.
      f_equal. change (16 ^ N.of_nat 1) with 16. lia.
  - assert (Hfuel' : (0 < fuel)%nat).
    { destruct fuel; [|lia]. simpl in Hn. change (16 ^ 1) with 16 in Hn.
      exfalso. apply Hnz. apply N.div_small. assumption. }
    assert (Hdiv : n / 16 < 16 ^ N.of_nat fuel).
    { apply N.Div0.div_lt_upper_bound.
      replace (16 * 16 ^ N.of_nat fuel) with (16 ^ N.of_nat (S fuel)); [assumption|].
      rewrite Nat2N.inj_succ, N.pow_succ_r'. reflexivity. }
    destruct (IH (n / 16) (String (hex_digit true (n mod 16)) acc) Hdiv Hfuel')
      as (ds & Heq & Hlen & Hall & Hval).
    exists (String.append ds (String (hex_digit true (n mod 16)) EmptyString)).
    repeat split.
    + rewrite Heq, append_assoc. reflexivity.
    + rewrite length_append. simpl. lia.
    + rewrite length_append. simpl. lia.
    + rewrite all_chars_app, Hall. simpl.
      rewrite is_upper_hex_digit by assumption. reflexivity.
    + intros v. rewrite hex_value_from_app, Hval. simpl.
      rewrite digit_value_hex_digit by assumption. f_equal.
      rewrite length_append. simpl.
      replace (N.of_nat (String.length ds + 1)) with (N.succ (N.of_nat (String.length ds))) by lia.
      rewrite N.pow_succ_r'.
      pose proof (N.div_mod n 16 ltac:(lia)). nia.
Qed.

Lemma fill_zero_spec k s :
  String.length (fill k "0"%char s) = (k + String.length s)%nat
  /\ all_chars is_upper_hex (fill k "0"%char s) = all_chars is_upper_hex s
  /\ hex_value (fill k "0"%char s) = hex_value s.
Proof.
  induction k as [|k (IH1 & IH2 & IH3)]; simpl; [auto|].
  split; [|split].
  - now rewrite IH1.
  - exact IH2.
  - exact IH3.
Qed.

(** [{:016X}] of a 64-bit value: sixteen characters out of
    "0123456789ABCDEF" that read back as the value. *)
Lemma fmt_016X_spec v : v < 2 ^ 64 -> hex16_of (fmt_016X v) v.
Proof.
  intros Hv. unfold hex16_of, fmt_016X, zero_pad.
  rewrite N.mod_small by assumption.
  destruct (format_uint4_spec 16 v EmptyString) as (ds & Heq & Hlen & Hall & Hval);
    [exact Hv | lia |].
  rewrite Heq, append_nil_r.
  destruct (fill_zero_spec (16 - String.length ds) ds) as (F1 & F2 & F3).
  rewrite F1, F2, F3. split; [lia | split; [assumption|]].
  unfold hex_value. rewrite Hval. f_equal; lia.
Qed.

End HexFacts.

Example fmt_016X_sample :
  Hex.fmt_016X 0x0100000000010000 = "0100000000010000".
Proof. reflexivity. Qed.

Example fmt_016X_letters :
  Hex.fmt_016X 0xdeadBEEF = "00000000DEADBEEF".
Proof. reflexivity. Qed.

Example fmt_016X_max :
  Hex.fmt_016X (2 ^ 64 - 1) = "FFFFFFFFFFFFFFFF".
Proof. reflexivity. Qed.

(** ** Substring search *)

Module StrFacts.
Import Str HexFacts.

Lemma starts_with_spec needle : forall s,
  starts_with needle s = true <-> exists post, s = String.append needle post.
Proof.
  induction needle as [|a needle IH]; intros s; simpl.
  - split; [intros _; exists s; reflexivity | reflexivity].
  - destruct s as [|b s].
    + split; [discriminate | intros [post H]; discriminate].
    + rewrite andb_true_iff, IH. split.
      * intros [Hab [post ->]]. apply Ascii.eqb_eq in Hab as ->.
        exists post. reflexivity.
      * intros [post H]. rewrite append_cons in H. injection H as -> ->.
        split; [apply Ascii.eqb_refl | exists post; reflexivity].
Qed.

Lemma find_from_None needle : forall s pos,
  find_from pos needle s = None <-> ~ contains s needle.
Proof.
  induction s as [|a s IH]; intros pos; simpl.
  - destruct (starts_with needle "") eqn:Hs.
    + split; [discriminate|]. intros Hno. exfalso. apply Hno.
      apply starts_with_spec in Hs as [post Hs]. exists "", post. exact Hs.
    + split; [|reflexivity]. intros _ (pre & post & H).
      destruct pre as [|x pre]; [|discriminate].
      assert (starts_with needle "" = true) as Hyes
        by (apply starts_with_spec; exists post; exact H).
      congruence.
  - destruct (starts_with needle (String a s)) eqn:Hs.
    + split; [discriminate|]. intros Hno. exfalso. apply Hno.
      apply starts_with_spec in Hs as [post Hs]. exists "", post. exact Hs.
    + rewrite IH. split.
      * intros Hno (pre & post & H). destruct pre as [|x pre].
        -- assert (starts_with needle (String a s) = true) as Hyes
             by (apply starts_with_spec; exists post; exact H).
           congruence.
        -- rewrite append_cons in H. injection H as _ ->.
           apply Hno. exists pre, post. reflexivity.
      * intros Hno (pre & post & ->). apply Hno.
        exists (String a pre), post. reflexivity.
Qed.

(** [std::string::find] answers [npos] exactly when the needle does not
    occur. *)
Lemma find_None s needle : find s needle = None <-> ~ contains s needle.
Proof. apply find_from_None. Qed.

Lemma find_from_Some needle : forall s pos k,
  find_from pos needle s = Some k -> contains s needle.
Proof.
  induction s as [|a s IH]; intros pos k; simpl.
  - destruct (starts_with needle "") eqn:Hs; [|discriminate].
    intros _. apply starts_with_spec in Hs as [post Hs]. exists "", post. exact Hs.
  - destruct (starts_with needle (String a s)) eqn:Hs.
    + intros _. apply starts_with_spec in Hs as [post Hs]. exists "", post. exact Hs.
    + intros Hf. apply IH in Hf as (pre & post & ->).
      exists (String a pre), post. reflexivity.
Qed.

Lemma find_Some s needle k : find s needle = Some k -> contains s needle.
Proof. apply find_from_Some. Qed.

End StrFacts.

(** ** The transfer client *)

Ltac run_m :=
  unfold bind, ret, emit, abort, LOG, get_files, put_files, get_dirs, put_dirs in *;
  simpl in *.

Lemma request_headers_eq e c dh w :
  request_headers e c dh w
  = (Returns (match w_files w !! c_path c with
              | Some _ =>
                  base_headers (c_build_id c)
                  ++ [(dh, Hex.HexArrayToString
                             (DigestFile e (rb_bytes (read_back_of e (c_path c) (w_files w))))
                             false)]
              | None => base_headers (c_build_id c)
              end), w).
Proof.
  unfold request_headers, Exists, read_back. run_m.
  destruct (w_files w !! c_path c) eqn:Hf.
  - rewrite bool_decide_eq_true_2 by eauto. reflexivity.
  - rewrite bool_decide_eq_false_2 by (intros [? ?]; discriminate). reflexivity.
Qed.

Lemma fetch_eq e op c :
  fetch e op c
  = DownloadInternal e c (remote_path op (c_title_id c)) (fetch_timeout op)
      (digest_header_name op) (expected_content_type op).
Proof. destruct op; reflexivity. Qed.

Lemma write_staging_cases e path data w :
  exists res w', write_staging e path data w = (Returns res, w')
    /\ w_trace w' = w_trace w /\ w_dirs w' = w_dirs w
    /\ w_log w' = w_log w /\ w_is_syncing w' = w_is_syncing w
    /\ (fs_write_succeeds e path data = true ->
        res = Success /\ w_files w' = <[path := data]> (w_files w))
    /\ (fs_write_succeeds e path data = false -> res = GeneralFSError)
    /\ (forall other, other <> path -> w_files w' !! other = w_files w !! other).
Proof.
  unfold write_staging, fs_write_succeeds. run_m.
  destruct (open_wb_ok e path); simpl.
  { destruct (resize_ok e path (length data)); simpl.
    - destruct (Nat.leb_spec (length data) (fwrite_count e path data)) as [Hle|Hlt].
      + rewrite Nat.min_r by lia. rewrite Nat.eqb_refl. simpl.
        do 2 eexists. split; [reflexivity|]. simpl.
        repeat split; try discriminate.
        * rewrite firstn_all, Nat.sub_diag. simpl. rewrite app_nil_r. reflexivity.
        * intros other Hne. rewrite lookup_insert_ne by congruence. reflexivity.
      + rewrite Nat.min_l by lia.
        destruct (Nat.eqb_spec (fwrite_count e path data) (length data)); [lia|]. simpl.
        do 2 eexists. split; [reflexivity|]. simpl.
        repeat split; try discriminate.
        intros other Hne. rewrite lookup_insert_ne by congruence. reflexivity.
    - do 2 eexists. split; [reflexivity|]. simpl.
      repeat split; try discriminate.
      intros other Hne. rewrite lookup_insert_ne by congruence. reflexivity. }
  do 2 eexists. split; [reflexivity|]. repeat split; discriminate.
Qed.

Lemma built_request_eq e c rp t dh w :
  built_request e c rp t dh w
  = let conn := match c_client c with
                | Some k => k
                | None => (BOXCAT_HOSTNAME, PORT, t)
                end in
    {| rq_host := conn.1.1; rq_port := conn.1.2; rq_timeout := conn.2;
       rq_path := rp;
       rq_headers := match w_files w !! c_path c with
                     | Some _ =>
                         base_headers (c_build_id c)
                         ++ [(dh, Hex.HexArrayToString
                                    (DigestFile e (rb_bytes (read_back_of e (c_path c) (w_files w))))
                                    false)]
                     | None => base_headers (c_build_id c)
                     end |}.
Proof. unfold built_request. rewrite request_headers_eq. reflexivity. Qed.

(** Every path through [DownloadInternal]: it returns, hands exactly one
    request to the transport, touches nothing but the staging file, and
    classifies the answer. *)
Lemma DownloadInternal_cases e c rp t dh ct w :
  exists c' res w',
    DownloadInternal e c rp t dh ct w = (Returns (c', res), w')
    /\ w_trace w' = w_trace w ++ [EvHttpGet (built_request e c rp t dh w)]
    /\ w_dirs w' = w_dirs w /\ w_log w' = w_log w /\ w_is_syncing w' = w_is_syncing w
    /\ (forall other, other <> c_path c -> w_files w' !! other = w_files w !! other)
    /\ (http_get e (built_request e c rp t dh w) = None ->
        res = NoResponse /\ w_files w' = w_files w)
    /\ (forall r, http_get e (built_request e c rp t dh w) = Some r ->
          (status r = 304%Z -> res = Success /\ w_files w' = w_files w)
          /\ (status r = 301%Z -> res = BadClientVersion /\ w_files w' = w_files w)
          /\ (status r = 404%Z -> res = NoMatchTitleId /\ w_files w' = w_files w)
          /\ (status r = 406%Z -> res = NoMatchBuildId /\ w_files w' = w_files w)
          /\ (status r <> 200%Z -> status r <> 304%Z -> status r <> 301%Z ->
              status r <> 404%Z -> status r <> 406%Z ->
              res = GeneralWebError /\ w_files w' = w_files w)
          /\ (status r = 200%Z ->
              (forall v, headers_find "content-type" (headers r) = Some v ->
                         ~ Str.contains v ct) ->
              res = InvalidContentType /\ w_files w' = w_files w)
          /\ (status r = 200%Z ->
              forall v, headers_find "content-type" (headers r) = Some v ->
                        Str.contains v ct ->
              (fs_write_succeeds e (c_path c) (body r) = true ->
               res = Success /\ w_files w' = <[c_path c := body r]> (w_files w))
              /\ (fs_write_succeeds e (c_path c) (body r) = false ->
                  res = GeneralFSError))).
Proof.
  unfold DownloadInternal.
  unfold bind at 1. rewrite request_headers_eq.
  rewrite built_request_eq. cbv zeta.
  set (rq := {| rq_host := _ |}).
  unfold bind at 1. unfold emit at 1.
  set (w1 := set_trace _ w).
  destruct (http_get e rq) as [r|] eqn:Hget.
  2:{ unfold ret. do 3 eexists. split; [reflexivity|]. simpl.
      repeat split; try discriminate; auto. }
  unfold ResponseStatus.NoUpdate, ResponseStatus.BadClientVersion,
    ResponseStatus.NoMatchTitleId, ResponseStatus.NoMatchBuildId, ResponseStatus.Ok.
  destruct (Z.eqb_spec (status r) 304) as [H304|H304];
    [unfold ret; do 3 eexists; split; [reflexivity|]; simpl;
     repeat split; try discriminate; auto; intros; try lia;
     match goal with H : Some _ = Some _ |- _ => injection H as <- end; lia |].
  destruct (Z.eqb_spec (status r) 301) as [H301|H301];
    [unfold ret; do 3 eexists; split; [reflexivity|]; simpl;
     repeat split; try discriminate; auto; intros; try lia;
     match goal with H : Some _ = Some _ |- _ => injection H as <- end; lia |].
  destruct (Z.eqb_spec (status r) 404) as [H404|H404];
    [unfold ret; do 3 eexists; split; [reflexivity|]; simpl;
     repeat split; try discriminate; auto; intros; try lia;
     match goal with H : Some _ = Some _ |- _ => injection H as <- end; lia |].
  destruct (Z.eqb_spec (status r) 406) as [H406|H406];
    [unfold ret; do 3 eexists; split; [reflexivity|]; simpl;
     repeat split; try discriminate; auto; intros; try lia;
     match goal with H : Some _ = Some _ |- _ => injection H as <- end; lia |].
  destruct (Z.eqb_spec (status r) 200) as [H200|H200]; simpl;
    [| unfold ret; do 3 eexists; split; [reflexivity|]; simpl;
       repeat split; try discriminate; auto; intros; try lia;
       match goal with H : Some _ = Some _ |- _ => injection H as <- end; lia ].
  destruct (headers_find "content-type" (headers r)) as [content_type|] eqn:Hct.
  2:{ unfold ret. do 3 eexists. split; [reflexivity|]. simpl.
      repeat split; try discriminate; auto; intros;
        match goal with H : Some _ = Some _ |- _ => injection H as <- end;
        try lia; congruence. }
  destruct (Str.find content_type ct) as [pos|] eqn:Hfind.
  2:{ unfold ret. do 3 eexists. split; [reflexivity|]. simpl.
      apply StrFacts.find_None in Hfind.
      repeat split; try discriminate; auto; intros;
        match goal with H : Some _ = Some _ |- _ => injection H as <- end;
        try lia;
        match goal with H : headers_find _ _ = Some _ |- _ =>
          rewrite Hct in H; injection H as <- end; contradiction. }
  apply StrFacts.find_Some in Hfind.
  unfold bind at 1.
  destruct (write_staging_cases e (c_path c) (body r) w1)
    as (res & w2 & -> & Ht & Hd & Hl & Hs & Hok & Hbad & Hother).
  unfold ret. do 3 eexists. split; [reflexivity|].
  subst w1. simpl in *.
  repeat split; try discriminate; auto; intros;
    match goal with H : Some _ = Some _ |- _ => injection H as <- end;
    try lia;
    try (match goal with H : headers_find _ _ = Some _ |- _ =>
           rewrite Hct in H; injection H as <- end);
    try (exfalso;
         match goal with H : forall v, _ -> ~ _ |- _ => eapply H; eassumption end);
    try (apply Hok; assumption); try (apply Hbad; assumption).
Qed.

(** C1. [DownloadInternal], and with it both operations of the transfer
    client, always returns and classifies the answer of the transport in
    this order of priority: no response gives [NoResponse]; status 304
    gives [Success] and the staging file is not written; 301 gives
    [BadClientVersion]; 404 gives [NoMatchTitleId]; 406 gives
    [NoMatchBuildId]; any other status but 200 gives [GeneralWebError];
    status 200 whose content-type header is absent or does not contain the
    expected content type gives [InvalidContentType]; otherwise the body is
    written to the staging file and the result is [Success], or
    [GeneralFSError] when opening, resizing or writing the file fails.  In
    every case but the last no file changes. *)
Theorem C1_download_classification :
  forall e c rp t dh ct w,
    (forall op, fetch e op c
                = DownloadInternal e c (remote_path op (c_title_id c)) (fetch_timeout op)
                    (digest_header_name op) (expected_content_type op))
    /\ exists c' res w',
      DownloadInternal e c rp t dh ct w = (Returns (c', res), w')
      /\ (http_get e (built_request e c rp t dh w) = None ->
          res = NoResponse /\ w_files w' = w_files w)
      /\ (forall r, http_get e (built_request e c rp t dh w) = Some r ->
            (status r = 304%Z -> res = Success /\ w_files w' = w_files w)
            /\ (status r = 301%Z -> res = BadClientVersion /\ w_files w' = w_files w)
            /\ (status r = 404%Z -> res = NoMatchTitleId /\ w_files w' = w_files w)
            /\ (status r = 406%Z -> res = NoMatchBuildId /\ w_files w' = w_files w)
            /\ (status r <> 200%Z -> status r <> 304%Z -> status r <> 301%Z ->
                status r <> 404%Z -> status r <> 406%Z ->
                res = GeneralWebError /\ w_files w' = w_files w)
            /\ (status r = 200%Z ->
                (forall v, headers_find "content-type" (headers r) = Some v ->
                           ~ Str.contains v ct) ->
                res = InvalidContentType /\ w_files w' = w_files w)
            /\ (status r = 200%Z ->
                forall v, headers_find "content-type" (headers r) = Some v ->
                          Str.contains v ct ->
                (fs_write_succeeds e (c_path c) (body r) = true ->
                 res = Success /\ w_files w' = <[c_path c := body r]> (w_files w))
                /\ (fs_write_succeeds e (c_path c) (body r) = false ->
                    res = GeneralFSError))).
Proof.
  intros e c rp t dh ct w. split; [intros op; apply fetch_eq|].
  destruct (DownloadInternal_cases e c rp t dh ct w)
    as (c' & res & w' & Heq & _ & _ & _ & _ & _ & Hnone & Hsome).
  exists c', res, w'. auto.
Qed.

(** The archive operation on an empty cache, answered with status 200 and
    content type "application/zip; charset=binary": the two bytes of the
    body end up in the staging file. *)
Lemma C1_download_classification_witness :
  let e := Sample.env false (Some Sample.zip_reply) None in
  let c := new_Client Sample.zip_path (title_id Sample.title) (build_id Sample.title) in
  exists c' w',
    fetch e FetchArchive c Sample.empty_world = (Returns (c', Success), w')
    /\ w_files w' = <[Sample.zip_path := [x50; x4b]]> ∅.
Proof.
  intros e c.
  destruct (C1_download_classification e c
              (remote_path FetchArchive (c_title_id c)) (fetch_timeout FetchArchive)
              (digest_header_name FetchArchive) (expected_content_type FetchArchive)
              Sample.empty_world)
    as (Hop & c' & res & w' & Heq & _ & Hsome).
  destruct (Hsome Sample.zip_reply eq_refl) as (_ & _ & _ & _ & _ & _ & H200).
  destruct (H200 eq_refl "application/zip; charset=binary" eq_refl) as (Hok & _).
  { exists "", "; charset=binary". reflexivity. }
  destruct (Hok eq_refl) as (-> & Hfiles).
  exists c', w'. rewrite Hop. split; [exact Heq | exact Hfiles].
Defined.

(** ** The request *)

Lemma read_back_of_complete e path f content :
  f !! path = Some content ->
  fs_read_complete e path content = true ->
  read_back_of e path f
  = {| rb_size := length content; rb_bytes := content;
       rb_count := N.of_nat (length content) |}.
Proof.
  unfold read_back_of, fs_read_complete. intros -> Hc.
  apply andb_true_iff in Hc as [-> Hlen]. apply Nat.leb_le in Hlen.
  rewrite Nat.min_r by lia.
  rewrite firstn_all, Nat.sub_diag. simpl. rewrite app_nil_r. reflexivity.
Qed.

Lemma read_back_of_absent e path f :
  f !! path = None ->
  read_back_of e path f = {| rb_size := 0; rb_bytes := []; rb_count := SIZE_MAX |}.
Proof. unfold read_back_of. intros ->. reflexivity. Qed.

(** Looking a digest header up among the request headers. *)
Lemma headers_find_digest op build v :
  headers_find (digest_header_name op) (base_headers build) = None
  /\ headers_find (digest_header_name op)
       (base_headers build ++ [(digest_header_name op, v)]) = Some v.
Proof. destruct op; split; vm_compute; reflexivity. Qed.

Lemma headers_find_build_id build extra :
  headers_find "Boxcat-Build-Id" (base_headers build ++ extra)
  = Some (Hex.fmt_016X build).
Proof.
  unfold base_headers. simpl.
  change (Str.ci_eqb "Boxcat-Client-Version" "Boxcat-Build-Id") with false.
  change (Str.ci_eqb "Boxcat-Client-Type" "Boxcat-Build-Id") with false.
  change (Str.ci_eqb "Boxcat-Build-Id" "Boxcat-Build-Id") with true.
  reflexivity.
Qed.

(** The digest header's value read back. *)
Lemma lower_digit_spec d :
  d < 16 ->
  Hex.digit_value (Hex.hex_digit false d) = Some d
  /\ HexRead.is_lower_hex (Hex.hex_digit false d) = true.
Proof.
  intros Hd.
  destruct d as [|p]; [split; reflexivity|].
  do 5 (try destruct p as [p|p|]); try (split; reflexivity); exfalso; lia.
Qed.

(** Two digits for a value below 256: the high nibble, then the low one. *)
Lemma format_two_digits n :
  n < 256 ->
  Hex.zero_pad 2 (Hex.format_uint4 2 false n EmptyString)
  = String (Hex.hex_digit false (n / 16))
      (String (Hex.hex_digit false (n mod 16)) EmptyString).
Proof.
  intros Hn. cbn [Hex.format_uint4].
  destruct (N.eqb_spec (n / 16) 0) as [Hz|Hnz].
  - rewrite Hz. reflexivity.
  - assert (Hhigh : n / 16 < 16) by (apply N.Div0.div_lt_upper_bound; lia).
    rewrite (N.mod_small (n / 16) 16) by exact Hhigh.
    destruct (n / 16 / 16 =? 0)%N; reflexivity.
Qed.

Lemma fmt_02x_digits b :
  Hex.fmt_02x false b
  = String (Hex.hex_digit false (Byte.to_N b / 16))
      (String (Hex.hex_digit false (Byte.to_N b mod 16)) EmptyString).
Proof.
  unfold Hex.fmt_02x. apply format_two_digits.
  pose proof (Byte.to_N_bounded b). lia.
Qed.

Lemma bytes_of_hex_fmt_02x b rest :
  HexRead.bytes_of_hex (String.append (Hex.fmt_02x false b) rest)
  = match HexRead.bytes_of_hex rest with
    | Some tail => Some (b :: tail)
    | None => None
    end.
Proof.
  rewrite fmt_02x_digits.
  pose proof (Byte.to_N_bounded b) as Hb.
  assert (Hhigh : Byte.to_N b / 16 < 16) by (apply N.Div0.div_lt_upper_bound; lia).
  assert (Hlow : Byte.to_N b mod 16 < 16) by (apply N.mod_lt; lia).
  destruct (lower_digit_spec _ Hhigh) as [Vh _].
  destruct (lower_digit_spec _ Hlow) as [Vl _].
  rewrite !HexFacts.append_cons.
  change (String.append EmptyString rest) with rest.
  cbn [HexRead.bytes_of_hex]. rewrite Vh, Vl.
  destruct (HexRead.bytes_of_hex rest) as [tail|]; [|reflexivity].
  replace (Byte.to_N b / 16 * 16 + Byte.to_N b mod 16) with (Byte.to_N b)
    by (pose proof (N.div_mod (Byte.to_N b) 16 ltac:(lia)); lia).
  rewrite Byte.of_to_N. reflexivity.
Qed.

Lemma fmt_02x_shape b :
  String.length (Hex.fmt_02x false b) = 2%nat
  /\ Hex.all_chars HexRead.is_lower_hex (Hex.fmt_02x false b) = true.
Proof.
  rewrite fmt_02x_digits.
  pose proof (Byte.to_N_bounded b) as Hb.
  assert (Hhigh : Byte.to_N b / 16 < 16) by (apply N.Div0.div_lt_upper_bound; lia).
  assert (Hlow : Byte.to_N b mod 16 < 16) by (apply N.mod_lt; lia).
  destruct (lower_digit_spec _ Hhigh) as [_ Lh].
  destruct (lower_digit_spec _ Hlow) as [_ Ll].
  split; [reflexivity|]. cbn [Hex.all_chars]. rewrite Lh, Ll. reflexivity.
Qed.

(** [HexArrayToString(data, false)]: two characters out of
    "0123456789abcdef" for every byte, which read back as the bytes. *)
Lemma HexArrayToString_lower_spec data :
  HexRead.bytes_of_hex (Hex.HexArrayToString data false) = Some data
  /\ String.length (Hex.HexArrayToString data false) = (2 * length data)%nat
  /\ Hex.all_chars HexRead.is_lower_hex (Hex.HexArrayToString data false) = true.
Proof.
  induction data as [|b data (IH1 & IH2 & IH3)]; [repeat split|].
  cbn [Hex.HexArrayToString]. destruct (fmt_02x_shape b) as [Hlen Hall].
  split; [|split].
  - rewrite bytes_of_hex_fmt_02x, IH1. reflexivity.
  - rewrite HexFacts.length_append, Hlen, IH2. simpl. lia.
  - rewrite HexFacts.all_chars_app, Hall, IH3. reflexivity.
Qed.

Lemma read_back_of_buffer e path f content :
  f !! path = Some content ->
  length (rb_bytes (read_back_of e path f))
  = (if open_rb_ok e path then length content else 0%nat)
  /\ (open_rb_ok e path = false -> rb_bytes (read_back_of e path f) = [])
  /\ (open_rb_ok e path = true ->
      rb_bytes (read_back_of e path f)
      = firstn (Nat.min (fread_count e path (length content)) (length content)) content
        ++ repeat x00 (length content
                       - Nat.min (fread_count e path (length content)) (length content))).
Proof.
  unfold read_back_of. intros ->. destruct (open_rb_ok e path); simpl.
  - split; [|split; [discriminate | reflexivity]].
    rewrite length_app, length_firstn, repeat_length. lia.
  - split; [reflexivity|]. split; [reflexivity | discriminate].
Qed.

(** With a staged file that cannot be opened for reading, the digest sent
    is that of the empty buffer, not that of the file's three bytes.  (The
    sample digest tells the two apart as SHA-256 does.) *)
Lemma C4_counterexample :
  w_files Sample.staged_world !! Sample.bin_path = Some [x01; x02; x03]
  /\ exists c' res w' rq value,
       fetch (Sample2.env_unreadable None) FetchLaunchParameter
         (new_Client Sample.bin_path (title_id Sample.title) (build_id Sample.title))
         Sample.staged_world = (Returns (c', res), w')
       /\ w_trace w' = [EvHttpGet rq]
       /\ headers_find "Boxcat-LaunchParam-Digest" (rq_headers rq) = Some value
       /\ HexRead.bytes_of_hex value
          = Some (mbedtls_sha256 (Sample2.env_unreadable None) [])
       /\ HexRead.bytes_of_hex value
          <> Some (mbedtls_sha256 (Sample2.env_unreadable None) [x01; x02; x03]).
Proof.
  split; [vm_compute; reflexivity|].
  do 5 eexists. split; [vm_compute; reflexivity|].
  split; [reflexivity|].
  split; [vm_compute; reflexivity|].
  split; [vm_compute; reflexivity | vm_compute; discriminate].
Qed.

(** C4 (amended). A fetch attaches the digest header exactly when a file
    is at the staging path before the request.  With a file there, the
    request carries the three identity headers and one more, under the
    operation's digest header name, whose value is the lower-case
    hexadecimal text, two characters to the byte, of the SHA-256 of the
    buffer the client read from the file.  The read is not checked: the
    buffer is the file's bytes when the file opens and is read in full,
    empty when the file cannot be opened, and otherwise the bytes read
    followed by zeros up to the file's size.  With no file there, the
    request carries the three identity headers only. *)
Theorem C4_digest_header_iff_staged :
  forall e op c w,
  exists c' res w' rq,
    fetch e op c w = (Returns (c', res), w')
    /\ w_trace w' = w_trace w ++ [EvHttpGet rq]
    /\ (forall content, w_files w !! c_path c = Some content ->
          exists buffer value,
            rq_headers rq ≡ₚ (digest_header_name op, value) :: base_headers (c_build_id c)
            /\ headers_find (digest_header_name op) (rq_headers rq) = Some value
            /\ HexRead.bytes_of_hex value = Some (mbedtls_sha256 e buffer)
            /\ String.length value = (2 * length (mbedtls_sha256 e buffer))%nat
            /\ Hex.all_chars HexRead.is_lower_hex value = true
            /\ (fs_read_complete e (c_path c) content = true -> buffer = content)
            /\ (open_rb_ok e (c_path c) = false -> buffer = [])
            /\ (open_rb_ok e (c_path c) = true ->
                buffer
                = firstn (Nat.min (fread_count e (c_path c) (length content))
                            (length content)) content
                  ++ repeat x00
                       (length content
                        - Nat.min (fread_count e (c_path c) (length content))
                            (length content))))
    /\ (w_files w !! c_path c = None ->
          rq_headers rq ≡ₚ base_headers (c_build_id c)
          /\ headers_find (digest_header_name op) (rq_headers rq) = None).
Proof.
  intros e op c w. rewrite fetch_eq.
  destruct (DownloadInternal_cases e c (remote_path op (c_title_id c)) (fetch_timeout op)
              (digest_header_name op) (expected_content_type op) w)
    as (c' & res & w' & Heq & Htrace & _).
  exists c', res, w', (built_request e c (remote_path op (c_title_id c)) (fetch_timeout op)
                        (digest_header_name op) w).
  split; [exact Heq|]. split; [exact Htrace|].
  rewrite built_request_eq. cbv zeta. cbn [rq_headers].
  split.
  - intros content Hf. rewrite Hf.
    exists (rb_bytes (read_back_of e (c_path c) (w_files w))).
    eexists.
    destruct (HexArrayToString_lower_spec
                (DigestFile e (rb_bytes (read_back_of e (c_path c) (w_files w)))))
      as (Hread & Hlen & Hall).
    destruct (read_back_of_buffer e (c_path c) (w_files w) content Hf)
      as (_ & Hclosed & Hopen).
    split; [symmetry; apply Permutation_cons_append|].
    split; [apply headers_find_digest|].
    split; [exact Hread|]. split; [exact Hlen|]. split; [exact Hall|].
    split; [|split; [exact Hclosed | exact Hopen]].
    intros Hc. rewrite (read_back_of_complete e _ _ content Hf Hc). reflexivity.
  - intros Hf. rewrite Hf. split; [reflexivity|].
    apply (headers_find_digest op (c_build_id c) "").
Qed.

(** A staged launch parameter of three bytes that reads back in full: the
    request carries "Boxcat-LaunchParam-Digest", and its value reads back
    as the digest of exactly those bytes. *)
Lemma C4_digest_header_iff_staged_witness :
  let e := Sample.env false None None in
  let c := new_Client Sample.bin_path (title_id Sample.title) (build_id Sample.title) in
  exists c' res w' rq value,
    fetch e FetchLaunchParameter c Sample.staged_world = (Returns (c', res), w')
    /\ w_trace w' = [EvHttpGet rq]
    /\ headers_find "Boxcat-LaunchParam-Digest" (rq_headers rq) = Some value
    /\ HexRead.bytes_of_hex value = Some (mbedtls_sha256 e [x01; x02; x03]).
Proof.
  intros e c.
  destruct (C4_digest_header_iff_staged e FetchLaunchParameter c Sample.staged_world)
    as (c' & res & w' & rq & Heq & Htrace & Hsome & _).
  destruct (Hsome [x01; x02; x03] eq_refl)
    as (buffer & value & _ & Hfind & Hread & _ & _ & Hbuf & _).
  rewrite (Hbuf eq_refl) in Hread.
  exists c', res, w', rq, value.
  split; [exact Heq|]. split; [exact Htrace|]. split; [exact Hfind | exact Hread].
Defined.

(** C8. For 64-bit title and build identifiers, the request of either
    operation has the path "/boxcat/titles/" + segment + "/data" (or
    "/launchparam") and a "Boxcat-Build-Id" header whose value, like the
    segment, is exactly sixteen characters out of "0123456789ABCDEF" that
    read back as the identifier: upper case, zero padded on the left. *)
Theorem C8_identifiers_sixteen_hex_digits :
  forall e op c w,
    c_title_id c < 2 ^ 64 -> c_build_id c < 2 ^ 64 ->
    exists c' res w' rq segment value,
      fetch e op c w = (Returns (c', res), w')
      /\ w_trace w' = w_trace w ++ [EvHttpGet rq]
      /\ rq_path rq = "/boxcat/titles/" +:+ segment
                      +:+ match op with
                          | FetchArchive => "/data"
                          | FetchLaunchParameter => "/launchparam"
                          end
      /\ hex16_of segment (c_title_id c)
      /\ headers_find "Boxcat-Build-Id" (rq_headers rq) = Some value
      /\ hex16_of value (c_build_id c).
Proof.
  intros e op c w Htitle Hbuild. rewrite fetch_eq.
  destruct (DownloadInternal_cases e c (remote_path op (c_title_id c)) (fetch_timeout op)
              (digest_header_name op) (expected_content_type op) w)
    as (c' & res & w' & Heq & Htrace & _).
  exists c', res, w', (built_request e c (remote_path op (c_title_id c)) (fetch_timeout op)
                        (digest_header_name op) w),
    (Hex.fmt_016X (c_title_id c)), (Hex.fmt_016X (c_build_id c)).
  split; [exact Heq|]. split; [exact Htrace|].
  rewrite built_request_eq. cbv zeta. cbn [rq_headers rq_path].
  split; [destruct op; reflexivity|].
  split; [apply HexFacts.fmt_016X_spec; assumption|].
  split; [|apply HexFacts.fmt_016X_spec; assumption].
  destruct (w_files w !! c_path c).
  - apply headers_find_build_id.
  - rewrite <- (app_nil_r (base_headers (c_build_id c))). apply headers_find_build_id.
Qed.

(** Title 0100000000010000 with build ABCDE: the path and the header as
    they go out. *)
Lemma C8_identifiers_sixteen_hex_digits_witness :
  let e := Sample.env false None None in
  let c := new_Client Sample.zip_path (title_id Sample.title) (build_id Sample.title) in
  exists c' res w' rq,
    fetch e FetchArchive c Sample.empty_world = (Returns (c', res), w')
    /\ w_trace w' = [EvHttpGet rq]
    /\ rq_path rq = "/boxcat/titles/0100000000010000/data"
    /\ headers_find "Boxcat-Build-Id" (rq_headers rq) = Some "00000000000ABCDE".
Proof.
  intros e c.
  assert (Ht : c_title_id c < 2 ^ 64) by (vm_compute; reflexivity).
  assert (Hb : c_build_id c < 2 ^ 64) by (vm_compute; reflexivity).
  destruct (C8_identifiers_sixteen_hex_digits e FetchArchive c Sample.empty_world Ht Hb)
    as (c' & res & w' & rq & segment & value & Heq & Htrace & Hpath & _ & Hfind & _).
  exists c', res, w', rq.
  split; [exact Heq|]. split; [exact Htrace|].
  assert (Hrun : fetch e FetchArchive c Sample.empty_world
                 = (Returns ({| c_client := Some (BOXCAT_HOSTNAME, PORT, TIMEOUT_SECONDS);
                                c_path := c_path c; c_title_id := c_title_id c;
                                c_build_id := c_build_id c |}, NoResponse),
                    set_trace [EvHttpGet (built_request e c
                                 (remote_path FetchArchive (c_title_id c))
                                 (fetch_timeout FetchArchive)
                                 (digest_header_name FetchArchive) Sample.empty_world)]
                      Sample.empty_world))
    by (vm_compute; reflexivity).
  rewrite Hrun in Heq. injection Heq as <- <- <-.
  simpl in Htrace. injection Htrace as <-.
  split; vm_compute; reflexivity.
Defined.

(** ** Result presentation and cache maintenance *)

(** C7. [HandleDownloadDisplayResult] shows the error text, once, for
    exactly [NoMatchBuildId] and [BadClientVersion], with the result's own
    message as detail; for the other six results it returns without doing
    anything. *)
Theorem C7_display_policy :
  forall res w,
    ((res = NoMatchBuildId \/ res = BadClientVersion) ->
       HandleDownloadDisplayResult res w
       = (Returns tt,
          set_trace (w_trace w
                     ++ [EvShowCustomErrorText (-1)
                           "There was an error while attempting to use Boxcat."
                           (DownloadResult_message res)]) w))
    /\ ((res = Success \/ res = NoResponse \/ res = GeneralWebError
         \/ res = GeneralFSError \/ res = NoMatchTitleId \/ res = InvalidContentType) ->
        HandleDownloadDisplayResult res w = (Returns tt, w)).
Proof.
  intros res w. split.
  - intros [-> | ->]; reflexivity.
  - intros [-> | [-> | [-> | [-> | [-> | ->]]]]]; reflexivity.
Qed.

(** A blacklisted build is shown to the user; an unknown title is not. *)
Lemma C7_display_policy_witness :
  (HandleDownloadDisplayResult NoMatchBuildId Sample.empty_world).2
  = set_trace
      [EvShowCustomErrorText (-1) "There was an error while attempting to use Boxcat."
         (DownloadResult_message NoMatchBuildId)] Sample.empty_world
  /\ (HandleDownloadDisplayResult NoMatchTitleId Sample.empty_world).2 = Sample.empty_world.
Proof.
  destruct (C7_display_policy NoMatchBuildId Sample.empty_world) as [Hshow _].
  destruct (C7_display_policy NoMatchTitleId Sample.empty_world) as [_ Hsilent].
  rewrite (Hshow (or_introl eq_refl)).
  rewrite (Hsilent (or_intror (or_intror (or_intror (or_intror (or_introl eq_refl)))))).
  split; reflexivity.
Defined.

(** C9. With the override unset, [Clear] calls through the handle the
    getter returned without looking at it.  A null handle ends the call in
    a null dereference: it does not return, so in particular it does not
    return [false].  With a directory there the call returns.  Whenever
    [Clear] returns [false], the getter had produced a directory. *)
Theorem C9_clear_needs_directory :
  forall e title_id w,
    bcat_boxcat_local e = false ->
    (w_dirs w !! title_id = None ->
       Clear e title_id w = (Aborts NullDereference, w))
    /\ (forall dir, w_dirs w !! title_id = Some dir ->
          exists ok w', Clear e title_id w = (Returns ok, w'))
    /\ (forall w', Clear e title_id w = (Returns false, w') ->
          is_Some (w_dirs w !! title_id)).
Proof.
  intros e title_id w Hlocal. unfold Clear. rewrite Hlocal. run_m.
  split; [|split].
  - intros ->. reflexivity.
  - intros dir ->. eauto.
  - intros w'. destruct (w_dirs w !! title_id); [eauto | discriminate].
Qed.

(** Clearing a title that the getter does not know, and one it knows. *)
Lemma C9_clear_needs_directory_witness :
  Clear (Sample.env false None None) 7 Sample.empty_world
  = (Aborts NullDereference, Sample.empty_world)
  /\ exists ok w',
       Clear (Sample.env false None None) (title_id Sample.title) Sample.staged_world
       = (Returns ok, w').
Proof.
  destruct (C9_clear_needs_directory (Sample.env false None None) 7 Sample.empty_world eq_refl)
    as (Hnull & _ & _).
  destruct (C9_clear_needs_directory (Sample.env false None None) (title_id Sample.title)
              Sample.staged_world eq_refl) as (_ & Hdir & _).
  split; [apply Hnull; reflexivity|].
  apply (Hdir (Dir "" [] [])). reflexivity.
Defined.

(** ** The synchronisation pipeline *)

Lemma quiet_app a b : quiet a -> quiet b -> quiet (a ++ b).
Proof. unfold quiet. intros Ha Hb. rewrite forallb_app, Ha, Hb. reflexivity. Qed.

Lemma http_count_app a b : http_count (a ++ b) = (http_count a + http_count b)%nat.
Proof. unfold http_count. rewrite filter_app, length_app. reflexivity. Qed.

Lemma Silent_ret {A} (a : A) : Silent (ret a).
Proof.
  intros w. exists a, [], w. rewrite app_nil_r. repeat split; reflexivity.
Qed.

Lemma Silent_bind {A B} (m : M A) (k : A -> M B) :
  Silent m -> (forall a, Silent (k a)) -> Silent (bind m k).
Proof.
  intros Hm Hk w. unfold bind.
  destruct (Hm w) as (a & pre1 & w1 & -> & Ht1 & Hq1 & Hc1).
  destruct (Hk a w1) as (b & pre2 & w2 & -> & Ht2 & Hq2 & Hc2).
  exists b, (pre1 ++ pre2), w2. split; [reflexivity|].
  split; [rewrite Ht2, Ht1, app_assoc; reflexivity|].
  split; [apply quiet_app; assumption|].
  rewrite http_count_app. lia.
Qed.

Lemma Silent_untraced {A} (m : M A) :
  (forall w, exists a w', m w = (Returns a, w') /\ w_trace w' = w_trace w) -> Silent m.
Proof.
  intros H w. destruct (H w) as (a & w' & -> & Ht).
  exists a, [], w'. rewrite app_nil_r. repeat split. exact Ht.
Qed.

Lemma Silent_LOG lvl text : Silent (LOG lvl text).
Proof. apply Silent_untraced. intros w. do 2 eexists. split; reflexivity. Qed.

Lemma Silent_get_dirs : Silent get_dirs.
Proof. apply Silent_untraced. intros w. do 2 eexists. split; reflexivity. Qed.

Lemma Silent_put_dirs d : Silent (put_dirs d).
Proof. apply Silent_untraced. intros w. do 2 eexists. split; reflexivity. Qed.

Lemma Silent_read_back e path : Silent (read_back e path).
Proof. apply Silent_untraced. intros w. do 2 eexists. split; reflexivity. Qed.

Lemma Silent_Delete e path : Silent (Delete e path).
Proof.
  apply Silent_untraced. intros w. unfold Delete. run_m.
  destruct (delete_ok e path); do 2 eexists; split; reflexivity.
Qed.

Lemma Silent_HandleDownloadDisplayResult res : Silent (HandleDownloadDisplayResult res).
Proof.
  intros w.
  destruct res;
    try (exists tt, [], w; rewrite app_nil_r; repeat split; reflexivity);
    eexists tt, [_], _; (split; [reflexivity|]); repeat split; reflexivity.
Qed.

Lemma Silent_handle_download_failure e path res :
  Silent (handle_download_failure e path res).
Proof.
  unfold handle_download_failure.
  apply Silent_bind; [apply Silent_LOG | intros _].
  apply Silent_bind; [| intros _; apply Silent_HandleDownloadDisplayResult].
  destruct (_ || _); [apply Silent_Delete | apply Silent_ret].
Qed.

Lemma Reports_failure n : Reports n failure.
Proof.
  intros w. exists [], false. eexists. split; [reflexivity|].
  simpl. rewrite <- !app_assoc. repeat split. unfold http_count. simpl. lia.
Qed.

Lemma Reports_report_success n : Reports n report_success.
Proof.
  intros w. exists [], true. eexists. split; [reflexivity|].
  simpl. rewrite <- !app_assoc. repeat split. unfold http_count. simpl. lia.
Qed.

Lemma Reports_bind {A} n (m : M A) (k : A -> M unit) :
  Silent m -> (forall a, Reports n (k a)) -> Reports n (bind m k).
Proof.
  intros Hm Hk w. unfold bind.
  destruct (Hm w) as (a & pre1 & w1 & -> & Ht1 & Hq1 & Hc1).
  destruct (Hk a w1) as (pre2 & ok & w2 & -> & Ht2 & Hq2 & Hc2).
  exists (pre1 ++ pre2), ok, w2. split; [reflexivity|].
  split; [rewrite Ht2, Ht1, <- !app_assoc; reflexivity|].
  split; [apply quiet_app; assumption|].
  rewrite http_count_app. lia.
Qed.

(** After the one request of the download, what follows may not make
    another. *)
Lemma Reports_after_download e c (k : Client * DownloadResult -> M unit) :
  (forall dl, Reports 0 (k dl)) -> Reports 1 (bind (DownloadDataZip e c) k).
Proof.
  intros Hk w. unfold bind, DownloadDataZip.
  destruct (DownloadInternal_cases e c (BOXCAT_PATHNAME_DATA (c_title_id c)) TIMEOUT_SECONDS
              "Boxcat-Data-Digest" "application/zip" w)
    as (c' & res & w1 & -> & Ht1 & _).
  destruct (Hk (c', res) w1) as (pre2 & ok & w2 & -> & Ht2 & Hq2 & Hc2).
  eexists (_ :: pre2), ok, w2. split; [reflexivity|].
  split; [rewrite Ht2, Ht1, <- !app_assoc; reflexivity|].
  split; [exact Hq2|].
  unfold http_count in *. simpl. lia.
Qed.

Lemma copy_failed_Reports n : Reports n copy_failed.
Proof. apply Reports_bind; [apply Silent_LOG | intros _; apply Reports_failure]. Qed.

Ltac reports_step :=
  match goal with
  | |- Reports _ failure => apply Reports_failure
  | |- Reports _ report_success => apply Reports_report_success
  | |- Reports _ copy_failed => apply copy_failed_Reports
  | |- Reports _ (bind _ _) => apply Reports_bind; [| intros ?]
  | |- Reports _ (if ?b then _ else _) => destruct b
  | |- Reports _ (match ?x with _ => _ end) => destruct x
  | |- Silent (LOG _ _) => apply Silent_LOG
  | |- Silent get_dirs => apply Silent_get_dirs
  | |- Silent (put_dirs _) => apply Silent_put_dirs
  | |- Silent (read_back _ _) => apply Silent_read_back
  | |- Silent (handle_download_failure _ _ _) => apply Silent_handle_download_failure
  end.

Lemma SynchronizeInternal_Reports e title dir_name :
  Reports 1 (SynchronizeInternal e title dir_name).
Proof.
  unfold SynchronizeInternal.
  destruct (bcat_boxcat_local e).
  - repeat reports_step.
  - apply Reports_after_download. intros dl.
    repeat reports_step.
Qed.

(** C2. One run of the synchronisation pipeline, entered directly or
    through [Synchronize] or [SynchronizeDirectory], always comes to an
    end, and on every path what it adds to the trace ends with: the HLE
    lock taken, the completion callback called with a boolean, the lock
    dropped.  Nothing before that takes the lock or calls the callback, so
    the callback runs exactly once and under the lock; and at most one
    request goes out, so nothing is retried. *)
Theorem C2_single_report_under_lock :
  forall e title dir_name w,
    (exists pre ok w',
        SynchronizeInternal e title dir_name w = (Returns tt, w')
        /\ w_trace w' = w_trace w ++ pre ++ [EvLock; EvCallback ok; EvUnlock]
        /\ quiet pre /\ (http_count pre <= 1)%nat)
    /\ (exists pre ok w',
        Synchronize e title w = (Returns true, w')
        /\ w_trace w' = w_trace w ++ pre ++ [EvLock; EvCallback ok; EvUnlock]
        /\ quiet pre /\ (http_count pre <= 1)%nat)
    /\ (forall name, exists pre ok w',
        SynchronizeDirectory e title name w = (Returns true, w')
        /\ w_trace w' = w_trace w ++ pre ++ [EvLock; EvCallback ok; EvUnlock]
        /\ quiet pre /\ (http_count pre <= 1)%nat).
Proof.
  intros e title dir_name w. split; [|split].
  - destruct (SynchronizeInternal_Reports e title dir_name w)
      as (pre & ok & w' & Heq & Ht & Hq & Hc).
    exists pre, ok, w'. auto.
  - unfold Synchronize. unfold bind at 1 2. unfold ret.
    destruct (SynchronizeInternal_Reports e title None (set_is_syncing true w))
      as (pre & ok & w' & -> & Ht & Hq & Hc).
    exists pre, ok, w'. auto.
  - intros name. unfold SynchronizeDirectory. unfold bind at 1 2. unfold ret.
    destruct (SynchronizeInternal_Reports e title (Some name) (set_is_syncing true w))
      as (pre & ok & w' & -> & Ht & Hq & Hc).
    exists pre, ok, w'. auto.
Qed.

(** A full synchronisation against a server that answers 404: the request,
    no notification, then failure under the lock. *)
Example synchronize_unknown_title :
  exists rq,
    w_trace (Synchronize (Sample.env false (Some (Sample.status_reply 404)) None)
               Sample.title Sample.staged_world).2
    = [EvHttpGet rq; EvLock; EvCallback false; EvUnlock].
Proof. eexists. vm_compute. reflexivity. Qed.

(** A full synchronisation that succeeds. *)
Example synchronize_success :
  exists rq,
    w_trace (Synchronize (Sample.env false (Some Sample.zip_reply) None)
               Sample.title Sample.staged_world).2
    = [EvHttpGet rq; EvLock; EvCallback true; EvUnlock].
Proof. eexists. vm_compute. reflexivity. Qed.

(** ** Stale staging files *)

(** Only a completed or failed write changes the staging file. *)
Lemma DownloadInternal_files_unchanged e c rp t dh ct w c' res w' :
  DownloadInternal e c rp t dh ct w = (Returns (c', res), w') ->
  res <> Success -> res <> GeneralFSError -> w_files w' = w_files w.
Proof.
  intros Heq Hns Hnf.
  destruct (DownloadInternal_cases e c rp t dh ct w)
    as (c2 & res2 & w2 & Heq2 & _ & _ & _ & _ & _ & Hnone & Hsome).
  rewrite Heq in Heq2. injection Heq2 as <- <- <-.
  destruct (http_get e (built_request e c rp t dh w)) as [r|] eqn:Hget.
  2:{ apply Hnone. reflexivity. }
  destruct (Hsome r eq_refl) as (H304 & H301 & H404 & H406 & Hweb & Hbadct & Hwrite).
  destruct (Z.eq_dec (status r) 304%Z) as [E|N304]; [apply H304, E|].
  destruct (Z.eq_dec (status r) 301%Z) as [E|N301]; [apply H301, E|].
  destruct (Z.eq_dec (status r) 404%Z) as [E|N404]; [apply H404, E|].
  destruct (Z.eq_dec (status r) 406%Z) as [E|N406]; [apply H406, E|].
  destruct (Z.eq_dec (status r) 200%Z) as [E200|N200]; [|apply Hweb; assumption].
  destruct (headers_find "content-type" (headers r)) as [v|] eqn:Hct.
  2:{ apply Hbadct; [assumption | intros v Hv; discriminate]. }
  destruct (Str.find v ct) as [pos|] eqn:Hfind.
  2:{ apply Hbadct; [assumption|]. intros v' Hv'. injection Hv' as <-.
      apply StrFacts.find_None. exact Hfind. }
  apply StrFacts.find_Some in Hfind.
  destruct (Hwrite E200 v eq_refl Hfind) as (Hok & Hbad).
  destruct (fs_write_succeeds e (c_path c) (body r)).
  - destruct (Hok eq_refl) as [-> _]. contradiction.
  - rewrite (Hbad eq_refl) in Hnf. contradiction.
Qed.

(** What lines 215-222 do to the files. *)
Lemma handle_download_failure_files e path res w :
  exists w',
    handle_download_failure e path res w = (Returns tt, w')
    /\ w_files w'
       = if bool_decide (res = NoMatchBuildId) || bool_decide (res = NoMatchTitleId)
         then (if delete_ok e path then delete path (w_files w) else w_files w)
         else w_files w.
Proof.
  unfold handle_download_failure, Delete.
  destruct res; run_m; destruct (delete_ok e path); eexists; split; reflexivity.
Qed.

Lemma handle_download_failure_rest e path res w w' :
  handle_download_failure e path res w = (Returns tt, w') ->
  w_dirs w' = w_dirs w /\ w_is_syncing w' = w_is_syncing w.
Proof.
  unfold handle_download_failure, Delete. intros H.
  destruct res; run_m; destruct (delete_ok e path); injection H as <-;
    split; reflexivity.
Qed.

Lemma after_caller_files e op title dir_name w c' res w1 :
  bcat_boxcat_local e = false ->
  fetch e op (new_Client (staging_path e op (title_id title))
                (title_id title) (build_id title)) w = (Returns (c', res), w1) ->
  res <> Success ->
  w_files (after_caller e op title dir_name w)
  = if bool_decide (res = NoMatchBuildId) || bool_decide (res = NoMatchTitleId)
    then (if delete_ok e (staging_path e op (title_id title))
          then delete (staging_path e op (title_id title)) (w_files w1)
          else w_files w1)
    else w_files w1.
Proof.
  intros Hlocal Hfetch Hres.
  destruct (handle_download_failure_files e (staging_path e op (title_id title)) res w1)
    as (w2 & Hh & Hfiles).
  destruct op; simpl in *.
  - unfold SynchronizeInternal. rewrite Hlocal. unfold bind at 1.
    rewrite Hfetch. cbn [snd].
    rewrite bool_decide_eq_false_2 by assumption. cbn [negb].
    unfold bind at 1. rewrite Hh. rewrite <- Hfiles. reflexivity.
  - unfold GetLaunchParameter. rewrite Hlocal. unfold bind at 1.
    rewrite Hfetch. cbn [snd].
    rewrite bool_decide_eq_false_2 by assumption. cbn [negb].
    unfold bind at 1. rewrite Hh. rewrite <- Hfiles. reflexivity.
Qed.

(** Two fetches whose result alone does not tell what became of the
    staging file.  A resize that fails after the archive's staging file was opened for
    writing: the result is [GeneralFSError], which is neither [Success] nor
    one of the two "no match" results, and the staged bytes are gone.  A 404
    with a [FileUtil::Delete] that fails: the result is [NoMatchTitleId]
    and the staging file is still there. *)
Lemma C3_counterexample :
  ((exists c' w1,
       fetch (Sample.env_resize_fails (Some Sample.zip_reply)) FetchArchive
         (new_Client Sample.zip_path (title_id Sample.title) (build_id Sample.title))
         Sample.staged_world = (Returns (c', GeneralFSError), w1))
   /\ w_files Sample.staged_world !! Sample.zip_path = Some [x50; x4b; x03]
   /\ w_files (after_caller (Sample.env_resize_fails (Some Sample.zip_reply))
                 FetchArchive Sample.title None Sample.staged_world) !! Sample.zip_path
      = Some [])
  /\ ((exists c' w1,
          fetch (Sample2.env_delete_refused (Some (Sample.status_reply 404))) FetchArchive
            (new_Client Sample.zip_path (title_id Sample.title) (build_id Sample.title))
            Sample.staged_world = (Returns (c', NoMatchTitleId), w1))
      /\ w_files (after_caller (Sample2.env_delete_refused (Some (Sample.status_reply 404)))
                    FetchArchive Sample.title None Sample.staged_world) !! Sample.zip_path
         = Some [x50; x4b; x03]).
Proof.
  split; [split; [|split] | split].
  - do 2 eexists. vm_compute. reflexivity.
  - vm_compute. reflexivity.
  - vm_compute. reflexivity.
  - do 2 eexists. vm_compute. reflexivity.
  - vm_compute. reflexivity.
Qed.

(** C3 (amended). For the archive and for the launch parameter alike: when
    the transfer client answers [NoMatchTitleId] or [NoMatchBuildId], it has
    written no file, and its caller calls [FileUtil::Delete] on the staging
    file and discards the result: the file is gone when that deletion
    works, and every file is as before the fetch when it fails.  When the
    transfer client answers [BadClientVersion], or anything else that is
    neither [Success] nor one of those two, the caller changes no file; the
    files are then as before the fetch, except after [GeneralFSError],
    where the transfer client itself may have truncated or partly written
    the staging file; every other file is as before in that case too. *)
Theorem C3_stale_staging_file_deleted :
  forall e op title dir_name w,
    bcat_boxcat_local e = false ->
    exists c' res w1,
      fetch e op (new_Client (staging_path e op (title_id title))
                    (title_id title) (build_id title)) w = (Returns (c', res), w1)
      /\ ((res = NoMatchTitleId \/ res = NoMatchBuildId) ->
          w_files w1 = w_files w
          /\ (delete_ok e (staging_path e op (title_id title)) = true ->
              w_files (after_caller e op title dir_name w)
              = delete (staging_path e op (title_id title)) (w_files w)
              /\ w_files (after_caller e op title dir_name w)
                   !! staging_path e op (title_id title) = None)
          /\ (delete_ok e (staging_path e op (title_id title)) = false ->
              w_files (after_caller e op title dir_name w) = w_files w))
      /\ (res <> Success -> res <> NoMatchTitleId -> res <> NoMatchBuildId ->
          w_files (after_caller e op title dir_name w) = w_files w1
          /\ (res <> GeneralFSError ->
              w_files (after_caller e op title dir_name w) = w_files w)
          /\ (forall other, other <> staging_path e op (title_id title) ->
              w_files (after_caller e op title dir_name w) !! other
              = w_files w !! other)).
Proof.
  intros e op title dir_name w Hlocal.
  set (c := new_Client (staging_path e op (title_id title)) (title_id title) (build_id title)).
  destruct (DownloadInternal_cases e c (remote_path op (c_title_id c)) (fetch_timeout op)
              (digest_header_name op) (expected_content_type op) w)
    as (c' & res & w1 & Heq & _ & _ & _ & _ & Hother & _).
  exists c', res, w1. rewrite fetch_eq. split; [exact Heq|].
  assert (Hfetch : fetch e op c w = (Returns (c', res), w1)) by (rewrite fetch_eq; exact Heq).
  split.
  - intros Hres.
    assert (Hns : res <> Success) by (destruct Hres as [-> | ->]; discriminate).
    assert (Hnf : res <> GeneralFSError) by (destruct Hres as [-> | ->]; discriminate).
    pose proof (DownloadInternal_files_unchanged _ _ _ _ _ _ _ _ _ _ Heq Hns Hnf) as Hsame.
    pose proof (after_caller_files e op title dir_name w c' res w1 Hlocal Hfetch Hns) as Hafter.
    assert (Htwo : bool_decide (res = NoMatchBuildId) || bool_decide (res = NoMatchTitleId)
                   = true) by (destruct Hres as [-> | ->]; reflexivity).
    rewrite Htwo, Hsame in Hafter.
    split; [exact Hsame|]. split.
    + intros Hok. rewrite Hok in Hafter. split; [exact Hafter|].
      rewrite Hafter. apply lookup_delete_eq.
    + intros Hno. rewrite Hno in Hafter. exact Hafter.
  - intros Hns Hnt Hnb.
    pose proof (after_caller_files e op title dir_name w c' res w1 Hlocal Hfetch Hns) as Hafter.
    rewrite !bool_decide_eq_false_2 in Hafter by assumption. simpl in Hafter.
    split; [exact Hafter|]. split.
    + intros Hnf. rewrite Hafter.
      apply (DownloadInternal_files_unchanged _ _ _ _ _ _ _ _ _ _ Heq Hns Hnf).
    + intros other Hne. rewrite Hafter. apply Hother. exact Hne.
Qed.

(** Status 406 on a launch-parameter fetch with a staged file and a
    deletion that works: the file is gone afterwards, the archive's staging
    file is still there. *)
Lemma C3_stale_staging_file_deleted_witness :
  let e := Sample.env false (Some (Sample.status_reply 406)) None in
  w_files (after_caller e FetchLaunchParameter Sample.title None Sample.staged_world)
    !! Sample.bin_path = None
  /\ w_files (after_caller e FetchLaunchParameter Sample.title None Sample.staged_world)
       !! Sample.zip_path = Some [x50; x4b; x03].
Proof.
  intros e.
  destruct (C3_stale_staging_file_deleted e FetchLaunchParameter Sample.title None
              Sample.staged_world eq_refl)
    as (c' & res & w1 & Heq & Hdel & _).
  assert (Hres : res = NoMatchBuildId).
  { vm_compute in Heq. injection Heq as _ <- _. reflexivity. }
  destruct (Hdel (or_intror Hres)) as (_ & Hworks & _).
  destruct (Hworks eq_refl) as (Hfiles & Hgone).
  split; [exact Hgone|].
  rewrite Hfiles. vm_compute. reflexivity.
Defined.

(** Status 301 leaves the staged archive as it was. *)
Example bad_client_version_keeps_file :
  w_files (after_caller (Sample.env false (Some (Sample.status_reply 301)) None)
             FetchArchive Sample.title None Sample.staged_world)
  = w_files Sample.staged_world.
Proof. vm_compute. reflexivity. Qed.

(** A resize that fails after the file was opened for writing: the result
    is [GeneralFSError], the caller deletes nothing, and the staged archive
    is left empty by the transfer client itself. *)
Example failed_resize_truncates :
  w_files (after_caller (Sample.env_resize_fails (Some Sample.zip_reply))
             FetchArchive Sample.title None Sample.staged_world) !! Sample.zip_path
  = Some [].
Proof. vm_compute. reflexivity. Qed.

(** ** Local override *)

Lemma read_back_of_length e path f :
  length (rb_bytes (read_back_of e path f)) = rb_size (read_back_of e path f).
Proof.
  unfold read_back_of. destruct (f !! path) as [content|]; [|reflexivity].
  destruct (open_rb_ok e path); [|reflexivity]. simpl.
  rewrite length_app, length_firstn, repeat_length. lia.
Qed.

(** The test [size == 0 || ReadBytes(...) != bytes.size()] fails exactly
    for a file that is there, is not empty and is read in full. *)
Lemma read_back_of_usable e path f :
  let rb := read_back_of e path f in
  (if (rb_size rb =? 0)%nat || negb (rb_count rb =? N.of_nat (length (rb_bytes rb)))%N
   then None else Some (rb_bytes rb))
  = match f !! path with
    | Some content =>
        if fs_read_complete e path content && negb (length content =? 0)%nat
        then Some content else None
    | None => None
    end.
Proof.
  cbv zeta. rewrite read_back_of_length.
  unfold read_back_of, fs_read_complete.
  destruct (f !! path) as [content|]; [|reflexivity].
  destruct (open_rb_ok e path); [|reflexivity]. cbn [rb_size rb_count rb_bytes andb].
  destruct (Nat.eqb_spec (length content) 0) as [Hz|Hnz]; simpl.
  { rewrite andb_false_r. reflexivity. }
  rewrite andb_true_r.
  destruct (Nat.leb_spec (length content) (fread_count e path (length content))) as [Hle|Hlt].
  - rewrite Nat.min_r by lia. rewrite N.eqb_refl. simpl.
    rewrite firstn_all, Nat.sub_diag. simpl. rewrite app_nil_r. reflexivity.
  - rewrite Nat.min_l by lia.
    destruct (N.eqb_spec (N.of_nat (fread_count e path (length content)))
                (N.of_nat (length content))) as [Heq|Hne]; [lia | reflexivity].
Qed.

(** With the override set, an empty cache gives no launch parameter: the
    call returns no value (and makes no request). *)
Lemma C5_counterexample :
  bcat_boxcat_local (Sample.env true None None) = true
  /\ (GetLaunchParameter (Sample.env true None None) Sample.title Sample.empty_world).1
     = Returns None
  /\ w_trace (GetLaunchParameter (Sample.env true None None) Sample.title
                Sample.empty_world).2 = [].
Proof. repeat split; vm_compute; reflexivity. Qed.

(** C5 (amended). With the override set, for every title and build
    identifier: the pipeline reports success under the lock and does
    nothing else observable, [Synchronize] and [SynchronizeDirectory]
    return [true]; [Clear] returns [true] and changes nothing but the log;
    [GetLaunchParameter] makes no request and changes nothing but the log,
    and it returns the bytes of the staged launch-parameter file when that
    file is there, is not empty and is read in full, and no value
    otherwise. *)
Theorem C5_local_override :
  forall e title dir_name tid w,
    bcat_boxcat_local e = true ->
    (exists w', SynchronizeInternal e title dir_name w = (Returns tt, w')
                /\ w_trace w' = w_trace w ++ [EvLock; EvCallback true; EvUnlock]
                /\ w_files w' = w_files w /\ w_dirs w' = w_dirs w)
    /\ (exists w', Synchronize e title w = (Returns true, w')
                   /\ w_trace w' = w_trace w ++ [EvLock; EvCallback true; EvUnlock]
                   /\ w_files w' = w_files w /\ w_dirs w' = w_dirs w)
    /\ (forall name,
        exists w', SynchronizeDirectory e title name w = (Returns true, w')
                   /\ w_trace w' = w_trace w ++ [EvLock; EvCallback true; EvUnlock]
                   /\ w_files w' = w_files w /\ w_dirs w' = w_dirs w)
    /\ (exists w', Clear e tid w = (Returns true, w') /\ same_but_log w w')
    /\ (exists w',
          GetLaunchParameter e title w
          = (Returns (match w_files w !! GetBINFilePath e (title_id title) with
                      | Some content =>
                          if fs_read_complete e (GetBINFilePath e (title_id title)) content
                             && negb (length content =? 0)%nat
                          then Some content else None
                      | None => None
                      end), w')
          /\ same_but_log w w').
Proof.
  intros e title dir_name tid w Hlocal.
  split; [|split; [|split; [|split]]].
  - unfold SynchronizeInternal. rewrite Hlocal.
    eexists. split; [reflexivity|]. simpl. rewrite <- !app_assoc. auto.
  - unfold Synchronize, SynchronizeInternal. rewrite Hlocal.
    eexists. split; [reflexivity|]. simpl. rewrite <- !app_assoc. auto.
  - intros name. unfold SynchronizeDirectory, SynchronizeInternal. rewrite Hlocal.
    eexists. split; [reflexivity|]. simpl. rewrite <- !app_assoc. auto.
  - unfold Clear. rewrite Hlocal.
    eexists. split; [reflexivity|]. repeat split.
  - unfold GetLaunchParameter. rewrite Hlocal.
    unfold read_back. run_m.
    pose proof (read_back_of_usable e (GetBINFilePath e (title_id title)) (w_files w)) as Hu.
    cbv zeta in Hu. rewrite <- Hu.
    destruct ((rb_size _ =? 0)%nat || _); eexists; split; try reflexivity; repeat split.
Qed.

(** With the override set and three bytes staged, those bytes come back;
    the trace stays empty. *)
Lemma C5_local_override_witness :
  exists w',
    GetLaunchParameter (Sample.env true None None) Sample.title Sample.staged_world
    = (Returns (Some [x01; x02; x03]), w')
    /\ w_trace w' = [].
Proof.
  destruct (C5_local_override (Sample.env true None None) Sample.title None 0
              Sample.staged_world eq_refl)
    as (_ & _ & _ & _ & w' & Heq & _ & _ & _ & Htrace).
  exists w'. split; [exact Heq | symmetry; exact Htrace].
Defined.

(** ** The passphrase *)

Lemma same_but_log_refl w : same_but_log w w.
Proof. repeat split. Qed.

Lemma LogBlind_ret {A} (a : A) : LogBlind (ret a).
Proof. intros w1 w2 H. split; [reflexivity | exact H]. Qed.

Lemma LogBlind_abort {A} why : LogBlind (@abort A why).
Proof. intros w1 w2 H. split; [reflexivity | exact H]. Qed.

Lemma LogBlind_bind {A B} (m : M A) (k : A -> M B) :
  LogBlind m -> (forall a, LogBlind (k a)) -> LogBlind (bind m k).
Proof.
  intros Hm Hk w1 w2 H. unfold bind.
  destruct (Hm w1 w2 H) as [Hres Hw].
  destruct (m w1) as [r1 w1'], (m w2) as [r2 w2']. simpl in Hres, Hw. subst r2.
  destruct r1 as [a|why]; [apply Hk; exact Hw | split; [reflexivity | exact Hw]].
Qed.

Lemma LogBlind_emit ev : LogBlind (emit ev).
Proof.
  intros w1 w2 (Hf & Hd & Hs & Ht). split; [reflexivity|].
  repeat split; simpl; congruence.
Qed.

Lemma LogBlind_LOG lvl text : LogBlind (LOG lvl text).
Proof. intros w1 w2 (Hf & Hd & Hs & Ht). split; [reflexivity|]. repeat split; assumption. Qed.

Lemma LogBlind_get_files : LogBlind get_files.
Proof.
  intros w1 w2 (Hf & Hd & Hs & Ht). split; [simpl; congruence|].
  repeat split; assumption.
Qed.

Lemma LogBlind_put_files f : LogBlind (put_files f).
Proof. intros w1 w2 (Hf & Hd & Hs & Ht). split; [reflexivity|]. repeat split; assumption. Qed.

Lemma LogBlind_get_dirs : LogBlind get_dirs.
Proof.
  intros w1 w2 (Hf & Hd & Hs & Ht). split; [simpl; congruence|].
  repeat split; assumption.
Qed.

Lemma LogBlind_put_dirs d : LogBlind (put_dirs d).
Proof. intros w1 w2 (Hf & Hd & Hs & Ht). split; [reflexivity|]. repeat split; assumption. Qed.

Lemma LogBlind_set_is_syncing b :
  LogBlind (fun w => (Returns tt, set_is_syncing b w)).
Proof. intros w1 w2 (Hf & Hd & Hs & Ht). split; [reflexivity|]. repeat split; assumption. Qed.

Create HintDb logblind.
#[local] Hint Resolve LogBlind_ret LogBlind_abort LogBlind_emit LogBlind_LOG
  LogBlind_get_files LogBlind_put_files LogBlind_get_dirs LogBlind_put_dirs
  LogBlind_set_is_syncing : logblind.

(** One step through a computation built from the primitives. *)
Ltac blind_step :=
  match goal with
  | |- LogBlind (bind _ _) => apply LogBlind_bind; [| intros ?]
  | |- LogBlind (if ?b then _ else _) => destruct b
  | |- LogBlind (match ?x with _ => _ end) => destruct x
  | |- LogBlind _ => solve [auto with logblind]
  end.

Ltac blind := cbv zeta; repeat blind_step.

Lemma LogBlind_read_back e path : LogBlind (read_back e path).
Proof. unfold read_back. blind. Qed.

Lemma LogBlind_Delete e path : LogBlind (Delete e path).
Proof. unfold Delete. blind. Qed.

Lemma LogBlind_write_staging e path data : LogBlind (write_staging e path data).
Proof. unfold write_staging. blind. Qed.

#[local] Hint Resolve LogBlind_read_back LogBlind_Delete LogBlind_write_staging : logblind.

Lemma LogBlind_request_headers e c dh : LogBlind (request_headers e c dh).
Proof. unfold request_headers, Exists. blind. Qed.

#[local] Hint Resolve LogBlind_request_headers : logblind.

Lemma LogBlind_DownloadInternal e c rp t dh ct :
  LogBlind (DownloadInternal e c rp t dh ct).
Proof. unfold DownloadInternal. blind. Qed.

Lemma LogBlind_HandleDownloadDisplayResult res :
  LogBlind (HandleDownloadDisplayResult res).
Proof. unfold HandleDownloadDisplayResult. blind. Qed.

#[local] Hint Resolve LogBlind_DownloadInternal LogBlind_HandleDownloadDisplayResult
  : logblind.

Lemma LogBlind_handle_download_failure e path res :
  LogBlind (handle_download_failure e path res).
Proof. unfold handle_download_failure. blind. Qed.

Lemma LogBlind_failure : LogBlind failure.
Proof. unfold failure. blind. Qed.

Lemma LogBlind_report_success : LogBlind report_success.
Proof. unfold report_success. blind. Qed.

#[local] Hint Resolve LogBlind_handle_download_failure LogBlind_failure
  LogBlind_report_success : logblind.

Lemma LogBlind_SynchronizeInternal e title dir_name :
  LogBlind (SynchronizeInternal e title dir_name).
Proof.
  unfold SynchronizeInternal, DownloadDataZip, copy_failed. blind.
Qed.

#[local] Hint Resolve LogBlind_SynchronizeInternal : logblind.

Lemma LogBlind_Clear e title_id : LogBlind (Clear e title_id).
Proof. unfold Clear. blind. Qed.

Lemma LogBlind_SetPassphrase e title_id passphrase :
  LogBlind (SetPassphrase e title_id passphrase).
Proof. unfold SetPassphrase. blind. Qed.

Lemma LogBlind_GetLaunchParameter e title : LogBlind (GetLaunchParameter e title).
Proof. unfold GetLaunchParameter, DownloadLaunchParam. blind. Qed.

Lemma LogBlind_decode_game members : LogBlind (decode_game members).
Proof.
  unfold decode_game, JsonOps.at_const, JsonOps.get_string. blind.
Qed.

#[local] Hint Resolve LogBlind_decode_game : logblind.

Lemma LogBlind_decode_games items : forall games, LogBlind (decode_games items games).
Proof.
  induction items as [|item items IH]; intros games; simpl.
  - blind.
  - destruct item; try apply IH.
    destruct (bool_decide _); [|apply IH].
    apply LogBlind_bind; [auto with logblind | intros entry; apply IH].
Qed.

#[local] Hint Resolve LogBlind_decode_games : logblind.

Lemma LogBlind_GetStatus e global games : LogBlind (GetStatus e global games).
Proof.
  unfold GetStatus, JsonOps.at_mutable, JsonOps.get_bool, JsonOps.get_string. blind.
Qed.

Lemma LogBlind_call e c : LogBlind (call e c).
Proof.
  destruct c; simpl; unfold Synchronize, SynchronizeDirectory.
  all: apply LogBlind_bind; [| intros ?; auto with logblind].
  all: try (blind; fail).
  - apply LogBlind_Clear.
  - apply LogBlind_SetPassphrase.
  - apply LogBlind_GetLaunchParameter.
  - apply LogBlind_GetStatus.
Qed.

Lemma LogBlind_calls e cs : LogBlind (calls e cs).
Proof.
  induction cs as [|c cs IH]; simpl; [apply LogBlind_ret|].
  apply LogBlind_bind; [apply LogBlind_call | intros a].
  apply LogBlind_bind; [exact IH | intros others; apply LogBlind_ret].
Qed.

(** C10. [SetPassphrase] returns and changes nothing but the log, to which
    it adds one line; the passphrase goes nowhere else.  Whatever calls
    follow, each gives the same answer as it would have given without the
    [SetPassphrase] before it, and the worlds reached differ at most in the
    log. *)
Theorem C10_SetPassphrase_only_logs :
  forall e title_id passphrase w,
    (exists line,
        SetPassphrase e title_id passphrase w
        = (Returns tt, set_log (w_log w ++ [(LogDebug, line)]) w))
    /\ same_but_log w (SetPassphrase e title_id passphrase w).2
    /\ forall cs,
         (calls e cs (SetPassphrase e title_id passphrase w).2).1 = (calls e cs w).1
         /\ same_but_log (calls e cs (SetPassphrase e title_id passphrase w).2).2
                         (calls e cs w).2.
Proof.
  intros e title_id passphrase w.
  split; [eexists; reflexivity|].
  split; [repeat split|].
  intros cs. apply LogBlind_calls. repeat split.
Qed.

(** The line for title 0100000000010000 and a two-byte passphrase. *)
Example SetPassphrase_line :
  w_log (SetPassphrase (Sample.env false None None) (title_id Sample.title) [xab; x01]
           Sample.empty_world).2
  = [(LogDebug, "called, title_id=0100000000010000, passphrase=AB01")].
Proof. vm_compute. reflexivity. Qed.

(** ** The status feed *)

Lemma push_events_spec items : forall acc,
  push_events items acc = acc ++ strings_of items.
Proof.
  induction items as [|item items IH]; intros acc; simpl.
  - rewrite app_nil_r. reflexivity.
  - destruct item; try apply IH.
    rewrite IH, <- app_assoc. reflexivity.
Qed.

Lemma decode_game_ok members name w :
  JsonOps.assoc "name" members = Some (JString name) ->
  is_Some (JsonOps.assoc "header" members) ->
  is_Some (JsonOps.assoc "footer" members) ->
  is_Some (JsonOps.assoc "events" members) ->
  decode_game members w = (Returns (name, lenient_event_status members), w).
Proof.
  intros Hn [h Hh] [f Hf] [ev Hev].
  unfold decode_game, lenient_event_status, JsonOps.at_const, JsonOps.get_string.
  rewrite Hn, Hh, Hf, Hev. run_m.
  destruct ev; try reflexivity.
  rewrite push_events_spec. reflexivity.
Qed.

Lemma decode_games_ok items : forall games w,
  forallb game_entry_ok items = true ->
  decode_games items games w = (Returns (lenient_games items games), w).
Proof.
  induction items as [|item items IH]; intros games w Hok; [reflexivity|].
  simpl in Hok. apply andb_true_iff in Hok as [Hitem Hrest].
  destruct item; simpl; try (apply IH; exact Hrest).
  unfold game_entry_ok in Hitem.
  destruct (JsonOps.assoc "name" members) as [n|] eqn:Hn.
  - rewrite bool_decide_eq_true_2 by eauto.
    repeat (apply andb_true_iff in Hitem as [Hitem ?]).
    destruct n; try discriminate.
    unfold bind. rewrite (decode_game_ok members s w Hn) by (eapply bool_decide_eq_true_1; eassumption).
    simpl. apply IH. exact Hrest.
  - rewrite bool_decide_eq_false_2 by (intros [? ?]; discriminate).
    apply IH. exact Hrest.
Qed.

(** What [GetStatus] does once a body has been parsed. *)
Lemma GetStatus_parsed e global games w r j :
  http_get e status_request = Some r -> status r <> 301%Z ->
  json_parse e (body r) = Some j ->
  GetStatus e global games w
  = (let! online_field := JsonOps.at_mutable j "online" in
     let! online := JsonOps.get_bool online_field in
     if negb online then ret (StatusOffline, global, games)
     else
       let! global_field := JsonOps.at_mutable j "global" in
       let! global' :=
         (if JsonOps.is_null global_field then ret None
          else let! s := JsonOps.get_string global_field in ret (Some s)) in
       let! games_field := JsonOps.at_mutable j "games" in
       let! games' :=
         (match games_field with
          | JArray items => decode_games items games
          | _ => ret games
          end) in
       ret (StatusSuccess, global', games'))
      (set_trace (w_trace w ++ [EvHttpGet status_request]) w).
Proof.
  intros Hget Hstatus Hparse. unfold GetStatus.
  unfold bind at 1. unfold emit at 1. fold status_request. rewrite Hget.
  unfold ResponseStatus.BadClientVersion.
  destruct (Z.eqb_spec (status r) 301); [contradiction|].
  rewrite Hparse. reflexivity.
Qed.

Lemma GetStatus_unparsed e global games w r :
  http_get e status_request = Some r -> status r <> 301%Z ->
  json_parse e (body r) = None ->
  GetStatus e global games w
  = (Returns (StatusParseError, global, games),
     set_trace (w_trace w ++ [EvHttpGet status_request]) w).
Proof.
  intros Hget Hstatus Hparse. unfold GetStatus.
  unfold bind at 1. unfold emit at 1. fold status_request. rewrite Hget.
  unfold ResponseStatus.BadClientVersion.
  destruct (Z.eqb_spec (status r) 301); [contradiction|].
  rewrite Hparse. reflexivity.
Qed.

(** A computation that ends in [ret (StatusSuccess, ...)] never hands back
    [StatusParseError]. *)
Lemma success_tail_not_parse_error {A} (m : M A) (g : option string)
    (k : A -> gmap string EventStatus) w (g' : option string) gm w' :
  bind m (fun a => ret (StatusSuccess, g, k a)) w
  <> (Returns (StatusParseError, g', gm), w').
Proof.
  unfold bind, ret. destruct (m w) as [[a|why] w2]; intros H; discriminate.
Qed.

Lemma GetStatus_ParseError_only e global games w r g gm w' :
  http_get e status_request = Some r -> status r <> 301%Z ->
  GetStatus e global games w = (Returns (StatusParseError, g, gm), w') ->
  json_parse e (body r) = None.
Proof.
  intros Hget Hstatus Hres.
  destruct (json_parse e (body r)) as [j|] eqn:Hparse; [exfalso | reflexivity].
  rewrite (GetStatus_parsed e global games w r j Hget Hstatus Hparse) in Hres.
  revert Hres. generalize (set_trace (w_trace w ++ [EvHttpGet status_request]) w) as w1.
  intros w1.
  unfold JsonOps.at_mutable, JsonOps.get_bool.
  assert (Hgen : forall (online_field : Json) (members : list (string * Json)) w2,
            bind (JsonOps.get_bool online_field)
              (fun online =>
                 if negb online then ret (StatusOffline, global, games)
                 else
                   let! global_field :=
                     (match JsonOps.assoc "global" members with
                      | Some v => ret v
                      | None => ret JNull
                      end) in
                   let! global' :=
                     (if JsonOps.is_null global_field then ret None
                      else let! s := JsonOps.get_string global_field in ret (Some s)) in
                   let! games_field :=
                     (match JsonOps.assoc "games" members with
                      | Some v => ret v
                      | None => ret JNull
                      end) in
                   let! games' :=
                     (match games_field with
                      | JArray items => decode_games items games
                      | _ => ret games
                      end) in
                   ret (StatusSuccess, global', games')) w2
            <> (Returns (StatusParseError, g, gm), w')).
  { intros online_field members w2.
    destruct online_field; try (unfold JsonOps.get_bool, bind, abort; discriminate).
    unfold JsonOps.get_bool. unfold bind at 1. unfold ret at 1.
    destruct b; simpl; [|unfold ret; discriminate].
    unfold bind at 1.
    destruct (match JsonOps.assoc "global" members with
              | Some v => ret v | None => ret JNull end w2) as [[gf|why] w3] eqn:Hgf;
      [|discriminate].
    unfold bind at 1.
    destruct ((if JsonOps.is_null gf then ret None
               else let! s := JsonOps.get_string gf in ret (Some s)) w3)
      as [[g2|why] w4]; [|discriminate].
    unfold bind at 1.
    destruct (match JsonOps.assoc "games" members with
              | Some v => ret v | None => ret JNull end w4) as [[gmf|why] w5];
      [|discriminate].
    apply success_tail_not_parse_error. }
  (* anything but an object ends in a type error, a null top level after
     it has become an empty object *)
  destruct j; try (unfold bind, abort; discriminate).
  unfold bind at 1.
  destruct (JsonOps.assoc "online" members) as [v|] eqn:Hon; unfold ret at 1.
  - apply Hgen.
  - apply (Hgen JNull members).
Qed.

(** Two bodies that parse as JSON and still end the call without a result:
    an object whose "online" is a string, and the empty object.  The type
    error raised by [get<bool>()] is not a [parse_error], so the handler
    does not catch it. *)
Lemma C6_counterexample :
  (json_parse (Sample.env false (Some (Sample.json_reply Sample.online_yes_text))
                 (Some Sample.online_yes)) Sample.online_yes_text
   = Some (JObject [("online", JString "yes")])
   /\ (GetStatus (Sample.env false (Some (Sample.json_reply Sample.online_yes_text))
                    (Some Sample.online_yes)) None ∅ Sample.empty_world).1
      = Aborts JsonTypeError)
  /\ (json_parse (Sample.env false (Some (Sample.json_reply Sample.empty_object_text))
                    (Some Sample.empty_object)) Sample.empty_object_text
      = Some (JObject [])
      /\ (GetStatus (Sample.env false (Some (Sample.json_reply Sample.empty_object_text))
                       (Some Sample.empty_object)) None ∅ Sample.empty_world).1
         = Aborts JsonTypeError).
Proof. repeat split; vm_compute; reflexivity. Qed.

(** C6 (amended).  When the server answers with a status other than 301:
    [GetStatus] returns [ParseError] exactly when the body does not parse,
    and then the caller's [global] and [games] are as they were.  For a
    body that parses to an object: "online" false gives [Offline]; "online"
    true gives [Success] provided "global" is absent, null or a string and
    every entry of "games" that is an object with a "name" has a string
    name and "header", "footer" and "events" members.  In that case a
    missing or non-array "games", entries that are not objects or have no
    name, a header or footer that is not a string, events that are not an
    array and event entries that are not strings are read as absent, empty
    or skipped.  A top level that is not an object, an "online" that is
    missing or not a boolean, and a "global" that is neither null nor a
    string raise a JSON type error that [GetStatus] does not catch. *)
Theorem C6_status_feed_errors :
  forall e global games w r,
    http_get e status_request = Some r -> status r <> 301%Z ->
    let w1 := set_trace (w_trace w ++ [EvHttpGet status_request]) w in
    (json_parse e (body r) = None ->
       GetStatus e global games w = (Returns (StatusParseError, global, games), w1))
    /\ (forall g gm w',
          GetStatus e global games w = (Returns (StatusParseError, g, gm), w') ->
          json_parse e (body r) = None)
    /\ (forall members, json_parse e (body r) = Some (JObject members) ->
          (JsonOps.assoc "online" members = Some (JBool false) ->
             GetStatus e global games w = (Returns (StatusOffline, global, games), w1))
          /\ (JsonOps.assoc "online" members = Some (JBool true) ->
              global_field_ok members = true -> games_field_ok members = true ->
              GetStatus e global games w
              = (Returns (StatusSuccess,
                          string_or_none (JsonOps.assoc "global" members),
                          match JsonOps.assoc "games" members with
                          | Some (JArray items) => lenient_games items games
                          | _ => games
                          end), w1))
          /\ ((forall b, JsonOps.assoc "online" members <> Some (JBool b)) ->
              GetStatus e global games w = (Aborts JsonTypeError, w1))
          /\ (JsonOps.assoc "online" members = Some (JBool true) ->
              global_field_ok members = false ->
              GetStatus e global games w = (Aborts JsonTypeError, w1)))
    /\ (forall j, json_parse e (body r) = Some j ->
          (forall members, j <> JObject members) ->
          GetStatus e global games w = (Aborts JsonTypeError, w1)).
Proof.
  intros e global games w r Hget Hstatus w1.
  split; [intros Hparse; apply (GetStatus_unparsed e global games w r Hget Hstatus Hparse)|].
  split; [intros g gm w' Hres;
          apply (GetStatus_ParseError_only e global games w r g gm w' Hget Hstatus Hres)|].
  split.
  - intros members Hparse.
    rewrite (GetStatus_parsed e global games w r _ Hget Hstatus Hparse). fold w1.
    unfold JsonOps.at_mutable.
    split; [|split; [|split]].
    + intros Hon. rewrite Hon. reflexivity.
    + intros Hon Hglobal Hgames. rewrite Hon.
      unfold global_field_ok in Hglobal. unfold games_field_ok in Hgames.
      unfold bind at 1 2. unfold ret at 1. unfold JsonOps.get_bool. unfold ret at 1.
      cbn [negb].
      assert (Hg : (let! global_field :=
                      (match JsonOps.assoc "global" members with
                       | Some v => ret v | None => ret JNull end) in
                    if JsonOps.is_null global_field then ret None
                    else let! s := JsonOps.get_string global_field in ret (Some s)) w1
                   = (Returns (string_or_none (JsonOps.assoc "global" members)), w1)).
      { destruct (JsonOps.assoc "global" members) as [[]|]; try discriminate; reflexivity. }
      assert (Hm : (let! games_field :=
                      (match JsonOps.assoc "games" members with
                       | Some v => ret v | None => ret JNull end) in
                    match games_field with
                    | JArray items => decode_games items games
                    | _ => ret games
                    end) w1
                   = (Returns (match JsonOps.assoc "games" members with
                               | Some (JArray items) => lenient_games items games
                               | _ => games
                               end), w1)).
      { destruct (JsonOps.assoc "games" members) as [[]|]; try reflexivity.
        unfold bind, ret. apply decode_games_ok. exact Hgames. }
      unfold bind in Hg, Hm |- *.
      destruct (match JsonOps.assoc "global" members with
                | Some v => ret v | None => ret JNull end w1) as [[gf|] w2] eqn:E1;
        [|destruct (JsonOps.assoc "global" members); discriminate].
      rewrite Hg.
      destruct (match JsonOps.assoc "games" members with
                | Some v => ret v | None => ret JNull end w1) as [[gmf|] w3] eqn:E2;
        [|destruct (JsonOps.assoc "games" members); discriminate].
      rewrite Hm. reflexivity.
    + intros Hon.
      destruct (JsonOps.assoc "online" members) as [[]|]; try reflexivity.
      exfalso. apply (Hon b). reflexivity.
    + intros Hon Hglobal. rewrite Hon. unfold global_field_ok in Hglobal.
      destruct (JsonOps.assoc "global" members) as [[]|]; try discriminate; reflexivity.
  - intros j Hparse Hnot.
    rewrite (GetStatus_parsed e global games w r _ Hget Hstatus Hparse). fold w1.
    destruct j; try reflexivity.
    exfalso. apply (Hnot members). reflexivity.
Qed.

(** A feed with a null header, a numeric footer, a number among the events,
    a number among the games and a game without a name: one entry for G1
    with neither header nor footer and the two string events. *)
Lemma C6_status_feed_errors_witness :
  exists w',
    GetStatus (Sample.env false (Some (Sample.json_reply Sample.feed_with_nulls_text))
                 (Some Sample.feed_with_nulls)) None ∅ Sample.empty_world
    = (Returns (StatusSuccess, None,
                <["G1" := {| header := None; footer := None; events := ["e1"; "e2"] |}]> ∅),
       w').
Proof.
  destruct (C6_status_feed_errors
              (Sample.env false (Some (Sample.json_reply Sample.feed_with_nulls_text))
                 (Some Sample.feed_with_nulls))
              None ∅ Sample.empty_world (Sample.json_reply Sample.feed_with_nulls_text)
              eq_refl ltac:(discriminate))
    as (_ & _ & Hobject & _).
  destruct (Hobject _ eq_refl) as (_ & Hsuccess & _).
  eexists. rewrite (Hsuccess eq_refl eq_refl eq_refl). reflexivity.
Defined.

(** Malformed text: [ParseError], and the caller's map is as it was. *)
Example GetStatus_malformed :
  (GetStatus (Sample.env false (Some (Sample.json_reply [x7b])) None) None ∅
     Sample.empty_world).1
  = Returns (StatusParseError, None, ∅).
Proof. vm_compute. reflexivity. Qed.

(** A named game without "header" and "footer" members: the loop indexes a
    const object with a key that is not there. *)
Example GetStatus_member_missing :
  (GetStatus (Sample.env false (Some (Sample.json_reply Sample.feed_without_header_text))
                (Some Sample.feed_without_header)) None ∅ Sample.empty_world).1
  = Aborts JsonMissingKey.
Proof. vm_compute. reflexivity. Qed.

(** * Further properties *)

(** ** Cache maintenance *)

Lemma delete_each_app e names1 : forall dir names2,
  delete_each e dir (names1 ++ names2)
  = if (delete_each e dir names1).1
    then delete_each e (delete_each e dir names1).2 names2
    else delete_each e dir names1.
Proof.
  induction names1 as [|n names1 IH]; intros dir names2; [reflexivity|].
  simpl. destruct (DeleteSubdirectoryRecursive e dir n) as [[|] d] eqn:Hd;
    simpl; [apply IH | reflexivity].
Qed.

Lemma delete_each_faithful e :
  (forall d name, DeleteSubdirectoryRecursive e d name = (true, without_subdirectory d name)) ->
  forall names n f s,
    delete_each e (Dir n f s) names
    = (true, Dir n f (List.filter
                        (fun x => negb (existsb (String.eqb (GetName x)) names)) s)).
Proof.
  intros Hdel names. induction names as [|a names IH]; intros n f s; simpl.
  - f_equal. f_equal. induction s as [|x s IHs]; simpl; congruence.
  - rewrite Hdel. cbn [fst snd negb without_subdirectory]. rewrite IH.
    f_equal. f_equal. clear.
    induction s as [|x s IHs]; simpl; [reflexivity|].
    destruct (String.eqb (GetName x) a); simpl; [exact IHs|].
    destruct (existsb (String.eqb (GetName x)) names); simpl; [exact IHs|].
    rewrite IHs. reflexivity.
Qed.

Lemma filter_own_names (s : list VDir) :
  List.filter (fun x => negb (existsb (String.eqb (GetName x)) (map GetName s))) s = [].
Proof.
  assert (H : forall names,
             (forall x, In x s -> existsb (String.eqb (GetName x)) names = true) ->
             List.filter (fun x => negb (existsb (String.eqb (GetName x)) names)) s = []).
  { intros names. induction s as [|x s IH]; intros Hall; simpl; [reflexivity|].
    rewrite (Hall x (or_introl eq_refl)). simpl. apply IH.
    intros y Hy. apply Hall. right. exact Hy. }
  apply H. intros x Hx. apply existsb_exists. exists (GetName x).
  split; [apply in_map; exact Hx | apply String.eqb_refl].
Qed.

(** X1. With the override unset and a recursive delete that works, [Clear]
    returns [true] and leaves the title's directory with its name and its
    files but without any subdirectory; directories of other titles are as
    they were. *)
Theorem Clear_removes_every_subdirectory :
  forall e tid w n f s,
    bcat_boxcat_local e = false ->
    w_dirs w !! tid = Some (Dir n f s) ->
    (forall d name,
        DeleteSubdirectoryRecursive e d name = (true, without_subdirectory d name)) ->
    Clear e tid w = (Returns true, set_dirs (<[tid := Dir n f []]> (w_dirs w)) w).
Proof.
  intros e tid w n f s Hlocal Hdir Hdel.
  unfold Clear. rewrite Hlocal. unfold bind at 1. unfold get_dirs at 1.
  rewrite Hdir. cbn [GetSubdirectories].
  rewrite (delete_each_faithful e Hdel), filter_own_names. reflexivity.
Qed.

(** The directory with A, B and C is left with its file only. *)
Lemma Clear_removes_every_subdirectory_witness :
  Clear Sample2.env_deleting (title_id Sample.title) Sample2.world_with_target
  = (Returns true,
     set_dirs (<[title_id Sample.title := Dir "root" [("readme", [x01])] []]>
                 (w_dirs Sample2.world_with_target)) Sample2.world_with_target).
Proof.
  apply (Clear_removes_every_subdirectory Sample2.env_deleting (title_id Sample.title)
           Sample2.world_with_target "root" [("readme", [x01])]
           (GetSubdirectories Sample2.target)).
  - reflexivity.
  - reflexivity.
  - intros d name. reflexivity.
Defined.

(** X2. [Clear] stops at the first deletion that fails: when the names
    before [bad] are deleted one after the other and the deletion of [bad]
    then fails, [Clear] returns [false] and the title's directory is what
    that failed deletion left; the names after [bad] are not tried and
    nothing is rolled back. *)
Theorem Clear_stops_at_first_failure :
  forall e tid w dir before bad after d1 d2,
    bcat_boxcat_local e = false ->
    w_dirs w !! tid = Some dir ->
    map GetName (GetSubdirectories dir) = before ++ bad :: after ->
    delete_each e dir before = (true, d1) ->
    DeleteSubdirectoryRecursive e d1 bad = (false, d2) ->
    Clear e tid w = (Returns false, set_dirs (<[tid := d2]> (w_dirs w)) w).
Proof.
  intros e tid w dir before bad after d1 d2 Hlocal Hdir Hnames Hbefore Hbad.
  unfold Clear. rewrite Hlocal. unfold bind at 1. unfold get_dirs at 1.
  rewrite Hdir, Hnames, delete_each_app, Hbefore. cbn [fst snd].
  simpl. rewrite Hbad. reflexivity.
Qed.

(** A is deleted, B is refused, C is still there. *)
Lemma Clear_stops_at_first_failure_witness :
  Clear Sample2.env_refusing_B (title_id Sample.title) Sample2.world_with_target
  = (Returns false,
     set_dirs (<[title_id Sample.title :=
                   Dir "root" [("readme", [x01])]
                     [Dir "B" [] [Dir "inner" [] []]; Dir "C" [] []]]>
                 (w_dirs Sample2.world_with_target)) Sample2.world_with_target).
Proof.
  apply (Clear_stops_at_first_failure Sample2.env_refusing_B (title_id Sample.title)
           Sample2.world_with_target Sample2.target ["A"] "B" ["C"]
           (Dir "root" [("readme", [x01])]
              [Dir "B" [] [Dir "inner" [] []]; Dir "C" [] []])).
  - reflexivity.
  - reflexivity.
  - reflexivity.
  - reflexivity.
  - reflexivity.
Defined.

(** X3. Whatever happens, [Clear] makes no request, takes no lock, writes
    no host file and leaves the directories of all other titles alone. *)
Theorem Clear_touches_one_directory :
  forall e tid w,
    w_trace (Clear e tid w).2 = w_trace w
    /\ w_files (Clear e tid w).2 = w_files w
    /\ w_is_syncing (Clear e tid w).2 = w_is_syncing w
    /\ forall other, other <> tid ->
         w_dirs (Clear e tid w).2 !! other = w_dirs w !! other.
Proof.
  intros e tid w. unfold Clear.
  destruct (bcat_boxcat_local e); [repeat split|].
  run_m.
  destruct (w_dirs w !! tid) as [dir|]; [|repeat split].
  simpl. repeat split.
  intros other Hne. rewrite lookup_insert_ne by congruence. reflexivity.
Qed.

(** ** Paths and messages *)

Lemma append_eq_same_length (a : string) : forall b x y,
  String.length a = String.length b ->
  String.append a x = String.append b y -> a = b /\ x = y.
Proof.
  induction a as [|c a IH]; intros [|d b] x y Hlen Heq; try discriminate.
  - split; [reflexivity | exact Heq].
  - rewrite !HexFacts.append_cons in Heq. injection Heq as -> Heq.
    simpl in Hlen. destruct (IH b x y ltac:(lia) Heq) as [-> ->]. auto.
Qed.

Lemma fmt_016X_inj t1 t2 suffix1 suffix2 :
  t1 < 2 ^ 64 -> t2 < 2 ^ 64 ->
  String.append (Hex.fmt_016X t1) suffix1 = String.append (Hex.fmt_016X t2) suffix2 ->
  t1 = t2 /\ suffix1 = suffix2.
Proof.
  intros H1 H2 Heq.
  destruct (HexFacts.fmt_016X_spec t1 H1) as (L1 & _ & V1).
  destruct (HexFacts.fmt_016X_spec t2 H2) as (L2 & _ & V2).
  assert (Hlen : String.length (Hex.fmt_016X t1) = String.length (Hex.fmt_016X t2))
    by (rewrite L1, L2; reflexivity).
  destruct (append_eq_same_length _ _ _ _ Hlen Heq) as [Hfmt Hsuf].
  split; [|exact Hsuf]. rewrite Hfmt in V1. congruence.
Qed.

(** X4. Identifiers are formatted without collisions: for 64-bit title
    identifiers, two staging paths are equal only for the same kind of
    content and the same title, and so are two request paths.  The archive
    and the launch parameter of a title never share a file, and two titles
    never share one. *)
Theorem paths_identify_operation_and_title :
  forall e op1 op2 t1 t2,
    t1 < 2 ^ 64 -> t2 < 2 ^ 64 ->
    (staging_path e op1 t1 = staging_path e op2 t2 -> op1 = op2 /\ t1 = t2)
    /\ (remote_path op1 t1 = remote_path op2 t2 -> op1 = op2 /\ t1 = t2).
Proof.
  intros e op1 op2 t1 t2 H1 H2. split; intros Heq.
  - assert (Hcut : String.append (Hex.fmt_016X t1)
                     (match op1 with FetchArchive => "/data.zip"
                                   | FetchLaunchParameter => "/launchparam.bin" end)
                   = String.append (Hex.fmt_016X t2)
                       (match op2 with FetchArchive => "/data.zip"
                                     | FetchLaunchParameter => "/launchparam.bin" end)).
    { destruct op1, op2; unfold staging_path, GetZIPFilePath, GetBINFilePath in Heq;
        apply String.app_inj in Heq; apply String.app_inj in Heq; exact Heq. }
    destruct (fmt_016X_inj _ _ _ _ H1 H2 Hcut) as [-> Hsuf].
    split; [|reflexivity]. destruct op1, op2; try reflexivity; discriminate.
  - assert (Hcut : String.append (Hex.fmt_016X t1)
                     (match op1 with FetchArchive => "/data"
                                   | FetchLaunchParameter => "/launchparam" end)
                   = String.append (Hex.fmt_016X t2)
                       (match op2 with FetchArchive => "/data"
                                     | FetchLaunchParameter => "/launchparam" end)).
    { destruct op1, op2;
        unfold remote_path, BOXCAT_PATHNAME_DATA, BOXCAT_PATHNAME_LAUNCHPARAM in Heq;
        apply String.app_inj in Heq; exact Heq. }
    destruct (fmt_016X_inj _ _ _ _ H1 H2 Hcut) as [-> Hsuf].
    split; [|reflexivity]. destruct op1, op2; try reflexivity; discriminate.
Qed.

(** The archive of one title and the launch parameter of another are kept
    apart. *)
Lemma paths_identify_operation_and_title_witness :
  staging_path (Sample.env false None None) FetchArchive 1
  <> staging_path (Sample.env false None None) FetchLaunchParameter 2.
Proof.
  intros Heq.
  destruct (paths_identify_operation_and_title (Sample.env false None None)
              FetchArchive FetchLaunchParameter 1 2
              ltac:(vm_compute; reflexivity) ltac:(vm_compute; reflexivity))
    as [Hstaging _].
  destruct (Hstaging Heq) as [Hop _]. discriminate.
Defined.

(** X5. The message table has one entry for every result and no entry
    twice: indexing it by the result never leaves the table, and different
    results print different messages. *)
Theorem messages_one_per_result :
  length DOWNLOAD_RESULT_LOG_MESSAGES = 8%nat
  /\ (forall r, (DownloadResult_index r < length DOWNLOAD_RESULT_LOG_MESSAGES)%nat)
  /\ (forall r, DOWNLOAD_RESULT_LOG_MESSAGES !! DownloadResult_index r
                = Some (DownloadResult_message r))
  /\ (forall r1 r2, DownloadResult_message r1 = DownloadResult_message r2 -> r1 = r2).
Proof.
  split; [reflexivity|]. split; [|split].
  - intros r. destruct r; simpl; lia.
  - intros r. destruct r; reflexivity.
  - intros r1 r2 Heq. destruct r1, r2; try reflexivity; vm_compute in Heq; discriminate.
Qed.

(** ** More on the status feed *)

Lemma decode_game_world members w : (decode_game members w).2 = w.
Proof.
  unfold decode_game, JsonOps.at_const, JsonOps.get_string, bind, ret, abort.
  destruct (JsonOps.assoc "header" members); [|reflexivity].
  destruct (JsonOps.assoc "footer" members); [|reflexivity].
  destruct (JsonOps.assoc "events" members); [|reflexivity].
  destruct (JsonOps.assoc "name" members) as [[]|]; reflexivity.
Qed.

Lemma decode_games_world items : forall games w, (decode_games items games w).2 = w.
Proof.
  induction items as [|item items IH]; intros games w; [reflexivity|].
  simpl. destruct item; try apply IH.
  destruct (bool_decide _); [|apply IH].
  unfold bind. pose proof (decode_game_world members w) as Hw.
  destruct (decode_game members w) as [[entry|why] w2]; simpl in Hw; subst w2;
    [apply IH | reflexivity].
Qed.

Lemma GetStatus_world e global games w :
  (GetStatus e global games w).2 = set_trace (w_trace w ++ [EvHttpGet status_request]) w.
Proof.
  unfold GetStatus. unfold bind at 1. unfold emit at 1. fold status_request.
  set (w1 := set_trace _ w).
  destruct (http_get e status_request) as [r|]; [|reflexivity].
  destruct (status r =? ResponseStatus.BadClientVersion)%Z; [reflexivity|].
  destruct (json_parse e (body r)) as [j|]; [|reflexivity].
  unfold JsonOps.at_mutable, JsonOps.get_bool, JsonOps.get_string,
    JsonOps.is_null, bind, ret, abort.
  repeat case_match; simplify_eq; try reflexivity.
  all: match goal with
       | H : decode_games ?items ?g ?w0 = (_, ?w2) |- _ =>
           pose proof (decode_games_world items g w0) as Hw; rewrite H in Hw; exact Hw
       end.
Qed.

(** X6. [GetStatus] hands exactly one request to the transport, the one
    for "/boxcat/events" with the two identity headers, and changes nothing
    else: no file, no directory, no log line, also when it aborts.  No
    response gives [Offline] and status 301 gives [BadClientVersion]
    before the body is looked at; in both cases the caller's [global] and
    [games] stay as they were. *)
Theorem GetStatus_one_request_then_offline_or_version :
  forall e global games w,
    (GetStatus e global games w).2
    = set_trace (w_trace w ++ [EvHttpGet status_request]) w
    /\ (http_get e status_request = None ->
        (GetStatus e global games w).1 = Returns (StatusOffline, global, games))
    /\ (forall r, http_get e status_request = Some r -> status r = 301%Z ->
        (GetStatus e global games w).1 = Returns (StatusBadClientVersion, global, games)).
Proof.
  intros e global games w. split; [apply GetStatus_world|].
  split.
  - intros Hget. unfold GetStatus. unfold bind at 1. unfold emit at 1.
    fold status_request. rewrite Hget. reflexivity.
  - intros r Hget Hstatus. unfold GetStatus. unfold bind at 1. unfold emit at 1.
    fold status_request. rewrite Hget.
    unfold ResponseStatus.BadClientVersion. rewrite Hstatus. reflexivity.
Qed.

(** A 301 whose body is not JSON at all. *)
Lemma GetStatus_one_request_then_offline_or_version_witness :
  (GetStatus (Sample.env false (Some (Sample.status_reply 301)) None) None ∅
     Sample.empty_world).1
  = Returns (StatusBadClientVersion, None, ∅).
Proof.
  destruct (GetStatus_one_request_then_offline_or_version
              (Sample.env false (Some (Sample.status_reply 301)) None) None ∅
              Sample.empty_world) as (_ & _ & H301).
  apply (H301 (Sample.status_reply 301)); reflexivity.
Defined.

Lemma lenient_games_app items1 : forall items2 games,
  lenient_games (items1 ++ items2) games
  = lenient_games items2 (lenient_games items1 games).
Proof.
  induction items1 as [|item items1 IH]; intros items2 games; [reflexivity|].
  simpl. destruct item; try apply IH.
  destruct (JsonOps.assoc "name" members) as [[]|]; apply IH.
Qed.

Lemma lenient_games_unnamed items k : forall games,
  (forall item, In item items -> entry_name item <> Some k) ->
  lenient_games items games !! k = games !! k.
Proof.
  induction items as [|item items IH]; intros games Hno; [reflexivity|].
  assert (Hrest : forall x, In x items -> entry_name x <> Some k)
    by (intros x Hx; apply Hno; right; exact Hx).
  pose proof (Hno item (or_introl eq_refl)) as Hitem.
  simpl. destruct item; try (apply IH; exact Hrest).
  simpl in Hitem.
  destruct (JsonOps.assoc "name" members) as [[]|]; try (apply IH; exact Hrest).
  rewrite IH by exact Hrest. simpl in Hitem.
  apply lookup_insert_ne. congruence.
Qed.

Lemma lenient_games_last before entry after k games :
  entry_name (JObject entry) = Some k ->
  (forall item, In item after -> entry_name item <> Some k) ->
  lenient_games (before ++ JObject entry :: after) games !! k
  = Some (lenient_event_status entry).
Proof.
  intros Hname Hafter. rewrite lenient_games_app. simpl.
  simpl in Hname. destruct (JsonOps.assoc "name" entry) as [[]|]; try discriminate.
  simpl in Hname. injection Hname as ->.
  rewrite lenient_games_unnamed by exact Hafter.
  apply lookup_insert_eq.
Qed.

Lemma GetStatus_lenient e global games w r members :
  http_get e status_request = Some r -> status r <> 301%Z ->
  json_parse e (body r) = Some (JObject members) ->
  JsonOps.assoc "online" members = Some (JBool true) ->
  global_field_ok members = true -> games_field_ok members = true ->
  GetStatus e global games w
  = (Returns (StatusSuccess,
              string_or_none (JsonOps.assoc "global" members),
              match JsonOps.assoc "games" members with
              | Some (JArray items) => lenient_games items games
              | _ => games
              end),
     set_trace (w_trace w ++ [EvHttpGet status_request]) w).
Proof.
  intros Hget Hstatus Hparse Hon Hglobal Hgames.
  rewrite (GetStatus_parsed e global games w r _ Hget Hstatus Hparse).
  set (w1 := set_trace _ w).
  unfold JsonOps.at_mutable. rewrite Hon.
  unfold global_field_ok in Hglobal. unfold games_field_ok in Hgames.
  unfold JsonOps.get_bool, JsonOps.get_string, JsonOps.is_null, bind, ret.
  cbn [negb].
  destruct (JsonOps.assoc "global" members) as [[]|]; try discriminate;
    destruct (JsonOps.assoc "games" members) as [[]|]; try reflexivity;
    rewrite (decode_games_ok _ _ _ Hgames); reflexivity.
Qed.

(** X7. How a feed that [GetStatus] accepts fills the caller's map: a name
    that no entry of "games" carries keeps the value the caller passed in
    (the map is not cleared); a name that entries carry ends up with the
    status decoded from the last of them. *)
Theorem GetStatus_last_entry_wins :
  forall e global games w r members items,
    http_get e status_request = Some r -> status r <> 301%Z ->
    json_parse e (body r) = Some (JObject members) ->
    JsonOps.assoc "online" members = Some (JBool true) ->
    global_field_ok members = true ->
    JsonOps.assoc "games" members = Some (JArray items) ->
    forallb game_entry_ok items = true ->
    exists g result w',
      GetStatus e global games w = (Returns (StatusSuccess, g, result), w')
      /\ (forall k, (forall item, In item items -> entry_name item <> Some k) ->
                    result !! k = games !! k)
      /\ (forall k before entry after,
            items = before ++ JObject entry :: after ->
            entry_name (JObject entry) = Some k ->
            (forall item, In item after -> entry_name item <> Some k) ->
            result !! k = Some (lenient_event_status entry)).
Proof.
  intros e global games w r members items Hget Hstatus Hparse Hon Hglobal Hitems Hok.
  assert (Hgames : games_field_ok members = true)
    by (unfold games_field_ok; rewrite Hitems; exact Hok).
  rewrite (GetStatus_lenient e global games w r members Hget Hstatus Hparse Hon
             Hglobal Hgames).
  rewrite Hitems. do 3 eexists. split; [reflexivity|]. split.
  - intros k Hno. apply lenient_games_unnamed. exact Hno.
  - intros k before entry after -> Hname Hafter.
    apply lenient_games_last; assumption.
Qed.

(** G1 is named twice: the second entry is the one that stays, and the
    caller's entry for G0 is still there. *)
Lemma GetStatus_last_entry_wins_witness :
  exists g result w',
    GetStatus (Sample.env false (Some (Sample.json_reply Sample2.feed_twice_text))
                 (Some Sample2.feed_twice)) None Sample2.held_games Sample.empty_world
    = (Returns (StatusSuccess, g, result), w')
    /\ result !! "G0" = Some {| header := Some "kept"; footer := None; events := [] |}
    /\ result !! "G1" = Some {| header := Some "new"; footer := None; events := ["e"] |}.
Proof.
  destruct (GetStatus_last_entry_wins
              (Sample.env false (Some (Sample.json_reply Sample2.feed_twice_text))
                 (Some Sample2.feed_twice))
              None Sample2.held_games Sample.empty_world
              (Sample.json_reply Sample2.feed_twice_text)
              [("online", JBool true); ("games", JArray Sample2.feed_twice_games)]
              Sample2.feed_twice_games
              eq_refl ltac:(discriminate) eq_refl eq_refl eq_refl eq_refl eq_refl)
    as (g & result & w' & Heq & Hkeep & Hlast).
  exists g, result, w'. split; [exact Heq|]. split.
  - rewrite (Hkeep "G0"); [reflexivity|].
    intros item [<- | [<- | []]]; discriminate.
  - apply (Hlast "G1"
             [JObject [ ("name", JString "G1"); ("header", JString "old");
                        ("footer", JNull); ("events", JArray []) ]]
             [ ("name", JString "G1"); ("header", JString "new");
               ("footer", JNull); ("events", JArray [JString "e"]) ]
             []).
    + reflexivity.
    + reflexivity.
    + intros item [].
Defined.

(** ** More on the transfer client *)

Lemma DownloadInternal_client e c rp t dh ct w c' res w' :
  DownloadInternal e c rp t dh ct w = (Returns (c', res), w') ->
  c' = {| c_client := Some (match c_client c with
                            | Some k => k
                            | None => (BOXCAT_HOSTNAME, PORT, t)
                            end);
          c_path := c_path c; c_title_id := c_title_id c; c_build_id := c_build_id c |}.
Proof.
  unfold DownloadInternal. unfold bind at 1. rewrite request_headers_eq.
  unfold bind at 1. unfold emit at 1. cbv zeta.
  destruct (http_get e _) as [r|]; [|unfold ret; congruence].
  repeat (match goal with
          | |- context [if ?b then _ else _] => destruct b
          end; [unfold ret; congruence|]).
  destruct (headers_find "content-type" (headers r)) as [v|]; [|unfold ret; congruence].
  destruct (Str.find v ct); [|unfold ret; congruence].
  unfold bind, ret.
  match goal with
  | |- context [write_staging ?e0 ?p ?d ?w0] =>
      destruct (write_staging_cases e0 p d w0) as (res2 & w2 & Hw & _)
  end.
  rewrite Hw. congruence.
Qed.

(** X8. The connection is made on first use and kept: when one client
    object fetches twice, both requests go to api.yuzu-emu.org on port 443
    with the timeout of the operation that came first, whatever the second
    operation is; path and identifiers of the client do not change. *)
Theorem client_keeps_first_connection :
  forall e c op1 op2 w c1 r1 w1 c2 r2 w2,
    c_client c = None ->
    fetch e op1 c w = (Returns (c1, r1), w1) ->
    fetch e op2 c1 w1 = (Returns (c2, r2), w2) ->
    exists rq1 rq2,
      w_trace w2 = w_trace w ++ [EvHttpGet rq1; EvHttpGet rq2]
      /\ rq_host rq1 = BOXCAT_HOSTNAME /\ rq_port rq1 = 443
      /\ rq_timeout rq1 = fetch_timeout op1
      /\ rq_host rq2 = BOXCAT_HOSTNAME /\ rq_port rq2 = 443
      /\ rq_timeout rq2 = fetch_timeout op1
      /\ rq_path rq1 = remote_path op1 (c_title_id c)
      /\ rq_path rq2 = remote_path op2 (c_title_id c)
      /\ c_path c2 = c_path c /\ c_title_id c2 = c_title_id c
      /\ c_build_id c2 = c_build_id c.
Proof.
  intros e c op1 op2 w c1 r1 w1 c2 r2 w2 Hnew H1 H2.
  rewrite fetch_eq in H1, H2.
  pose proof (DownloadInternal_client _ _ _ _ _ _ _ _ _ _ H1) as Hc1.
  pose proof (DownloadInternal_client _ _ _ _ _ _ _ _ _ _ H2) as Hc2.
  rewrite Hnew in Hc1.
  destruct (DownloadInternal_cases e c (remote_path op1 (c_title_id c)) (fetch_timeout op1)
              (digest_header_name op1) (expected_content_type op1) w)
    as (c1' & r1' & w1' & E1 & T1 & _).
  rewrite H1 in E1. injection E1 as <- <- <-.
  destruct (DownloadInternal_cases e c1 (remote_path op2 (c_title_id c1)) (fetch_timeout op2)
              (digest_header_name op2) (expected_content_type op2) w1)
    as (c2' & r2' & w2' & E2 & T2 & _).
  rewrite H2 in E2. injection E2 as <- <- <-.
  rewrite built_request_eq in T1, T2. cbv zeta in T1, T2.
  rewrite Hnew in T1.
  do 2 eexists. split; [rewrite T2, T1, <- app_assoc; reflexivity|].
  subst c1. subst c2. simpl. repeat split.
Qed.

(** A client that fetched the archive goes on with the 30 second timeout
    when it fetches the launch parameter, for which a fresh client would
    take 10. *)
Lemma client_keeps_first_connection_witness :
  let e := Sample.env false None None in
  let c := new_Client Sample.zip_path (title_id Sample.title) (build_id Sample.title) in
  exists c1 r1 w1 c2 r2 w2 rq1 rq2,
    fetch e FetchArchive c Sample.empty_world = (Returns (c1, r1), w1)
    /\ fetch e FetchLaunchParameter c1 w1 = (Returns (c2, r2), w2)
    /\ w_trace w2 = [EvHttpGet rq1; EvHttpGet rq2]
    /\ rq_timeout rq2 = 30 /\ fetch_timeout FetchLaunchParameter = 10.
Proof.
  intros e c.
  destruct (fetch e FetchArchive c Sample.empty_world) as [[[c1 r1]|] w1] eqn:H1;
    [|vm_compute in H1; discriminate].
  destruct (fetch e FetchLaunchParameter c1 w1) as [[[c2 r2]|] w2] eqn:H2.
  2:{ rewrite fetch_eq in H2.
      destruct (DownloadInternal_cases e c1 (remote_path FetchLaunchParameter (c_title_id c1))
                  (fetch_timeout FetchLaunchParameter)
                  (digest_header_name FetchLaunchParameter)
                  (expected_content_type FetchLaunchParameter) w1) as (? & ? & ? & E & _).
      rewrite H2 in E. discriminate. }
  destruct (client_keeps_first_connection e c FetchArchive FetchLaunchParameter
              Sample.empty_world c1 r1 w1 c2 r2 w2 eq_refl H1 H2)
    as (rq1 & rq2 & Ht & _ & _ & _ & _ & _ & Htimeout & _).
  exists c1, r1, w1, c2, r2, w2, rq1, rq2.
  split; [first [exact H1 | reflexivity]|].
  split; [first [exact H2 | reflexivity]|]. split; [exact Ht|].
  split; [exact Htimeout | reflexivity].
Defined.

(** ** More on the launch parameter *)

Lemma usable_content_eq e path f :
  (let rb := read_back_of e path f in
   if (rb_size rb =? 0)%nat || negb (rb_count rb =? N.of_nat (length (rb_bytes rb)))%N
   then None else Some (rb_bytes rb))
  = usable_content e path f.
Proof. apply read_back_of_usable. Qed.

(** What [GetLaunchParameter] makes of the answer of its transfer client. *)
Lemma GetLaunchParameter_after_fetch e title w c' res w1 :
  bcat_boxcat_local e = false ->
  fetch e FetchLaunchParameter
    (new_Client (GetBINFilePath e (title_id title)) (title_id title) (build_id title)) w
  = (Returns (c', res), w1) ->
  exists w',
    GetLaunchParameter e title w
    = (Returns (if bool_decide (res = Success)
                then usable_content e (GetBINFilePath e (title_id title)) (w_files w1)
                else None), w')
    /\ w_dirs w' = w_dirs w1
    /\ (res = Success -> w_files w' = w_files w1 /\ w_trace w' = w_trace w1).
Proof.
  intros Hlocal Hfetch. unfold GetLaunchParameter. rewrite Hlocal.
  simpl in Hfetch. unfold bind at 1. rewrite Hfetch. cbn [snd].
  destruct (decide (res = Success)) as [->|Hne].
  - rewrite bool_decide_eq_true_2 by reflexivity. cbn [negb].
    unfold read_back. run_m.
    pose proof (usable_content_eq e (GetBINFilePath e (title_id title)) (w_files w1)) as Hu.
    cbv zeta in Hu. rewrite <- Hu.
    destruct ((rb_size _ =? 0)%nat || _); eexists; (split; [reflexivity|]); auto.
  - rewrite !bool_decide_eq_false_2 by assumption. cbn [negb].
    destruct (handle_download_failure_files e (GetBINFilePath e (title_id title)) res w1)
      as (w2 & Hh & _).
    unfold bind at 1. rewrite Hh. unfold ret.
    eexists. split; [reflexivity|]. split; [|contradiction].
    apply (handle_download_failure_rest _ _ _ _ _ Hh).
Qed.

(** X9. The launch parameter makes the round trip through the staging
    file: with the override unset, a 200 answer of content type
    application/octet-stream, a file system that writes and reads the body
    in full, [GetLaunchParameter] returns exactly the body and leaves it in
    the staging file; except that an empty body, although downloaded with
    [Success], comes back as no value. *)
Theorem GetLaunchParameter_round_trip :
  forall e title w r v,
    bcat_boxcat_local e = false ->
    http_get e (built_request e
                  (new_Client (GetBINFilePath e (title_id title))
                     (title_id title) (build_id title))
                  (remote_path FetchLaunchParameter (title_id title))
                  (fetch_timeout FetchLaunchParameter)
                  (digest_header_name FetchLaunchParameter) w) = Some r ->
    status r = 200%Z ->
    headers_find "content-type" (headers r) = Some v ->
    Str.contains v "application/octet-stream" ->
    fs_write_succeeds e (GetBINFilePath e (title_id title)) (body r) = true ->
    fs_read_complete e (GetBINFilePath e (title_id title)) (body r) = true ->
    exists w',
      GetLaunchParameter e title w
      = (Returns (if (length (body r) =? 0)%nat then None else Some (body r)), w')
      /\ w_files w' = <[GetBINFilePath e (title_id title) := body r]> (w_files w).
Proof.
  intros e title w r v Hlocal Hget H200 Hct Hcontains Hwrite Hread.
  set (path := GetBINFilePath e (title_id title)) in *.
  set (c := new_Client path (title_id title) (build_id title)) in *.
  destruct (DownloadInternal_cases e c (remote_path FetchLaunchParameter (c_title_id c))
              (fetch_timeout FetchLaunchParameter)
              (digest_header_name FetchLaunchParameter)
              (expected_content_type FetchLaunchParameter) w)
    as (c' & res & w1 & Heq & _ & _ & _ & _ & _ & _ & Hsome).
  destruct (Hsome r Hget) as (_ & _ & _ & _ & _ & _ & Hbody).
  destruct (Hbody H200 v Hct Hcontains) as (Hok & _).
  destruct (Hok Hwrite) as (-> & Hfiles).
  destruct (GetLaunchParameter_after_fetch e title w c' Success w1 Hlocal)
    as (w' & Hres & _ & Hsame).
  { rewrite fetch_eq. exact Heq. }
  destruct (Hsame eq_refl) as (Hf & _).
  exists w'. split; [|rewrite Hf; exact Hfiles].
  rewrite Hres. rewrite bool_decide_eq_true_2 by reflexivity.
  unfold usable_content. fold path. rewrite Hfiles.
  change (c_path c) with path. rewrite lookup_insert_eq, Hread. simpl.
  destruct (length (body r) =? 0)%nat; reflexivity.
Qed.

(** Three bytes sent, three bytes returned; nothing sent, nothing
    returned. *)
Lemma GetLaunchParameter_round_trip_witness :
  (exists w',
     GetLaunchParameter (Sample.env false (Some (Sample2.octet_reply [x0a; x0b; x0c])) None)
       Sample.title Sample.empty_world
     = (Returns (Some [x0a; x0b; x0c]), w')
     /\ w_files w' = <[Sample.bin_path := [x0a; x0b; x0c]]> ∅)
  /\ (exists w',
        GetLaunchParameter (Sample.env false (Some (Sample2.octet_reply [])) None)
          Sample.title Sample.empty_world
        = (Returns None, w')
        /\ w_files w' = <[Sample.bin_path := []]> ∅).
Proof.
  split.
  - apply (GetLaunchParameter_round_trip
             (Sample.env false (Some (Sample2.octet_reply [x0a; x0b; x0c])) None)
             Sample.title Sample.empty_world (Sample2.octet_reply [x0a; x0b; x0c])
             "application/octet-stream");
      try reflexivity.
    exists "", "". reflexivity.
  - apply (GetLaunchParameter_round_trip
             (Sample.env false (Some (Sample2.octet_reply [])) None)
             Sample.title Sample.empty_world (Sample2.octet_reply [])
             "application/octet-stream");
      try reflexivity.
    exists "", "". reflexivity.
Defined.

(** X10. On status 304 [GetLaunchParameter] serves what was staged before:
    no file changes, and the value returned is the content of the staging
    file when that is there, not empty and read in full; with nothing
    staged, "not modified" comes back as no value. *)
Theorem GetLaunchParameter_not_modified :
  forall e title w r,
    bcat_boxcat_local e = false ->
    http_get e (built_request e
                  (new_Client (GetBINFilePath e (title_id title))
                     (title_id title) (build_id title))
                  (remote_path FetchLaunchParameter (title_id title))
                  (fetch_timeout FetchLaunchParameter)
                  (digest_header_name FetchLaunchParameter) w) = Some r ->
    status r = 304%Z ->
    exists w',
      GetLaunchParameter e title w
      = (Returns (usable_content e (GetBINFilePath e (title_id title)) (w_files w)), w')
      /\ w_files w' = w_files w.
Proof.
  intros e title w r Hlocal Hget H304.
  set (path := GetBINFilePath e (title_id title)) in *.
  set (c := new_Client path (title_id title) (build_id title)) in *.
  destruct (DownloadInternal_cases e c (remote_path FetchLaunchParameter (c_title_id c))
              (fetch_timeout FetchLaunchParameter)
              (digest_header_name FetchLaunchParameter)
              (expected_content_type FetchLaunchParameter) w)
    as (c' & res & w1 & Heq & _ & _ & _ & _ & _ & _ & Hsome).
  destruct (Hsome r Hget) as (H & _).
  destruct (H H304) as (-> & Hfiles).
  destruct (GetLaunchParameter_after_fetch e title w c' Success w1 Hlocal)
    as (w' & Hres & _ & Hsame).
  { rewrite fetch_eq. exact Heq. }
  destruct (Hsame eq_refl) as (Hf & _).
  exists w'. split; [|rewrite Hf; exact Hfiles].
  rewrite Hres. rewrite bool_decide_eq_true_2 by reflexivity.
  fold path. rewrite Hfiles. reflexivity.
Qed.

(** A 304 with three bytes staged returns them; a 304 with nothing staged
    returns no value. *)
Lemma GetLaunchParameter_not_modified_witness :
  (GetLaunchParameter (Sample.env false (Some (Sample.status_reply 304)) None)
     Sample.title Sample.staged_world).1 = Returns (Some [x01; x02; x03])
  /\ (GetLaunchParameter (Sample.env false (Some (Sample.status_reply 304)) None)
        Sample.title Sample.empty_world).1 = Returns None.
Proof.
  destruct (GetLaunchParameter_not_modified
              (Sample.env false (Some (Sample.status_reply 304)) None)
              Sample.title Sample.staged_world (Sample.status_reply 304)
              eq_refl eq_refl eq_refl) as (w1 & H1 & _).
  destruct (GetLaunchParameter_not_modified
              (Sample.env false (Some (Sample.status_reply 304)) None)
              Sample.title Sample.empty_world (Sample.status_reply 304)
              eq_refl eq_refl eq_refl) as (w2 & H2 & _).
  rewrite H1, H2. split; reflexivity.
Defined.

(** ** More on the synchronisation pipeline *)

Lemma read_back_test e path f :
  let rb := read_back_of e path f in
  match usable_content e path f with
  | Some content =>
      (rb_size rb =? 0)%nat || negb (rb_count rb =? N.of_nat (length (rb_bytes rb)))%N
      = false
      /\ rb_bytes rb = content
  | None =>
      (rb_size rb =? 0)%nat || negb (rb_count rb =? N.of_nat (length (rb_bytes rb)))%N
      = true
  end.
Proof.
  cbv zeta. rewrite <- usable_content_eq. cbv zeta.
  destruct ((rb_size _ =? 0)%nat || _); auto.
Qed.

(** The pipeline after its download, as far as the read-back test. *)
Lemma SynchronizeInternal_after_fetch e title dir_name w c' res w1 :
  bcat_boxcat_local e = false ->
  fetch e FetchArchive
    (new_Client (GetZIPFilePath e (title_id title)) (title_id title) (build_id title)) w
  = (Returns (c', res), w1) ->
  w_dirs w1 = w_dirs w
  /\ SynchronizeInternal e title dir_name w
     = (if negb (bool_decide (res = Success)) then
          handle_download_failure e (GetZIPFilePath e (title_id title)) res;;; failure
        else
          match usable_content e (GetZIPFilePath e (title_id title)) (w_files w1) with
          | None =>
              LOG LogError ("Boxcat failed to read ZIP file at path '"
                            +:+ GetZIPFilePath e (title_id title) +:+ "'!");;;
              failure
          | Some content =>
              match ExtractZIP e content with
              | None => LOG LogError "Boxcat failed to extract ZIP file!";;; failure
              | Some extracted =>
                  match dir_name with
                  | None =>
                      match w_dirs w !! title_id title with
                      | None => copy_failed
                      | Some target_dir =>
                          let copied :=
                            VfsRawCopyD e extracted target_dir VFS_COPY_BLOCK_SIZE in
                          put_dirs (<[title_id title := copied.2]> (w_dirs w));;;
                          if negb copied.1 then copy_failed else report_success
                      end
                  | Some name =>
                      match w_dirs w !! title_id title with
                      | None =>
                          LOG LogError "Boxcat failed to get directory for title ID!";;;
                          failure
                      | Some target_dir =>
                          match GetSubdirectory target_dir name,
                                GetSubdirectory extracted name with
                          | Some target_sub, Some source_sub =>
                              let copied :=
                                VfsRawCopyD e source_sub target_sub VFS_COPY_BLOCK_SIZE in
                              put_dirs (<[title_id title :=
                                            set_subdirectory target_dir name copied.2]>
                                          (w_dirs w));;;
                              if negb copied.1 then copy_failed else report_success
                          | _, _ => copy_failed
                          end
                      end
                  end
              end
          end) w1.
Proof.
  intros Hlocal Hfetch.
  assert (Hdirs : w_dirs w1 = w_dirs w).
  { rewrite fetch_eq in Hfetch.
    destruct (DownloadInternal_cases e
                (new_Client (GetZIPFilePath e (title_id title)) (title_id title)
                   (build_id title))
                (remote_path FetchArchive (title_id title)) (fetch_timeout FetchArchive)
                (digest_header_name FetchArchive) (expected_content_type FetchArchive) w)
      as (c2 & r2 & w2 & E & _ & Hd & _).
    pose proof (eq_trans (eq_sym Hfetch) E) as X. injection X as <- <- <-. exact Hd. }
  split; [exact Hdirs|].
  unfold SynchronizeInternal. rewrite Hlocal.
  unfold bind at 1.
  change (DownloadDataZip e
            (new_Client (GetZIPFilePath e (title_id title)) (title_id title)
               (build_id title)) w)
    with (fetch e FetchArchive
            (new_Client (GetZIPFilePath e (title_id title)) (title_id title)
               (build_id title)) w).
  rewrite Hfetch. cbn [snd].
  destruct (negb (bool_decide (res = Success))); [reflexivity|].
  unfold bind at 1. unfold read_back at 1. unfold bind at 1.
  unfold get_files at 1. unfold ret at 1.
  pose proof (read_back_test e (GetZIPFilePath e (title_id title)) (w_files w1)) as Htest.
  cbv zeta in Htest.
  destruct (usable_content e (GetZIPFilePath e (title_id title)) (w_files w1))
    as [content|].
  - destruct Htest as [-> ->].
    destruct (ExtractZIP e content) as [extracted|]; [|reflexivity].
    unfold bind at 1. unfold get_dirs at 1. rewrite Hdirs. reflexivity.
  - rewrite Htest. reflexivity.
Qed.

(** X11. A full synchronisation composes download, read-back, extraction
    and copy: when the download ends with [Success], the staged archive
    can be read back, it extracts, and the getter has a directory for the
    title, then the extracted tree is copied into that directory, the
    directory becomes what the copy left, no file changes after the
    download, and the callback receives the verdict of the copy. *)
Theorem Synchronize_copies_extracted_archive :
  forall e title w c' w1 content extracted target ok target',
    bcat_boxcat_local e = false ->
    fetch e FetchArchive
      (new_Client (GetZIPFilePath e (title_id title)) (title_id title) (build_id title)) w
    = (Returns (c', Success), w1) ->
    usable_content e (GetZIPFilePath e (title_id title)) (w_files w1) = Some content ->
    ExtractZIP e content = Some extracted ->
    w_dirs w !! title_id title = Some target ->
    VfsRawCopyD e extracted target VFS_COPY_BLOCK_SIZE = (ok, target') ->
    exists w',
      SynchronizeInternal e title None w = (Returns tt, w')
      /\ w_dirs w' = <[title_id title := target']> (w_dirs w)
      /\ w_files w' = w_files w1
      /\ w_trace w' = w_trace w1 ++ [EvLock; EvCallback ok; EvUnlock].
Proof.
  intros e title w c' w1 content extracted target ok target'
    Hlocal Hfetch Husable Hextract Htarget Hcopy.
  destruct (SynchronizeInternal_after_fetch e title None w c' Success w1 Hlocal Hfetch)
    as [Hdirs ->].
  rewrite bool_decide_eq_true_2 by reflexivity. cbn [negb].
  rewrite Husable, Hextract, Htarget. cbv zeta. rewrite Hcopy. cbn [fst snd].
  destruct ok; eexists; (split; [reflexivity|]); simpl;
    rewrite <- !app_assoc; auto.
Qed.

(** A 200 answer on a title with a target directory: the tree with "B" is
    copied in and the callback gets [true]. *)
Lemma Synchronize_copies_extracted_archive_witness :
  exists w' rq,
    SynchronizeInternal (Sample2.env_copying (Some Sample.zip_reply)) Sample.title None
      Sample2.world_with_target = (Returns tt, w')
    /\ w_trace w' = [EvHttpGet rq; EvLock; EvCallback true; EvUnlock]
    /\ w_files w' !! Sample.zip_path = Some [x50; x4b].
Proof.
  destruct (fetch (Sample2.env_copying (Some Sample.zip_reply)) FetchArchive
              (new_Client (GetZIPFilePath (Sample2.env_copying (Some Sample.zip_reply))
                             (title_id Sample.title))
                 (title_id Sample.title) (build_id Sample.title))
              Sample2.world_with_target) as [[[c' res]|why] w1] eqn:Hfetch;
    [|vm_compute in Hfetch; discriminate].
  assert (Hres : res = Success) by (vm_compute in Hfetch; congruence).
  subst res.
  assert (Hw1 : w_trace w1 = [EvHttpGet (built_request
                   (Sample2.env_copying (Some Sample.zip_reply))
                   (new_Client Sample.zip_path (title_id Sample.title)
                      (build_id Sample.title))
                   (remote_path FetchArchive (title_id Sample.title))
                   (fetch_timeout FetchArchive) (digest_header_name FetchArchive)
                   Sample2.world_with_target)]
                /\ w_files w1 = <[Sample.zip_path := [x50; x4b]]> ∅).
  { vm_compute in Hfetch. injection Hfetch as _ <-. split; vm_compute; reflexivity. }
  destruct Hw1 as [Htrace1 Hfiles1].
  destruct (Synchronize_copies_extracted_archive
              (Sample2.env_copying (Some Sample.zip_reply)) Sample.title
              Sample2.world_with_target c' w1 [x50; x4b] Sample2.extracted Sample2.target
              true (Dir "root" [("readme", [x01])] (GetSubdirectories Sample2.target))
              eq_refl Hfetch)
    as (w' & Hrun & _ & Hfiles & Htrace).
  - rewrite Hfiles1. reflexivity.
  - reflexivity.
  - reflexivity.
  - reflexivity.
  - exists w'. eexists. split; [exact Hrun|].
    rewrite Htrace, Htrace1, Hfiles, Hfiles1. split; reflexivity.
Defined.

(** X12. The target directory is written only by the copy.  When the
    download does not end with [Success], or the staged archive cannot be
    read back, or it does not extract, or the getter has no directory for
    the title, or (for a scoped synchronisation) the named subdirectory is
    missing in the target or in the archive, then no directory changes and
    the callback receives [false]. *)
Theorem Synchronize_failure_leaves_target :
  forall e title dir_name w c' res w1,
    bcat_boxcat_local e = false ->
    fetch e FetchArchive
      (new_Client (GetZIPFilePath e (title_id title)) (title_id title) (build_id title)) w
    = (Returns (c', res), w1) ->
    (res <> Success
     \/ usable_content e (GetZIPFilePath e (title_id title)) (w_files w1) = None
     \/ (exists content,
            usable_content e (GetZIPFilePath e (title_id title)) (w_files w1)
            = Some content
            /\ (ExtractZIP e content = None
                \/ w_dirs w !! title_id title = None
                \/ exists extracted target name,
                     ExtractZIP e content = Some extracted
                     /\ w_dirs w !! title_id title = Some target
                     /\ dir_name = Some name
                     /\ (GetSubdirectory target name = None
                         \/ GetSubdirectory extracted name = None)))) ->
    exists w' before,
      SynchronizeInternal e title dir_name w = (Returns tt, w')
      /\ w_dirs w' = w_dirs w
      /\ w_trace w' = before ++ [EvLock; EvCallback false; EvUnlock].
Proof.
  intros e title dir_name w c' res w1 Hlocal Hfetch Hwhy.
  destruct (SynchronizeInternal_after_fetch e title dir_name w c' res w1 Hlocal Hfetch)
    as [Hdirs ->].
  destruct (decide (res = Success)) as [->|Hne].
  2:{ rewrite bool_decide_eq_false_2 by assumption. cbn [negb].
      destruct (handle_download_failure_files e (GetZIPFilePath e (title_id title)) res w1)
        as (w2 & Hh & _).
      unfold bind at 1. rewrite Hh.
      assert (Hd2 : w_dirs w2 = w_dirs w1)
        by apply (handle_download_failure_rest _ _ _ _ _ Hh).
      eexists. exists (w_trace w2). split; [reflexivity|]. simpl.
      rewrite <- !app_assoc. split; [congruence | reflexivity]. }
  rewrite bool_decide_eq_true_2 by reflexivity. cbn [negb].
  destruct Hwhy as [Hbad | [Hnone | (content & Hsome & Hrest)]]; [contradiction | |].
  { rewrite Hnone. eexists. exists (w_trace w1). split; [reflexivity|]. simpl.
    rewrite <- !app_assoc. split; [exact Hdirs | reflexivity]. }
  rewrite Hsome.
  destruct Hrest as [Hex | [Hnull | (extracted & target & name & Hex & Htarget & -> & Hsub)]].
  - rewrite Hex. eexists. exists (w_trace w1). split; [reflexivity|]. simpl.
    rewrite <- !app_assoc. split; [exact Hdirs | reflexivity].
  - destruct (ExtractZIP e content) as [extracted|].
    + rewrite Hnull.
      destruct dir_name; eexists; exists (w_trace w1); (split; [reflexivity|]); simpl;
        rewrite <- !app_assoc; (split; [exact Hdirs | reflexivity]).
    + eexists. exists (w_trace w1). split; [reflexivity|]. simpl.
      rewrite <- !app_assoc. split; [exact Hdirs | reflexivity].
  - rewrite Hex, Htarget.
    destruct Hsub as [Hsub | Hsub]; rewrite Hsub;
      [| destruct (GetSubdirectory target name)];
      eexists; exists (w_trace w1); (split; [reflexivity|]); simpl;
      rewrite <- !app_assoc; (split; [exact Hdirs | reflexivity]).
Qed.

(** A 304 with nothing staged: [Success] from the transfer client, failure
    from the pipeline, the target as it was. *)
Lemma Synchronize_failure_leaves_target_witness :
  exists w' before,
    SynchronizeInternal (Sample2.env_copying (Some (Sample.status_reply 304)))
      Sample.title None Sample2.world_with_target = (Returns tt, w')
    /\ w_dirs w' = w_dirs Sample2.world_with_target
    /\ w_trace w' = before ++ [EvLock; EvCallback false; EvUnlock].
Proof.
  destruct (fetch (Sample2.env_copying (Some (Sample.status_reply 304))) FetchArchive
              (new_Client (GetZIPFilePath (Sample2.env_copying
                                             (Some (Sample.status_reply 304)))
                             (title_id Sample.title))
                 (title_id Sample.title) (build_id Sample.title))
              Sample2.world_with_target) as [[[c' res]|why] w1] eqn:Hfetch;
    [|vm_compute in Hfetch; discriminate].
  apply (Synchronize_failure_leaves_target
           (Sample2.env_copying (Some (Sample.status_reply 304))) Sample.title None
           Sample2.world_with_target c' res w1 eq_refl Hfetch).
  right. left. vm_compute in Hfetch. injection Hfetch as _ _ <-. reflexivity.
Defined.

Lemma replace_first_spec name new l old :
  List.find (fun s => String.eqb (GetName s) name) l = Some old ->
  GetName new = name ->
  List.find (fun s => String.eqb (GetName s) name) (replace_first name new l) = Some new
  /\ map GetName (replace_first name new l) = map GetName l
  /\ forall sibling, sibling <> name ->
       List.find (fun s => String.eqb (GetName s) sibling) (replace_first name new l)
       = List.find (fun s => String.eqb (GetName s) sibling) l.
Proof.
  intros Hfind Hname. induction l as [|x l IH]; [discriminate|].
  simpl in *. destruct (String.eqb_spec (GetName x) name) as [Hx|Hx].
  - simpl. rewrite Hname, String.eqb_refl.
    split; [reflexivity|]. split; [congruence|].
    intros sibling Hne.
    destruct (String.eqb_spec name sibling) as [E|_]; [congruence|].
    destruct (String.eqb_spec (GetName x) sibling) as [E|_]; [congruence | reflexivity].
  - destruct (IH Hfind) as (H1 & H2 & H3). simpl.
    destruct (String.eqb_spec (GetName x) name) as [E|_]; [contradiction|].
    split; [exact H1|]. split; [congruence|].
    intros sibling Hne. rewrite (H3 sibling Hne). reflexivity.
Qed.

(** X13. A scoped synchronisation replaces one subtree and nothing beside
    it: when the archive is there and extracts, and both the target and
    the archive have the named subdirectory, then the archive's
    subdirectory is copied into the target's, and, given that the copy
    keeps the name of its destination, the target afterwards has the same
    name, the same files and the same list of subdirectory names, the named
    subdirectory is what the copy left, and every sibling is as it was. *)
Theorem SynchronizeDirectory_leaves_siblings :
  forall e title name w c' w1 content extracted target target_sub source_sub ok copied,
    bcat_boxcat_local e = false ->
    fetch e FetchArchive
      (new_Client (GetZIPFilePath e (title_id title)) (title_id title) (build_id title)) w
    = (Returns (c', Success), w1) ->
    usable_content e (GetZIPFilePath e (title_id title)) (w_files w1) = Some content ->
    ExtractZIP e content = Some extracted ->
    w_dirs w !! title_id title = Some target ->
    GetSubdirectory target name = Some target_sub ->
    GetSubdirectory extracted name = Some source_sub ->
    VfsRawCopyD e source_sub target_sub VFS_COPY_BLOCK_SIZE = (ok, copied) ->
    GetName copied = GetName target_sub ->
    exists w' target',
      SynchronizeInternal e title (Some name) w = (Returns tt, w')
      /\ w_dirs w' = <[title_id title := target']> (w_dirs w)
      /\ GetName target' = GetName target
      /\ GetFiles target' = GetFiles target
      /\ map GetName (GetSubdirectories target') = map GetName (GetSubdirectories target)
      /\ GetSubdirectory target' name = Some copied
      /\ (forall sibling, sibling <> name ->
            GetSubdirectory target' sibling = GetSubdirectory target sibling)
      /\ w_trace w' = w_trace w1 ++ [EvLock; EvCallback ok; EvUnlock].
Proof.
  intros e title name w c' w1 content extracted target target_sub source_sub ok copied
    Hlocal Hfetch Husable Hextract Htarget Htsub Hssub Hcopy Hname.
  destruct (SynchronizeInternal_after_fetch e title (Some name) w c' Success w1
              Hlocal Hfetch) as [Hdirs ->].
  rewrite bool_decide_eq_true_2 by reflexivity. cbn [negb].
  rewrite Husable, Hextract, Htarget, Htsub, Hssub. cbv zeta. rewrite Hcopy. cbn [fst snd].
  assert (Hsubname : GetName target_sub = name).
  { unfold GetSubdirectory in Htsub. apply find_some in Htsub as [_ H].
    apply String.eqb_eq in H. exact H. }
  destruct target as [n f s]. unfold GetSubdirectory in Htsub. simpl in Htsub.
  destruct (replace_first_spec name copied s target_sub Htsub ltac:(congruence))
    as (H1 & H2 & H3).
  exists (if ok
          then set_trace (((w_trace w1 ++ [EvLock]) ++ [EvCallback true]) ++ [EvUnlock])
                 (set_dirs (<[title_id title := Dir n f (replace_first name copied s)]>
                              (w_dirs w)) w1)
          else set_trace (((w_trace w1 ++ [EvLock]) ++ [EvCallback false]) ++ [EvUnlock])
                 (set_log (w_log w1 ++ [(LogError,
                             "Boxcat failed to copy extracted ZIP to target directory!")])
                    (set_dirs (<[title_id title := Dir n f (replace_first name copied s)]>
                                 (w_dirs w)) w1))),
    (Dir n f (replace_first name copied s)).
  split; [destruct ok; reflexivity|].
  split; [destruct ok; reflexivity|].
  split; [reflexivity|]. split; [reflexivity|].
  split; [exact H2|]. split; [exact H1|]. split; [exact H3|].
  destruct ok; simpl; rewrite <- !app_assoc; reflexivity.
Qed.

(** The archive's "B" goes into the target's "B"; "A" and "C" are as they
    were. *)
Lemma SynchronizeDirectory_leaves_siblings_witness :
  exists w' target',
    SynchronizeInternal (Sample2.env_copying (Some Sample.zip_reply)) Sample.title
      (Some "B") Sample2.world_with_target = (Returns tt, w')
    /\ w_dirs w' !! title_id Sample.title = Some target'
    /\ GetSubdirectory target' "B"
       = Some (Dir "B" [("new", [x2a])] [Dir "inner" [] []])
    /\ GetSubdirectory target' "A" = Some (Dir "A" [("a", [x0a])] [])
    /\ GetSubdirectory target' "C" = Some (Dir "C" [] []).
Proof.
  destruct (fetch (Sample2.env_copying (Some Sample.zip_reply)) FetchArchive
              (new_Client (GetZIPFilePath (Sample2.env_copying (Some Sample.zip_reply))
                             (title_id Sample.title))
                 (title_id Sample.title) (build_id Sample.title))
              Sample2.world_with_target) as [[[c' res]|why] w1] eqn:Hfetch;
    [|vm_compute in Hfetch; discriminate].
  assert (Hres : res = Success) by (vm_compute in Hfetch; congruence).
  subst res.
  assert (Hfiles1 : w_files w1 = <[Sample.zip_path := [x50; x4b]]> ∅).
  { vm_compute in Hfetch. injection Hfetch as _ <-. vm_compute. reflexivity. }
  destruct (SynchronizeDirectory_leaves_siblings
              (Sample2.env_copying (Some Sample.zip_reply)) Sample.title "B"
              Sample2.world_with_target c' w1 [x50; x4b] Sample2.extracted Sample2.target
              (Dir "B" [] [Dir "inner" [] []]) (Dir "B" [("new", [x2a])] [])
              true (Dir "B" [("new", [x2a])] [Dir "inner" [] []])
              eq_refl Hfetch)
    as (w' & target' & Hrun & Hdirs & _ & _ & _ & HB & Hsib & _).
  - rewrite Hfiles1. reflexivity.
  - reflexivity.
  - reflexivity.
  - reflexivity.
  - reflexivity.
  - reflexivity.
  - reflexivity.
  - exists w', target'. split; [exact Hrun|].
    split; [rewrite Hdirs; apply lookup_insert_eq|].
    split; [exact HB|].
    rewrite (Hsib "A") by discriminate. rewrite (Hsib "C") by discriminate.
    split; reflexivity.
Defined.

Lemma SynchronizeInternal_touches e title dir_name w :
  (forall other, other <> GetZIPFilePath e (title_id title) ->
     w_files (SynchronizeInternal e title dir_name w).2 !! other = w_files w !! other)
  /\ (forall t, t <> title_id title ->
        w_dirs (SynchronizeInternal e title dir_name w).2 !! t = w_dirs w !! t)
  /\ w_is_syncing (SynchronizeInternal e title dir_name w).2 = w_is_syncing w.
Proof.
  destruct (bcat_boxcat_local e) eqn:Hlocal.
  { unfold SynchronizeInternal. rewrite Hlocal. repeat split. }
  set (c := new_Client (GetZIPFilePath e (title_id title)) (title_id title) (build_id title)).
  destruct (DownloadInternal_cases e c (remote_path FetchArchive (c_title_id c))
              (fetch_timeout FetchArchive) (digest_header_name FetchArchive)
              (expected_content_type FetchArchive) w)
    as (c' & res & w1 & Heq & _ & Hd & _ & Hs & Hother & _).
  assert (Hfetch : fetch e FetchArchive c w = (Returns (c', res), w1))
    by (rewrite fetch_eq; exact Heq).
  destruct (SynchronizeInternal_after_fetch e title dir_name w c' res w1 Hlocal Hfetch)
    as [_ ->].
  change (c_path c) with (GetZIPFilePath e (title_id title)) in Hother.
  destruct (decide (res = Success)) as [->|Hne].
  2:{ rewrite bool_decide_eq_false_2 by assumption. cbn [negb].
      destruct (handle_download_failure_files e (GetZIPFilePath e (title_id title)) res w1)
        as (w2 & Hh & Hf).
      unfold bind at 1 2 3. rewrite Hh.
      assert (Hrest : w_dirs w2 = w_dirs w1 /\ w_is_syncing w2 = w_is_syncing w1)
        by apply (handle_download_failure_rest _ _ _ _ _ Hh).
      destruct Hrest as [Hd2 Hs2]. simpl.
      split; [|split; [intros; congruence | congruence]].
      intros other Hne'. rewrite Hf.
      destruct (_ || _); [destruct (delete_ok e _);
                           [rewrite lookup_delete_ne by congruence|]|];
        apply Hother; exact Hne'. }
  rewrite bool_decide_eq_true_2 by reflexivity. cbn [negb].
  unfold copy_failed, failure, report_success. run_m.
  repeat case_match; simpl;
    (split; [exact Hother|]);
    (split; [|congruence]);
    intros t Hne; rewrite ?lookup_insert_ne by congruence; congruence.
Qed.

Lemma GetLaunchParameter_touches e title w :
  (forall other, other <> GetBINFilePath e (title_id title) ->
     w_files (GetLaunchParameter e title w).2 !! other = w_files w !! other)
  /\ w_dirs (GetLaunchParameter e title w).2 = w_dirs w
  /\ w_is_syncing (GetLaunchParameter e title w).2 = w_is_syncing w.
Proof.
  destruct (bcat_boxcat_local e) eqn:Hlocal.
  { unfold GetLaunchParameter. rewrite Hlocal. unfold read_back. run_m.
    destruct (_ || _); repeat split. }
  destruct (DownloadInternal_cases e
              (new_Client (GetBINFilePath e (title_id title)) (title_id title)
                 (build_id title))
              (remote_path FetchLaunchParameter (title_id title))
              (fetch_timeout FetchLaunchParameter)
              (digest_header_name FetchLaunchParameter)
              (expected_content_type FetchLaunchParameter) w)
    as (c' & res & w1 & Heq & _ & Hd & _ & Hs & Hother & _).
  cbn [c_path new_Client] in Hother.
  assert (Hfetch : DownloadLaunchParam e
                     (new_Client (GetBINFilePath e (title_id title)) (title_id title)
                        (build_id title)) w = (Returns (c', res), w1)) by exact Heq.
  unfold GetLaunchParameter. rewrite Hlocal. unfold bind.
  rewrite Hfetch. cbn [snd].
  destruct (decide (res = Success)) as [->|Hne].
  - rewrite bool_decide_eq_true_2 by reflexivity. cbn [negb].
    unfold read_back. run_m. destruct (_ || _); simpl; auto.
  - rewrite bool_decide_eq_false_2 by assumption. cbn [negb].
    destruct (handle_download_failure_files e (GetBINFilePath e (title_id title)) res w1)
      as (w2 & Hh & Hf).
    rewrite Hh.
    assert (Hrest : w_dirs w2 = w_dirs w1 /\ w_is_syncing w2 = w_is_syncing w1)
      by apply (handle_download_failure_rest _ _ _ _ _ Hh).
    destruct Hrest as [Hd2 Hs2]. simpl.
    split; [|split; congruence].
    intros other Hne'. rewrite Hf.
    destruct (_ || _); [destruct (delete_ok e _);
                         [rewrite lookup_delete_ne by congruence|]|];
      apply Hother; exact Hne'.
Qed.

(** X14. A synchronisation and a launch-parameter fetch stay with their
    own title: on every path the only host file that can change is the
    staging file of that title and kind, the only directory that can change
    is that title's target (and [GetLaunchParameter] changes no directory
    at all), and the flag [is_syncing] is not written. *)
Theorem fetch_callers_stay_with_their_title :
  forall e op title dir_name w,
    (forall other, other <> staging_path e op (title_id title) ->
       w_files (after_caller e op title dir_name w) !! other = w_files w !! other)
    /\ (forall t, t <> title_id title ->
          w_dirs (after_caller e op title dir_name w) !! t = w_dirs w !! t)
    /\ (op = FetchLaunchParameter ->
        w_dirs (after_caller e op title dir_name w) = w_dirs w)
    /\ w_is_syncing (after_caller e op title dir_name w) = w_is_syncing w.
Proof.
  intros e op title dir_name w. destruct op; simpl.
  - destruct (SynchronizeInternal_touches e title dir_name w) as (Hf & Hd & Hs).
    split; [exact Hf|]. split; [exact Hd|]. split; [discriminate | exact Hs].
  - destruct (GetLaunchParameter_touches e title w) as (Hf & Hd & Hs).
    split; [exact Hf|]. split; [intros; rewrite Hd; reflexivity|].
    split; [intros _; exact Hd | exact Hs].
Qed.

(** A 406 on the launch parameter removes that file and leaves the staged
    archive of the same title where it is. *)
Lemma fetch_callers_stay_with_their_title_witness :
  w_files (after_caller (Sample.env false (Some (Sample.status_reply 406)) None)
             FetchLaunchParameter Sample.title None Sample.staged_world)
    !! Sample.zip_path = Some [x50; x4b; x03].
Proof.
  destruct (fetch_callers_stay_with_their_title
              (Sample.env false (Some (Sample.status_reply 406)) None)
              FetchLaunchParameter Sample.title None Sample.staged_world)
    as (Hfiles & _).
  rewrite (Hfiles Sample.zip_path); [reflexivity | discriminate].
Defined.

(** ** The flag [is_syncing] *)

Lemma KeepsSyncing_ret {A} (a : A) : KeepsSyncing (ret a).
Proof. intros w H. exact H. Qed.

Lemma KeepsSyncing_abort {A} why : KeepsSyncing (@abort A why).
Proof. intros w H. exact H. Qed.

Lemma KeepsSyncing_bind {A B} (m : M A) (k : A -> M B) :
  KeepsSyncing m -> (forall a, KeepsSyncing (k a)) -> KeepsSyncing (bind m k).
Proof.
  intros Hm Hk w H. unfold bind. specialize (Hm w H).
  destruct (m w) as [[a|why] w1]; simpl in Hm; [apply Hk; exact Hm | exact Hm].
Qed.

Lemma KeepsSyncing_emit ev : KeepsSyncing (emit ev).
Proof. intros w H. exact H. Qed.

Lemma KeepsSyncing_LOG lvl text : KeepsSyncing (LOG lvl text).
Proof. intros w H. exact H. Qed.

Lemma KeepsSyncing_get_files : KeepsSyncing get_files.
Proof. intros w H. exact H. Qed.

Lemma KeepsSyncing_put_files f : KeepsSyncing (put_files f).
Proof. intros w H. exact H. Qed.

Lemma KeepsSyncing_get_dirs : KeepsSyncing get_dirs.
Proof. intros w H. exact H. Qed.

Lemma KeepsSyncing_put_dirs d : KeepsSyncing (put_dirs d).
Proof. intros w H. exact H. Qed.

Lemma KeepsSyncing_set_true :
  KeepsSyncing (fun w => (Returns tt, set_is_syncing true w)).
Proof. intros w H. reflexivity. Qed.

Create HintDb keepsyncing.
#[local] Hint Resolve KeepsSyncing_ret KeepsSyncing_abort KeepsSyncing_emit
  KeepsSyncing_LOG KeepsSyncing_get_files KeepsSyncing_put_files KeepsSyncing_get_dirs
  KeepsSyncing_put_dirs KeepsSyncing_set_true : keepsyncing.

Ltac keeps_step :=
  match goal with
  | |- KeepsSyncing (bind _ _) => apply KeepsSyncing_bind; [| intros ?]
  | |- KeepsSyncing (if ?b then _ else _) => destruct b
  | |- KeepsSyncing (match ?x with _ => _ end) => destruct x
  | |- KeepsSyncing _ => solve [auto with keepsyncing]
  end.

Ltac keeps := cbv zeta; repeat keeps_step.

Lemma KeepsSyncing_DownloadInternal e c rp t dh ct :
  KeepsSyncing (DownloadInternal e c rp t dh ct).
Proof.
  unfold DownloadInternal, request_headers, Exists, read_back, write_staging. keeps.
Qed.

#[local] Hint Resolve KeepsSyncing_DownloadInternal : keepsyncing.

Lemma KeepsSyncing_handle_download_failure e path res :
  KeepsSyncing (handle_download_failure e path res).
Proof.
  unfold handle_download_failure, HandleDownloadDisplayResult, Delete. keeps.
Qed.

#[local] Hint Resolve KeepsSyncing_handle_download_failure : keepsyncing.

Lemma KeepsSyncing_SynchronizeInternal e title dir_name :
  KeepsSyncing (SynchronizeInternal e title dir_name).
Proof.
  unfold SynchronizeInternal, DownloadDataZip, copy_failed, failure, report_success,
    read_back.
  keeps.
Qed.

#[local] Hint Resolve KeepsSyncing_SynchronizeInternal : keepsyncing.

Lemma KeepsSyncing_decode_games items : forall games,
  KeepsSyncing (decode_games items games).
Proof.
  induction items as [|item items IH]; intros games; simpl; [apply KeepsSyncing_ret|].
  destruct item; try apply IH.
  destruct (bool_decide _); [|apply IH].
  apply KeepsSyncing_bind; [| intros entry; apply IH].
  unfold decode_game, JsonOps.at_const, JsonOps.get_string. keeps.
Qed.

#[local] Hint Resolve KeepsSyncing_decode_games : keepsyncing.

Lemma KeepsSyncing_call e c : KeepsSyncing (call e c).
Proof.
  destruct c; simpl;
    unfold Synchronize, SynchronizeDirectory, Clear, SetPassphrase, GetLaunchParameter,
      DownloadLaunchParam, read_back, GetStatus, JsonOps.at_mutable, JsonOps.get_bool,
      JsonOps.get_string;
    keeps.
Qed.

(** X15. The flag [is_syncing] only ever goes up: [Synchronize] and
    [SynchronizeDirectory] leave it set, whatever the outcome, and no run
    of calls of the backend clears it again. *)
Theorem is_syncing_is_never_cleared :
  forall e,
    (forall title w, w_is_syncing (Synchronize e title w).2 = true)
    /\ (forall title name w, w_is_syncing (SynchronizeDirectory e title name w).2 = true)
    /\ (forall cs w, w_is_syncing w = true -> w_is_syncing (calls e cs w).2 = true).
Proof.
  intros e. split; [|split].
  - intros title w. unfold Synchronize. unfold bind at 1.
    assert (K : KeepsSyncing (SynchronizeInternal e title None;;; ret true))
      by (apply KeepsSyncing_bind; [apply KeepsSyncing_SynchronizeInternal
                                   | intros; apply KeepsSyncing_ret]).
    apply K. reflexivity.
  - intros title name w. unfold SynchronizeDirectory. unfold bind at 1.
    assert (K : KeepsSyncing (SynchronizeInternal e title (Some name);;; ret true))
      by (apply KeepsSyncing_bind; [apply KeepsSyncing_SynchronizeInternal
                                   | intros; apply KeepsSyncing_ret]).
    apply K. reflexivity.
  - intros cs. induction cs as [|c cs IH]; intros w H; [exact H|].
    simpl.
    assert (K : KeepsSyncing (let! a := call e c in
                              let! others := calls e cs in ret (a :: others))).
    { apply KeepsSyncing_bind; [apply KeepsSyncing_call | intros a].
      apply KeepsSyncing_bind; [exact IH | intros; apply KeepsSyncing_ret]. }
    apply K. exact H.
Qed.

(** After a synchronisation that failed, a clear and a status query, the
    flag is still set. *)
Lemma is_syncing_is_never_cleared_witness :
  w_is_syncing
    (calls (Sample.env false None None)
       [CallClear (title_id Sample.title); CallGetStatus None ∅]
       (Synchronize (Sample.env false None None) Sample.title Sample.staged_world).2).2
  = true.
Proof.
  destruct (is_syncing_is_never_cleared (Sample.env false None None)) as (Hset & _ & Hkeep).
  apply Hkeep. apply Hset.
Defined.

(** ** Notifications and the unchanged archive *)

Lemma handle_download_failure_trace e path res w :
  exists w',
    handle_download_failure e path res w = (Returns tt, w')
    /\ w_trace w'
       = w_trace w
         ++ (if bool_decide (res = NoMatchBuildId) || bool_decide (res = BadClientVersion)
             then [EvShowCustomErrorText (-1)
                     "There was an error while attempting to use Boxcat."
                     (DownloadResult_message res)]
             else []).
Proof.
  unfold handle_download_failure, Delete.
  destruct res; run_m; destruct (delete_ok e path); eexists; (split; [reflexivity|]);
    simpl; rewrite ?app_nil_r; reflexivity.
Qed.

(** X16. What a failed download lets the user see: after the request, the
    error text is shown at most once, for [NoMatchBuildId] and
    [BadClientVersion] only, with the message of the result; the pipeline
    shows it before it takes the lock and then calls back with [false];
    [GetLaunchParameter] shows it and returns no value, without reading
    the staging file. *)
Theorem failed_download_is_shown_then_reported :
  forall e op title dir_name w c' res w1,
    bcat_boxcat_local e = false ->
    fetch e op (new_Client (staging_path e op (title_id title))
                  (title_id title) (build_id title)) w = (Returns (c', res), w1) ->
    res <> Success ->
    let shown :=
      if bool_decide (res = NoMatchBuildId) || bool_decide (res = BadClientVersion)
      then [EvShowCustomErrorText (-1)
              "There was an error while attempting to use Boxcat."
              (DownloadResult_message res)]
      else [] in
    match op with
    | FetchArchive =>
        exists w',
          SynchronizeInternal e title dir_name w = (Returns tt, w')
          /\ w_trace w' = w_trace w1 ++ shown ++ [EvLock; EvCallback false; EvUnlock]
    | FetchLaunchParameter =>
        exists w',
          GetLaunchParameter e title w = (Returns None, w')
          /\ w_trace w' = w_trace w1 ++ shown
    end.
Proof.
  intros e op title dir_name w c' res w1 Hlocal Hfetch Hne shown.
  destruct (handle_download_failure_trace e (staging_path e op (title_id title)) res w1)
    as (w2 & Hh & Ht).
  destruct op; simpl in Hh.
  - destruct (SynchronizeInternal_after_fetch e title dir_name w c' res w1 Hlocal Hfetch)
      as [_ ->].
    rewrite bool_decide_eq_false_2 by assumption. cbn [negb].
    unfold bind at 1. rewrite Hh.
    eexists. split; [reflexivity|]. simpl. rewrite Ht, <- !app_assoc. reflexivity.
  - unfold GetLaunchParameter. rewrite Hlocal. unfold bind at 1.
    change (DownloadLaunchParam e
              (new_Client (GetBINFilePath e (title_id title)) (title_id title)
                 (build_id title)) w)
      with (fetch e FetchLaunchParameter
              (new_Client (staging_path e FetchLaunchParameter (title_id title))
                 (title_id title) (build_id title)) w).
    rewrite Hfetch. cbn [snd].
    rewrite bool_decide_eq_false_2 by assumption. cbn [negb].
    unfold bind at 1. rewrite Hh. unfold ret.
    eexists. split; [reflexivity | exact Ht].
Qed.

(** A version mismatch during a synchronisation: request, error text, then
    the callback under the lock. *)
Lemma failed_download_is_shown_then_reported_witness :
  exists w' rq,
    SynchronizeInternal (Sample.env false (Some (Sample.status_reply 301)) None)
      Sample.title None Sample.staged_world = (Returns tt, w')
    /\ w_trace w'
       = [EvHttpGet rq;
          EvShowCustomErrorText (-1) "There was an error while attempting to use Boxcat."
            (DownloadResult_message BadClientVersion);
          EvLock; EvCallback false; EvUnlock].
Proof.
  destruct (fetch (Sample.env false (Some (Sample.status_reply 301)) None) FetchArchive
              (new_Client (staging_path (Sample.env false (Some (Sample.status_reply 301))
                                           None) FetchArchive (title_id Sample.title))
                 (title_id Sample.title) (build_id Sample.title))
              Sample.staged_world) as [[[c' res]|why] w1] eqn:Hfetch;
    [|vm_compute in Hfetch; discriminate].
  assert (Hres : res = BadClientVersion) by (vm_compute in Hfetch; congruence).
  subst res.
  destruct (failed_download_is_shown_then_reported
              (Sample.env false (Some (Sample.status_reply 301)) None) FetchArchive
              Sample.title None Sample.staged_world c' BadClientVersion w1
              eq_refl Hfetch ltac:(discriminate)) as (w' & Hrun & Htrace).
  exists w'. eexists. split; [exact Hrun|].
  rewrite Htrace. vm_compute in Hfetch. injection Hfetch as _ <-. reflexivity.
Defined.

(** X17. "Not modified" still extracts and copies: on status 304 the
    pipeline writes no file and goes on with the archive that was staged
    before; when that can be read back and extracts and the title has a
    target directory, it is copied into the target once more and the
    callback receives the verdict of the copy. *)
Theorem Synchronize_not_modified_copies_staged_archive :
  forall e title w r content extracted target ok target',
    bcat_boxcat_local e = false ->
    http_get e (built_request e
                  (new_Client (GetZIPFilePath e (title_id title))
                     (title_id title) (build_id title))
                  (remote_path FetchArchive (title_id title))
                  (fetch_timeout FetchArchive)
                  (digest_header_name FetchArchive) w) = Some r ->
    status r = 304%Z ->
    usable_content e (GetZIPFilePath e (title_id title)) (w_files w) = Some content ->
    ExtractZIP e content = Some extracted ->
    w_dirs w !! title_id title = Some target ->
    VfsRawCopyD e extracted target VFS_COPY_BLOCK_SIZE = (ok, target') ->
    exists w' rq,
      SynchronizeInternal e title None w = (Returns tt, w')
      /\ w_files w' = w_files w
      /\ w_dirs w' = <[title_id title := target']> (w_dirs w)
      /\ w_trace w' = w_trace w ++ [EvHttpGet rq; EvLock; EvCallback ok; EvUnlock].
Proof.
  intros e title w r content extracted target ok target'
    Hlocal Hget H304 Husable Hextract Htarget Hcopy.
  destruct (DownloadInternal_cases e
              (new_Client (GetZIPFilePath e (title_id title)) (title_id title)
                 (build_id title))
              (remote_path FetchArchive (title_id title)) (fetch_timeout FetchArchive)
              (digest_header_name FetchArchive) (expected_content_type FetchArchive) w)
    as (c' & res & w1 & Heq & Htrace & _ & _ & _ & _ & _ & Hsome).
  destruct (Hsome r Hget) as (H & _). destruct (H H304) as (-> & Hfiles).
  assert (Hfetch : fetch e FetchArchive
                     (new_Client (GetZIPFilePath e (title_id title)) (title_id title)
                        (build_id title)) w = (Returns (c', Success), w1)) by exact Heq.
  destruct (SynchronizeInternal_after_fetch e title None w c' Success w1 Hlocal Hfetch)
    as [Hdirs ->].
  rewrite bool_decide_eq_true_2 by reflexivity. cbn [negb].
  rewrite Hfiles, Husable, Hextract, Htarget. cbv zeta. rewrite Hcopy. cbn [fst snd].
  destruct ok; eexists; eexists; (split; [reflexivity|]); simpl;
    rewrite Htrace, <- !app_assoc; auto.
Qed.

(** A 304 with an archive staged: the callback gets [true] and the staged
    bytes are untouched. *)
Lemma Synchronize_not_modified_copies_staged_archive_witness :
  exists w' rq,
    SynchronizeInternal (Sample.env false (Some (Sample.status_reply 304)) None)
      Sample.title None Sample.staged_world = (Returns tt, w')
    /\ w_files w' = w_files Sample.staged_world
    /\ w_trace w' = [EvHttpGet rq; EvLock; EvCallback true; EvUnlock].
Proof.
  destruct (Synchronize_not_modified_copies_staged_archive
              (Sample.env false (Some (Sample.status_reply 304)) None) Sample.title
              Sample.staged_world (Sample.status_reply 304) [x50; x4b; x03]
              (Dir "" [] []) (Dir "" [] []) true (Dir "" [] [])
              eq_refl eq_refl eq_refl eq_refl eq_refl eq_refl eq_refl)
    as (w' & rq & Hrun & Hfiles & _ & Htrace).
  exists w', rq. split; [exact Hrun|]. split; [exact Hfiles | exact Htrace].
Defined.

(** X18. [GetLaunchParameter] is a plain synchronous call: it always
    returns, it never takes the lock and never calls a completion
    callback, and what it adds to the trace is at most one request,
    followed by at most one error text; with the override set it adds
    nothing, and with the override unset it adds exactly the one request
    and then nothing or one error text. *)
Theorem GetLaunchParameter_returns_quietly :
  forall e title w,
  exists r added w',
    GetLaunchParameter e title w = (Returns r, w')
    /\ w_trace w' = w_trace w ++ added
    /\ quiet added /\ (http_count added <= 1)%nat
    /\ (length added <= 2)%nat
    /\ (bcat_boxcat_local e = true -> added = [])
    /\ (bcat_boxcat_local e = false ->
        exists rq shown,
          added = EvHttpGet rq :: shown
          /\ (shown = []
              \/ exists code main detail,
                   shown = [EvShowCustomErrorText code main detail])).
Proof.
  intros e title w.
  destruct (bcat_boxcat_local e) eqn:Hlocal.
  { unfold GetLaunchParameter. rewrite Hlocal. unfold read_back. run_m.
    destruct (_ || _); eexists; exists []; eexists;
      (split; [reflexivity|]); simpl; rewrite app_nil_r;
      repeat split; auto; try discriminate; unfold http_count; simpl; lia. }
  destruct (DownloadInternal_cases e
              (new_Client (GetBINFilePath e (title_id title)) (title_id title)
                 (build_id title))
              (remote_path FetchLaunchParameter (title_id title))
              (fetch_timeout FetchLaunchParameter)
              (digest_header_name FetchLaunchParameter)
              (expected_content_type FetchLaunchParameter) w)
    as (c' & res & w1 & Heq & Htrace & _).
  assert (Hfetch : fetch e FetchLaunchParameter
                     (new_Client (staging_path e FetchLaunchParameter (title_id title))
                        (title_id title) (build_id title)) w = (Returns (c', res), w1))
    by exact Heq.
  destruct (decide (res = Success)) as [->|Hne].
  - destruct (GetLaunchParameter_after_fetch e title w c' Success w1 Hlocal Hfetch)
      as (w' & Hrun & _ & Hsame).
    destruct (Hsame eq_refl) as (_ & Ht).
    do 2 eexists. exists w'. split; [exact Hrun|].
    split; [rewrite Ht; exact Htrace|].
    split; [reflexivity|]. split; [unfold http_count; simpl; lia|].
    split; [simpl; lia|]. split; [discriminate|].
    intros _. do 2 eexists. split; [reflexivity|]. left. reflexivity.
  - destruct (handle_download_failure_trace e (GetBINFilePath e (title_id title)) res w1)
      as (w2 & Hh & Ht).
    unfold GetLaunchParameter. rewrite Hlocal. unfold bind at 1.
    change (DownloadLaunchParam e
              (new_Client (GetBINFilePath e (title_id title)) (title_id title)
                 (build_id title)) w)
      with (fetch e FetchLaunchParameter
              (new_Client (staging_path e FetchLaunchParameter (title_id title))
                 (title_id title) (build_id title)) w).
    rewrite Hfetch. cbn [snd].
    rewrite bool_decide_eq_false_2 by assumption. cbn [negb].
    unfold bind at 1. rewrite Hh. unfold ret.
    do 3 eexists. split; [reflexivity|].
    split; [rewrite Ht, Htrace, <- app_assoc; reflexivity|].
    destruct (_ || _).
    + split; [reflexivity|]. split; [unfold http_count; simpl; lia|].
      split; [simpl; lia|]. split; [discriminate|].
      intros _. do 2 eexists. split; [reflexivity|]. right. do 3 eexists. reflexivity.
    + split; [reflexivity|]. split; [unfold http_count; simpl; lia|].
      split; [simpl; lia|]. split; [discriminate|].
      intros _. do 2 eexists. split; [reflexivity|]. left. reflexivity.
Qed.

(** ** Instances *)

(** A refused deletion in one title's directory leaves another title's
    directory alone. *)
Lemma Clear_touches_one_directory_witness :
  w_dirs (Clear Sample2.env_refusing_B 9 Sample2.world_with_target).2
    !! title_id Sample.title = Some Sample2.target
  /\ w_trace (Clear Sample2.env_refusing_B (title_id Sample.title)
                Sample2.world_with_target).2 = [].
Proof.
  destruct (Clear_touches_one_directory Sample2.env_refusing_B 9 Sample2.world_with_target)
    as (_ & _ & _ & Hother).
  destruct (Clear_touches_one_directory Sample2.env_refusing_B (title_id Sample.title)
              Sample2.world_with_target) as (Htrace & _).
  split; [|exact Htrace].
  rewrite (Hother (title_id Sample.title)); [reflexivity | discriminate].
Defined.

(** The message of the last result is the last entry of the table. *)
Lemma messages_one_per_result_witness :
  DOWNLOAD_RESULT_LOG_MESSAGES !! 7%nat = Some (DownloadResult_message BadClientVersion)
  /\ DownloadResult_message NoMatchTitleId <> DownloadResult_message NoMatchBuildId.
Proof.
  destruct messages_one_per_result as (_ & _ & Hat & Hinj).
  split; [exact (Hat BadClientVersion)|].
  intros Heq. apply Hinj in Heq. discriminate.
Defined.

(** With the override set, nothing is added to the trace. *)
Lemma GetLaunchParameter_returns_quietly_witness :
  exists r w',
    GetLaunchParameter (Sample.env true None None) Sample.title Sample.staged_world
    = (Returns r, w')
    /\ w_trace w' = w_trace Sample.staged_world.
Proof.
  destruct (GetLaunchParameter_returns_quietly (Sample.env true None None) Sample.title
              Sample.staged_world)
    as (r & added & w' & Hrun & Htrace & _ & _ & _ & Hlocal & _).
  exists r, w'. split; [exact Hrun|].
  rewrite Htrace, (Hlocal eq_refl), app_nil_r. reflexivity.
Defined.
